(** * Log analysis of the network test harness

    A shallow embedding of [analyze_test_logs.py] (the structured log
    analyzer: [LogAnalyzer], [ReportGenerator]) and of the parts of
    [tools/test_framework.py] / [testing/tools/test_framework.py] that
    analyse raw logs and write the "Issues Detected" section of the
    summary, followed by the properties that the specification states
    about them.

    Modelling conventions.
    - A Python [str] is a [list ascii]; a character is a code point below
      256, classified as Python classifies the Latin-1 range.
    - A Python [int] is a [Z].
    - A Python [float] is a [spec_float] of the Standard Library at
      binary64 (precision 53, [emax] 1024), and every float operation is
      the correctly rounded one of [SpecFloat].
    - A [dict] whose keys are data (log metadata, the file system) is a
      [gmap]; a [dict] that is dumped to JSON keeps its insertion order
      and is an association list inside [json].
    - A call that can raise returns a [result]: [Ok v] for a returned
      value, [Raise e] for an exception. *)

From Stdlib Require Import ZArith NArith List Ascii String Bool Lia.
From Stdlib Require Import Numbers.DecimalString.
From Stdlib Require Import Floats.SpecFloat.
From stdpp Require Import base option list gmap strings.

Local Open Scope Z_scope.
Local Open Scope list_scope.

Abbreviation str := (list ascii).

(** String literals of the source, as character lists. *)
Notation "'$' s" := (list_ascii_of_string s) (at level 1, s at level 0, format "'$' s").

(** ** Python exceptions *)

Inductive exn :=
| ZeroDivisionError
| FileNotFoundError
| PermissionError
| OverflowError
| ValueError
| KeyError
| TypeError
| FileExistsError.

Inductive result (A : Type) :=
| Ok (a : A)
| Raise (e : exn).
Arguments Ok {A} a.
Arguments Raise {A} e.

#[global] Instance result_ret : MRet result := @Ok.

#[global] Instance result_bind : MBind result := fun A B f r =>
  match r with
  | Ok a => f a
  | Raise e => Raise e
  end.

(** A statement guarded by a condition, [if c: r = f(r)]. *)
Definition when {A} (c : bool) (f : A -> A) (r : A) : A :=
  if c then f r else r.

(** ** Text primitives ([str] methods and character classes) *)

Module PyStr.

Definition code (c : ascii) : N := N_of_ascii c.

Definition between (lo hi : N) (c : ascii) : bool :=
  ((lo <=? code c) && (code c <=? hi))%N.

(** [str.isspace] on one character; also the class [\s] of [re] on
    [str] patterns. *)
Definition isspace (c : ascii) : bool :=
  between 9 13 c || between 28 32 c || between 133 133 c || between 160 160 c.

(** The class [\d]: decimal digits (category Nd). *)
Definition isdigit (c : ascii) : bool := between 48 57 c.

(** [str.isalnum] on one character. *)
Definition isalnum (c : ascii) : bool :=
  between 48 57 c || between 65 90 c || between 97 122 c
  || between 170 170 c || between 178 179 c || between 181 181 c
  || between 185 186 c || between 188 190 c
  || between 192 214 c || between 216 246 c || between 248 255 c.

(** The class [\w]. *)
Definition isword (c : ascii) : bool := isalnum c || Ascii.eqb c "_".

(** [str.lower] on one character. *)
Definition lower_char (c : ascii) : ascii :=
  if between 65 90 c || between 192 214 c || between 216 222 c
  then ascii_of_N (code c + 32)
  else c.

Definition lower (s : str) : str := map lower_char s.

Fixpoint dropwhile (p : ascii -> bool) (s : str) : str :=
  match s with
  | [] => []
  | c :: t => if p c then dropwhile p t else s
  end.

Definition lstrip (s : str) : str := dropwhile isspace s.

Definition rstrip (s : str) : str := rev (dropwhile isspace (rev s)).

(** [s.strip()] *)
Definition strip (s : str) : str := rstrip (lstrip s).

Fixpoint startswith (p s : str) : bool :=
  match p, s with
  | [], _ => true
  | _ :: _, [] => false
  | a :: p', b :: s' => Ascii.eqb a b && startswith p' s'
  end.

(** [needle in haystack] *)
Fixpoint contains (needle haystack : str) : bool :=
  startswith needle haystack ||
  match haystack with
  | [] => false
  | _ :: t => contains needle t
  end.

(** [s.split()]: maximal runs of non-whitespace characters. [cur] is
    the run being read, in reverse. *)
Fixpoint split_ws_aux (cur : str) (s : str) : list str :=
  match s with
  | [] => match cur with [] => [] | _ => [rev cur] end
  | c :: t =>
      if isspace c
      then match cur with
           | [] => split_ws_aux [] t
           | _ => rev cur :: split_ws_aux [] t
           end
      else split_ws_aux (c :: cur) t
  end.

Definition split_ws (s : str) : list str := split_ws_aux [] s.

(** [s.split(c, 1)] for a one-character separator that occurs in [s]:
    the text before the first [c] and the text after it. *)
Fixpoint split_first (c : ascii) (s : str) : option (str * str) :=
  match s with
  | [] => None
  | a :: t =>
      if Ascii.eqb a c then Some ([], t)
      else match split_first c t with
           | Some (k, v) => Some (a :: k, v)
           | None => None
           end
  end.

(** [str(n)] for an [int]. *)
Definition of_Z (n : Z) : str :=
  list_ascii_of_string (NilZero.string_of_int (Z.to_int n)).

(** The line feed and the double quote of the texts. *)
Definition nl : str := ["010"%char].
Definition dq : str := ["034"%char].

(** [s.split(c)] for a one-character separator: the texts between
    the occurrences of [c], empty ones included. *)
Fixpoint split_char (c : ascii) (s : str) : list str :=
  match s with
  | [] => [[]]
  | a :: t =>
      if Ascii.eqb a c then [] :: split_char c t
      else match split_char c t with
           | w :: ws => (a :: w) :: ws
           | [] => [[a]]
           end
  end.

(** [s.split(sep)[0]] for a non-empty separator: the text before the
    first occurrence of [sep], all of [s] when there is none. *)
Fixpoint split_head (sep s : str) : str :=
  if startswith sep s then []
  else match s with
       | [] => []
       | c :: t => c :: split_head sep t
       end.

(** [sep.join(l)] *)
Fixpoint join (sep : str) (l : list str) : str :=
  match l with
  | [] => []
  | [x] => x
  | x :: rest => x ++ sep ++ join sep rest
  end.

End PyStr.

(** ** Floating point ([float]) at binary64 *)

Module PyFloat.

Definition prec : Z := 53.
Definition emax : Z := 1024.

(** The double nearest to the rational [a / b] (ties to even), for
    [b <> 0]. The quotient is taken on the integers themselves, so the
    result is rounded once whatever the size of [a] and [b]; this is
    what [int / int] and [float] of a decimal literal compute. *)
Definition round_div (a b : Z) : spec_float :=
  match a with
  | Z0 => S754_zero false
  | _ =>
      let '(q, e, l) := SFdiv_core_binary prec emax (Z.abs a) 0 (Z.abs b) 0 in
      binary_round_aux prec emax (xorb (a <? 0) (b <? 0)) q e l
  end.

(** [a / b] on two [int]s. *)
Definition true_divide (a b : Z) : result spec_float :=
  if b =? 0 then Raise ZeroDivisionError
  else match round_div a b with
       | S754_infinity _ => Raise OverflowError
       | x => Ok x
       end.

(** [a // b] on two [int]s; [Z.div] rounds toward minus infinity as
    Python does. *)
Definition floor_divide (a b : Z) : result Z :=
  if b =? 0 then Raise ZeroDivisionError else Ok (a / b).

(** [float(n)] for an [int]. *)
Definition of_int (n : Z) : result spec_float :=
  match binary_normalize prec emax n 0 false with
  | S754_infinity _ => Raise OverflowError
  | x => Ok x
  end.

Definition mul : spec_float -> spec_float -> spec_float := SFmul prec emax.
Definition sub : spec_float -> spec_float -> spec_float := SFsub prec emax.

(** [x > y] on two floats. *)
Definition gtb (x y : spec_float) : bool := SFltb y x.

(** [n > x] for an [int] [n] and a float [x]: Python compares the two
    exact values. *)
Definition int_gtb (n : Z) (x : spec_float) : bool :=
  match x with
  | S754_nan => false
  | S754_infinity s => s
  | S754_zero _ => 0 <? n
  | S754_finite s m e =>
      let v := if s then Z.neg m else Z.pos m in
      if 0 <=? e then v * 2 ^ e <? n else v <? n * 2 ^ (- e)
  end.

(** Value of a run of decimal digits, most significant first. *)
Definition digit_value (c : ascii) : Z := Z.of_N (PyStr.code c) - 48.

Definition int_of_digits (ds : str) : Z :=
  fold_left (fun acc c => 10 * acc + digit_value c) ds 0.

(** [float(i + "." + f)] for two runs of decimal digits. *)
Definition of_decimal (i f : str) : spec_float :=
  round_div (int_of_digits (i ++ f)) (10 ^ Z.of_nat (length f)).

(** [float(s)] on the texts that the analyzer passes to it, a run of
    digits, a point and a run of digits. Python accepts more than that;
    every other text is treated here as a [ValueError], which can only
    add raises to the model. *)
Definition of_str (s : str) : result spec_float :=
  match PyStr.split_first "." s with
  | Some (i :: it, f :: ft) =>
      if forallb PyStr.isdigit (i :: it) && forallb PyStr.isdigit (f :: ft)
      then Ok (of_decimal (i :: it) (f :: ft))
      else Raise ValueError
  | _ => Raise ValueError
  end.

(** The literals [0.1], [100] (as a float) and [0.0]. *)
Definition lit_0_1 : spec_float := Eval vm_compute in of_decimal ($"0") ($"1").
Definition lit_100 : spec_float := Eval vm_compute in of_decimal ($"100") ($"0").
Definition lit_0_0 : spec_float := S754_zero false.

(** The integer nearest to [num / den] (ties to even), [den > 0]. *)
Definition round_half_even (num den : Z) : Z :=
  let q := num / den in
  let r := num mod den in
  match 2 * r ?= den with
  | Lt => q
  | Gt => q + 1
  | Eq => if Z.even q then q else q + 1
  end.

(** [format(x, ".1f")]: the decimal with one fractional digit nearest
    to the exact value of [x]. *)
Definition format_1f (x : spec_float) : str :=
  match x with
  | S754_nan => $"nan"
  | S754_infinity s => if s then $"-inf" else $"inf"
  | S754_zero s => if s then $"-0.0" else $"0.0"
  | S754_finite s m e =>
      let tenths :=
        if 0 <=? e then 10 * Z.pos m * 2 ^ e
        else round_half_even (10 * Z.pos m) (2 ^ (- e)) in
      (if s then $"-" else []) ++
      PyStr.of_Z (tenths / 10) ++ $"." ++ PyStr.of_Z (tenths mod 10)
  end.

End PyFloat.

(** ** Integers read from text ([int]) *)

Module PyInt.

(** The blanks that [int] skips at both ends of its argument. *)
Definition isblank (c : ascii) : bool :=
  PyStr.between 9 13 c || PyStr.between 32 32 c
  || PyStr.between 133 133 c || PyStr.between 160 160 c.

(** The digits of a decimal numeral: a run of digits in which one
    underscore may stand between two digits. [after_digit] says that
    the character just read is a digit. *)
Fixpoint digits (after_digit : bool) (s : str) : option str :=
  match s with
  | [] => if after_digit then Some [] else None
  | c :: t =>
      if PyStr.isdigit c then ds ← digits true t; Some (c :: ds)
      else if Ascii.eqb c "_" && after_digit then digits false t
      else None
  end.

(** The limit on the length of a numeral: [max_str_digits] is
    [sys.get_int_max_str_digits()], 4300 unless it is set otherwise
    and 0 for no limit (an interpreter without the limit behaves as
    with 0); numerals of up to 640 digits are never refused. *)
Definition too_long (max_str_digits : N) (ds : str) : bool :=
  let n := N.of_nat (length ds) in
  ((640 <? n) && (0 <? max_str_digits) && (max_str_digits <? n))%N.

(** [int(s)]: blanks at the ends, a sign, a decimal numeral. *)
Definition of_str (max_str_digits : N) (s : str) : result Z :=
  let body := rev (PyStr.dropwhile isblank (rev (PyStr.dropwhile isblank s))) in
  let '(negative, numeral) :=
    match body with
    | "-"%char :: t => (true, t)
    | "+"%char :: t => (false, t)
    | _ => (false, body)
    end in
  match digits false numeral with
  | Some ds =>
      if too_long max_str_digits ds then Raise ValueError
      else Ok (if negative : bool
               then - PyFloat.int_of_digits ds
               else PyFloat.int_of_digits ds)
  | None => Raise ValueError
  end.

End PyInt.

(** ** Regular expressions ([re]), as far as [LOG_PATTERN] uses them *)

Module Re.

(** Captured groups, by group number. *)
Abbreviation groups := (gmap nat str).

Inductive regex :=
| Chr (c : ascii)                 (* an escaped or literal character   *)
| Plus (p : ascii -> bool)        (* [p+] on a character class, greedy *)
| Star (p : ascii -> bool)        (* [p*] on a character class, greedy *)
| Seq (r1 r2 : regex)             (* concatenation                     *)
| Group (n : nat) (r : regex)     (* the n-th capturing group [(r)]    *)
| Opt (r : regex).                (* [(?:r)?], greedy                  *)

(** The classes of the pattern. *)
Definition digit : ascii -> bool := PyStr.isdigit.            (* \d    *)
Definition word : ascii -> bool := PyStr.isword.              (* \w    *)
Definition space : ascii -> bool := PyStr.isspace.            (* \s    *)
Definition none_of (x : ascii) (c : ascii) : bool :=          (* [^x]  *)
  negb (Ascii.eqb c x).
Definition dot (c : ascii) : bool :=                          (* .     *)
  negb (Ascii.eqb c "010").

(** Greedy repetition of a class with backtracking: the longest run is
    tried first, and one character is given back each time the rest of
    the pattern, [k], fails. *)
Fixpoint star {A} (p : ascii -> bool) (s : str) (k : str -> option A) : option A :=
  match s with
  | c :: t =>
      if p c
      then match star p t k with
           | Some r => Some r
           | None => k s
           end
      else k s
  | [] => k []
  end.

(** Backtracking matcher in continuation-passing style: [run r s g k]
    matches [r] at the head of [s] and hands the rest of the subject
    and the groups to [k]. A group records the text that its body
    consumed. *)
Fixpoint run (r : regex) (s : str) (g : groups)
    (k : str -> groups -> option groups) : option groups :=
  match r with
  | Chr c =>
      match s with
      | c' :: t => if Ascii.eqb c' c then k t g else None
      | [] => None
      end
  | Plus p =>
      match s with
      | c :: t => if p c then star p t (fun s' => k s' g) else None
      | [] => None
      end
  | Star p => star p s (fun s' => k s' g)
  | Seq r1 r2 => run r1 s g (fun s' g' => run r2 s' g' k)
  | Group n r1 =>
      run r1 s g (fun s' g' => k s' (<[n := take (length s - length s') s]> g'))
  | Opt r1 =>
      match run r1 s g k with
      | Some res => Some res
      | None => k s g
      end
  end.

(** [pattern.match(s)]: anchored at the start of [s], not at its end. *)
Definition match_ (r : regex) (s : str) : option groups :=
  run r s ∅ (fun _ g => Some g).

End Re.

Declare Scope re_scope.
Delimit Scope re_scope with re.
Infix "⋅" := Re.Seq (at level 60, right associativity) : re_scope.

(** ** The structured log analyzer ([analyze_test_logs.py]) *)

(** Structured log entry. *)
Record LogEntry := {
  timestamp : spec_float;
  level : str;
  category : str;
  message : str;
  metadata : gmap str str;
  raw_line : str;
}.

(** Analysis results for a single log file. *)
Record AnalysisResult := {
  filename : str;
  total_lines : Z;
  entries : list LogEntry;
  (* Counters *)
  errors : Z;
  warnings : Z;
  info : Z;
  debug : Z;
  (* Networking metrics *)
  snapshots_sent : Z;
  snapshots_received : Z;
  packet_loss_events : Z;
  baseline_mismatches : Z;
  player_disappearances : Z;
  interpolation_warnings : Z;
  (* Chunk system *)
  chunk_changes : Z;
  (* Issues detected *)
  critical_issues : list str;
  warnings_list : list str;
  (* Timing *)
  start_time : spec_float;
  end_time : spec_float;
}.

(** [AnalysisResult(filename=...)], every other field at its default. *)
Definition new_result (name : str) : AnalysisResult := {|
  filename := name;
  total_lines := 0;
  entries := [];
  errors := 0;
  warnings := 0;
  info := 0;
  debug := 0;
  snapshots_sent := 0;
  snapshots_received := 0;
  packet_loss_events := 0;
  baseline_mismatches := 0;
  player_disappearances := 0;
  interpolation_warnings := 0;
  chunk_changes := 0;
  critical_issues := [];
  warnings_list := [];
  start_time := PyFloat.lit_0_0;
  end_time := PyFloat.lit_0_0;
|}.

(** Field assignments [r.field = v]. *)

Definition set_total_lines (v : Z) (r : AnalysisResult) : AnalysisResult :=
  Build_AnalysisResult (filename r) v (entries r) (errors r) (warnings r) (info r)
    (debug r) (snapshots_sent r) (snapshots_received r) (packet_loss_events r)
    (baseline_mismatches r) (player_disappearances r) (interpolation_warnings r)
    (chunk_changes r) (critical_issues r) (warnings_list r) (start_time r) (end_time r).

Definition set_entries (v : list LogEntry) (r : AnalysisResult) : AnalysisResult :=
  Build_AnalysisResult (filename r) (total_lines r) v (errors r) (warnings r) (info r)
    (debug r) (snapshots_sent r) (snapshots_received r) (packet_loss_events r)
    (baseline_mismatches r) (player_disappearances r) (interpolation_warnings r)
    (chunk_changes r) (critical_issues r) (warnings_list r) (start_time r) (end_time r).

Definition set_errors (v : Z) (r : AnalysisResult) : AnalysisResult :=
  Build_AnalysisResult (filename r) (total_lines r) (entries r) v (warnings r) (info r)
    (debug r) (snapshots_sent r) (snapshots_received r) (packet_loss_events r)
    (baseline_mismatches r) (player_disappearances r) (interpolation_warnings r)
    (chunk_changes r) (critical_issues r) (warnings_list r) (start_time r) (end_time r).

Definition set_warnings (v : Z) (r : AnalysisResult) : AnalysisResult :=
  Build_AnalysisResult (filename r) (total_lines r) (entries r) (errors r) v (info r)
    (debug r) (snapshots_sent r) (snapshots_received r) (packet_loss_events r)
    (baseline_mismatches r) (player_disappearances r) (interpolation_warnings r)
    (chunk_changes r) (critical_issues r) (warnings_list r) (start_time r) (end_time r).

Definition set_info (v : Z) (r : AnalysisResult) : AnalysisResult :=
  Build_AnalysisResult (filename r) (total_lines r) (entries r) (errors r) (warnings r)
    v (debug r) (snapshots_sent r) (snapshots_received r) (packet_loss_events r)
    (baseline_mismatches r) (player_disappearances r) (interpolation_warnings r)
    (chunk_changes r) (critical_issues r) (warnings_list r) (start_time r) (end_time r).

Definition set_debug (v : Z) (r : AnalysisResult) : AnalysisResult :=
  Build_AnalysisResult (filename r) (total_lines r) (entries r) (errors r) (warnings r)
    (info r) v (snapshots_sent r) (snapshots_received r) (packet_loss_events r)
    (baseline_mismatches r) (player_disappearances r) (interpolation_warnings r)
    (chunk_changes r) (critical_issues r) (warnings_list r) (start_time r) (end_time r).

Definition set_snapshots_sent (v : Z) (r : AnalysisResult) : AnalysisResult :=
  Build_AnalysisResult (filename r) (total_lines r) (entries r) (errors r) (warnings r)
    (info r) (debug r) v (snapshots_received r) (packet_loss_events r)
    (baseline_mismatches r) (player_disappearances r) (interpolation_warnings r)
    (chunk_changes r) (critical_issues r) (warnings_list r) (start_time r) (end_time r).

Definition set_snapshots_received (v : Z) (r : AnalysisResult) : AnalysisResult :=
  Build_AnalysisResult (filename r) (total_lines r) (entries r) (errors r) (warnings r)
    (info r) (debug r) (snapshots_sent r) v (packet_loss_events r)
    (baseline_mismatches r) (player_disappearances r) (interpolation_warnings r)
    (chunk_changes r) (critical_issues r) (warnings_list r) (start_time r) (end_time r).

Definition set_packet_loss_events (v : Z) (r : AnalysisResult) : AnalysisResult :=
  Build_AnalysisResult (filename r) (total_lines r) (entries r) (errors r) (warnings r)
    (info r) (debug r) (snapshots_sent r) (snapshots_received r) v
    (baseline_mismatches r) (player_disappearances r) (interpolation_warnings r)
    (chunk_changes r) (critical_issues r) (warnings_list r) (start_time r) (end_time r).

Definition set_baseline_mismatches (v : Z) (r : AnalysisResult) : AnalysisResult :=
  Build_AnalysisResult (filename r) (total_lines r) (entries r) (errors r) (warnings r)
    (info r) (debug r) (snapshots_sent r) (snapshots_received r) (packet_loss_events r)
    v (player_disappearances r) (interpolation_warnings r) (chunk_changes r)
    (critical_issues r) (warnings_list r) (start_time r) (end_time r).

Definition set_player_disappearances (v : Z) (r : AnalysisResult) : AnalysisResult :=
  Build_AnalysisResult (filename r) (total_lines r) (entries r) (errors r) (warnings r)
    (info r) (debug r) (snapshots_sent r) (snapshots_received r) (packet_loss_events r)
    (baseline_mismatches r) v (interpolation_warnings r) (chunk_changes r)
    (critical_issues r) (warnings_list r) (start_time r) (end_time r).

Definition set_interpolation_warnings (v : Z) (r : AnalysisResult) : AnalysisResult :=
  Build_AnalysisResult (filename r) (total_lines r) (entries r) (errors r) (warnings r)
    (info r) (debug r) (snapshots_sent r) (snapshots_received r) (packet_loss_events r)
    (baseline_mismatches r) (player_disappearances r) v (chunk_changes r)
    (critical_issues r) (warnings_list r) (start_time r) (end_time r).

Definition set_chunk_changes (v : Z) (r : AnalysisResult) : AnalysisResult :=
  Build_AnalysisResult (filename r) (total_lines r) (entries r) (errors r) (warnings r)
    (info r) (debug r) (snapshots_sent r) (snapshots_received r) (packet_loss_events r)
    (baseline_mismatches r) (player_disappearances r) (interpolation_warnings r) v
    (critical_issues r) (warnings_list r) (start_time r) (end_time r).

Definition set_critical_issues (v : list str) (r : AnalysisResult) : AnalysisResult :=
  Build_AnalysisResult (filename r) (total_lines r) (entries r) (errors r) (warnings r)
    (info r) (debug r) (snapshots_sent r) (snapshots_received r) (packet_loss_events r)
    (baseline_mismatches r) (player_disappearances r) (interpolation_warnings r)
    (chunk_changes r) v (warnings_list r) (start_time r) (end_time r).

Definition set_warnings_list (v : list str) (r : AnalysisResult) : AnalysisResult :=
  Build_AnalysisResult (filename r) (total_lines r) (entries r) (errors r) (warnings r)
    (info r) (debug r) (snapshots_sent r) (snapshots_received r) (packet_loss_events r)
    (baseline_mismatches r) (player_disappearances r) (interpolation_warnings r)
    (chunk_changes r) (critical_issues r) v (start_time r) (end_time r).

Definition set_start_time (v : spec_float) (r : AnalysisResult) : AnalysisResult :=
  Build_AnalysisResult (filename r) (total_lines r) (entries r) (errors r) (warnings r)
    (info r) (debug r) (snapshots_sent r) (snapshots_received r) (packet_loss_events r)
    (baseline_mismatches r) (player_disappearances r) (interpolation_warnings r)
    (chunk_changes r) (critical_issues r) (warnings_list r) v (end_time r).

Definition set_end_time (v : spec_float) (r : AnalysisResult) : AnalysisResult :=
  Build_AnalysisResult (filename r) (total_lines r) (entries r) (errors r) (warnings r)
    (info r) (debug r) (snapshots_sent r) (snapshots_received r) (packet_loss_events r)
    (baseline_mismatches r) (player_disappearances r) (interpolation_warnings r)
    (chunk_changes r) (critical_issues r) (warnings_list r) (start_time r) v.

(** Parse and analyze structured logs (class [LogAnalyzer]). *)
Module LogAnalyzer.
Import PyStr.

(** Log format: [[timestamp] [level] [category] message | key=value ...],
    the pattern
    [\[(\d+\.\d+)\]\s+\[(\w+)\]\s+\[([^\]]+)\]\s+([^|]+)(?:\s*\|\s*(.+))?]. *)
Definition LOG_PATTERN : Re.regex :=
  (Re.Chr "[" ⋅ Re.Group 1 (Re.Plus Re.digit ⋅ Re.Chr "." ⋅ Re.Plus Re.digit) ⋅ Re.Chr "]" ⋅
   Re.Plus Re.space ⋅
   Re.Chr "[" ⋅ Re.Group 2 (Re.Plus Re.word) ⋅ Re.Chr "]" ⋅
   Re.Plus Re.space ⋅
   Re.Chr "[" ⋅ Re.Group 3 (Re.Plus (Re.none_of "]")) ⋅ Re.Chr "]" ⋅
   Re.Plus Re.space ⋅
   Re.Group 4 (Re.Plus (Re.none_of "|")) ⋅
   Re.Opt (Re.Star Re.space ⋅ Re.Chr "|" ⋅ Re.Star Re.space ⋅ Re.Group 5 (Re.Plus Re.dot)))%re.

(** [match.group(n)] of a group that took part in the match. *)
Definition group (m : Re.groups) (n : nat) : str := default [] (m !! n).

(** One [key=value] token folded into the metadata: a token without
    ['='] is skipped, otherwise it is split at the first ['='] and the
    key is (re)assigned. *)
Definition add_pair (md : gmap str str) (pair : str) : gmap str str :=
  match split_first "=" pair with
  | Some (key, value) => <[key := value]> md
  | None => md
  end.

(** Parse key=value pairs. *)
Definition parse_metadata (metadata_str : option str) : gmap str str :=
  match metadata_str with
  | Some (c :: t) => fold_left add_pair (split_ws (c :: t)) ∅
  | _ => ∅
  end.

(** Parse a single log line; [Ok None] is "not a structured log, skip". *)
Definition _parse_line (line : str) : result (option LogEntry) :=
  match Re.match_ LOG_PATTERN line with
  | None => Ok None
  | Some m =>
      ts ← PyFloat.of_str (group m 1);
      Ok (Some {| timestamp := ts;
                  level := group m 2;
                  category := group m 3;
                  message := strip (group m 4);
                  metadata := parse_metadata (m !! 5%nat);
                  raw_line := line |})
  end.

(** Update metrics based on log entry. *)
Definition _update_metrics (entry : LogEntry) (r : AnalysisResult) : AnalysisResult :=
  (* Count by level *)
  let r :=
    if decide (level entry = $"ERROR") then set_errors (errors r + 1) r
    else if decide (level entry = $"WARN") then set_warnings (warnings r + 1) r
    else if decide (level entry = $"INFO") then set_info (info r + 1) r
    else if decide (level entry = $"DEBUG") then set_debug (debug r + 1) r
    else r in
  (* Count specific events *)
  let r :=
    when (bool_decide (category entry = $"SERVER_SNAPSHOT"))
      (fun r => set_snapshots_sent (snapshots_sent r + 1) r) r in
  let r :=
    when (bool_decide (category entry = $"CLIENT_SNAPSHOT"))
      (fun r => set_snapshots_received (snapshots_received r + 1) r) r in
  let r :=
    when (contains ($"packet loss") (lower (message entry)))
      (fun r => set_packet_loss_events (packet_loss_events r + 1) r) r in
  let r :=
    when (bool_decide (category entry = $"CLIENT_DELTA")
          && contains ($"mismatch") (lower (message entry)))
      (fun r => set_baseline_mismatches (baseline_mismatches r + 1) r) r in
  let r :=
    when (bool_decide (category entry = $"CLIENT_ERROR")
          && contains ($"missing") (lower (message entry)))
      (fun r => set_player_disappearances (player_disappearances r + 1) r) r in
  let r :=
    when (bool_decide (category entry = $"INTERPOLATOR")
          && bool_decide (level entry = $"WARN"))
      (fun r => set_interpolation_warnings (interpolation_warnings r + 1) r) r in
  let r :=
    when (bool_decide (category entry = $"SERVER_CHUNK")
          && contains ($"changed chunk") (lower (message entry)))
      (fun r => set_chunk_changes (chunk_changes r + 1) r) r in
  r.

(** The texts of the detected issues. *)
Definition disappearance_issue (n : Z) : str :=
  $"Player disappearance detected " ++ of_Z n ++ $" times! " ++
  $"This indicates delta compression bugs or interest management issues.".

Definition interpolation_warning (n : Z) : str :=
  $"High interpolation warnings (" ++ of_Z n ++ $"). " ++
  $"Client may be struggling to keep buffer filled.".

Definition mismatch_warning (mismatch_rate : spec_float) : str :=
  $"High baseline mismatch rate (" ++
  PyFloat.format_1f (PyFloat.mul mismatch_rate PyFloat.lit_100) ++ $"%). " ++
  $"This is expected for UDP but seems unusually high.".

Definition server_issue : str :=
  $"Server sent 0 snapshots! Server may not be running correctly.".

Definition client_issue : str :=
  $"Client received 0 snapshots! Client may not be connected.".

(** Detect common issues from parsed entries. [log_path] is
    [str(self.log_path)]. *)
Definition _detect_issues (log_path : str) (r : AnalysisResult) : result AnalysisResult :=
  (* Issue 1: High player disappearance rate *)
  let r :=
    when (0 <? player_disappearances r)
      (fun r => set_critical_issues
                  (critical_issues r ++ [disappearance_issue (player_disappearances r)]) r)
      r in
  (* Issue 2: High interpolation warnings *)
  let r :=
    when (10 <? interpolation_warnings r)
      (fun r => set_warnings_list
                  (warnings_list r ++ [interpolation_warning (interpolation_warnings r)]) r)
      r in
  (* Issue 3: High baseline mismatch rate *)
  r ← (if 0 <? snapshots_received r
       then
         mismatch_rate ← PyFloat.true_divide (baseline_mismatches r) (snapshots_received r);
         Ok (when (PyFloat.gtb mismatch_rate PyFloat.lit_0_1)  (* More than 10% mismatches *)
               (fun r => set_warnings_list
                           (warnings_list r ++ [mismatch_warning mismatch_rate]) r)
               r)
       else Ok r);
  (* Issue 4: No snapshots received/sent *)
  let r :=
    when ((snapshots_sent r =? 0) && contains ($"server") (lower log_path))
      (fun r => set_critical_issues (critical_issues r ++ [server_issue]) r) r in
  let r :=
    when ((snapshots_received r =? 0) && contains ($"client") (lower log_path))
      (fun r => set_critical_issues (critical_issues r ++ [client_issue]) r) r in
  Ok r.

(** The body of the loop [for line in f] of [parse]. *)
Definition parse_step (r : AnalysisResult) (line : str) : result AnalysisResult :=
  let r := set_total_lines (total_lines r + 1) r in
  entry ← _parse_line (strip line);
  match entry with
  | Some e => Ok (_update_metrics e (set_entries (entries r ++ [e]) r))
  | None => Ok r
  end.

(** The loop of [parse] over the lines of the file. *)
Fixpoint parse_loop (r : AnalysisResult) (lines : list str) : result AnalysisResult :=
  match lines with
  | [] => Ok r
  | line :: rest => r' ← parse_step r line; parse_loop r' rest
  end.

(** Calculate timing: first and last entry, when there is one. *)
Definition set_timing (r : AnalysisResult) : AnalysisResult :=
  match entries r with
  | [] => r
  | first :: _ =>
      let r := set_start_time (timestamp first) r in
      set_end_time (timestamp (List.last (entries r) first)) r
  end.

(** [parse] once the file is open: [lines] is what iterating over the
    file yields. *)
Definition parse_lines (log_path : str) (lines : list str) : result AnalysisResult :=
  r ← parse_loop (new_result log_path) lines;
  _detect_issues log_path (set_timing r).

(** The file system as the analyzer sees it: a path is absent, present
    but not readable, or a text file with its lines. *)
Inductive file :=
| Unreadable
| Text (lines : list str).

Definition open_r (fs : gmap str file) (path : str) : result (list str) :=
  match fs !! path with
  | None => Raise FileNotFoundError
  | Some Unreadable => Raise PermissionError
  | Some (Text lines) => Ok lines
  end.

(** Parse the entire log file. *)
Definition parse (fs : gmap str file) (log_path : str) : result AnalysisResult :=
  lines ← open_r fs log_path;
  parse_lines log_path lines.

End LogAnalyzer.

(** ** JSON values: what [json.dump] receives and [json.load] returns *)

#[warnings="-register-all"]
Inductive json :=
| JNull
| JBool (b : bool)
| JInt (n : Z)
| JFloat (x : spec_float)
| JStr (s : str)
| JList (l : list json)
| JDict (d : list (str * json)).

Module Json.

Fixpoint assoc (k : str) (d : list (str * json)) : option json :=
  match d with
  | [] => None
  | (k', v) :: t => if decide (k' = k) then Some v else assoc k t
  end.

(** [d[k]] read from a parsed document; [None] when [d] is not an
    object or has no member [k]. *)
Definition member (k : str) (d : json) : option json :=
  match d with
  | JDict kv => assoc k kv
  | _ => None
  end.

(** [l[i]] read from a parsed document. *)
Definition item (i : nat) (l : json) : option json :=
  match l with
  | JList vs => vs !! i
  | _ => None
  end.

Definition as_int (v : json) : option Z :=
  match v with
  | JInt n => Some n
  | _ => None
  end.

(** [d.get(k, dflt)] for an entry that holds an [int]. *)
Definition get_int (k : str) (dflt : Z) (d : json) : Z :=
  default dflt (member k d ≫= as_int).

(** [d[k]] for an entry that holds an [int]. *)
Definition index_int (k : str) (d : json) : result Z :=
  match member k d ≫= as_int with
  | Some n => Ok n
  | None => Raise KeyError
  end.

End Json.

(** ** Report generation ([ReportGenerator]) *)

Module ReportGenerator.

(** The summary [dict] of [_calculate_summary]; its keys are fixed. *)
Record Summary := {
  total_errors : Z;
  total_warnings : Z;
  total_snapshots_sent : Z;
  total_snapshots_received : Z;
  total_player_disappearances : Z;
  total_interpolation_warnings : Z;
  has_critical_issues : bool;
  has_warnings : bool;
}.

Definition empty_summary : Summary := {|
  total_errors := 0;
  total_warnings := 0;
  total_snapshots_sent := 0;
  total_snapshots_received := 0;
  total_player_disappearances := 0;
  total_interpolation_warnings := 0;
  has_critical_issues := false;
  has_warnings := false;
|}.

(** A non-empty list is true. *)
Definition truthy {A} (l : list A) : bool :=
  match l with [] => false | _ => true end.

(** The body of the loop of [_calculate_summary]. *)
Definition summary_step (summary : Summary) (r : AnalysisResult) : Summary := {|
  total_errors := total_errors summary + errors r;
  total_warnings := total_warnings summary + warnings r;
  total_snapshots_sent := total_snapshots_sent summary + snapshots_sent r;
  total_snapshots_received := total_snapshots_received summary + snapshots_received r;
  total_player_disappearances :=
    total_player_disappearances summary + player_disappearances r;
  total_interpolation_warnings :=
    total_interpolation_warnings summary + interpolation_warnings r;
  has_critical_issues :=
    if truthy (critical_issues r) then true else has_critical_issues summary;
  has_warnings :=
    if truthy (warnings_list r) then true else has_warnings summary;
|}.

(** Calculate overall summary statistics. *)
Definition _calculate_summary (results : list AnalysisResult) : Summary :=
  fold_left summary_step results empty_summary.

(** The summary as the JSON object that is dumped. *)
Definition summary_dict (s : Summary) : json :=
  JDict [ ($"total_errors", JInt (total_errors s));
          ($"total_warnings", JInt (total_warnings s));
          ($"total_snapshots_sent", JInt (total_snapshots_sent s));
          ($"total_snapshots_received", JInt (total_snapshots_received s));
          ($"total_player_disappearances", JInt (total_player_disappearances s));
          ($"total_interpolation_warnings", JInt (total_interpolation_warnings s));
          ($"has_critical_issues", JBool (has_critical_issues s));
          ($"has_warnings", JBool (has_warnings s)) ].

(** The object appended to ["files"] for one result. *)
Definition file_dict (r : AnalysisResult) : json :=
  JDict [ ($"filename", JStr (filename r));
          ($"total_lines", JInt (total_lines r));
          ($"entries", JInt (Z.of_nat (length (entries r))));
          ($"errors", JInt (errors r));
          ($"warnings", JInt (warnings r));
          ($"snapshots_sent", JInt (snapshots_sent r));
          ($"snapshots_received", JInt (snapshots_received r));
          ($"packet_loss_events", JInt (packet_loss_events r));
          ($"baseline_mismatches", JInt (baseline_mismatches r));
          ($"player_disappearances", JInt (player_disappearances r));
          ($"interpolation_warnings", JInt (interpolation_warnings r));
          ($"chunk_changes", JInt (chunk_changes r));
          ($"critical_issues", JList (map JStr (critical_issues r)));
          ($"warnings_list", JList (map JStr (warnings_list r)));
          ($"duration", JFloat (PyFloat.sub (end_time r) (start_time r))) ].

(** Generate JSON report: the value [report_data] handed to
    [json.dump]. Reading the written file back with [json.load] returns
    this value again, which is how the properties below read it. *)
Definition generate_json_report (results : list AnalysisResult) : json :=
  JDict [ ($"files", JList (map file_dict results));
          ($"summary", summary_dict (_calculate_summary results)) ].

(** The loop of [main] over the log files: analyze each file. An
    exception raised by [parse] is not caught and ends the run. *)
Fixpoint analyze_all (fs : gmap str LogAnalyzer.file) (log_files : list str)
    : result (list AnalysisResult) :=
  match log_files with
  | [] => Ok []
  | log_file :: rest =>
      r ← LogAnalyzer.parse fs log_file;
      rs ← analyze_all fs rest;
      Ok (r :: rs)
  end.

(** [Path(p).name] on a POSIX path: the last component, where empty
    components and [.] do not count; empty when there is none. *)
Definition path_name (p : str) : str :=
  List.last (filter (fun part => part <> [] /\ part <> $".") (PyStr.split_char "/" p)) [].

(** The Markdown and the debugging reports are given as the texts
    handed to [f.write], in order; the file is their concatenation.
    The symbols of the headings are kept as the bytes of their UTF-8
    encoding. *)

(** Generate human-readable Markdown report. *)
Definition generate_markdown_report (results : list AnalysisResult) : list str :=
  let nl := PyStr.nl in
  let of_Z := PyStr.of_Z in
  (* Summary *)
  let summary := _calculate_summary results in
  [ $"# Log Analysis Report" ++ nl ++ nl;
    $"## Overall Summary" ++ nl ++ nl;
    $"- **Total Errors:** " ++ of_Z (total_errors summary) ++ nl;
    $"- **Total Warnings:** " ++ of_Z (total_warnings summary) ++ nl;
    $"- **Total Snapshots Sent:** " ++ of_Z (total_snapshots_sent summary) ++ nl;
    $"- **Total Snapshots Received:** " ++ of_Z (total_snapshots_received summary) ++ nl;
    $"- **Player Disappearances:** " ++ of_Z (total_player_disappearances summary) ++ nl;
    $"- **Interpolation Warnings:** " ++
      of_Z (total_interpolation_warnings summary) ++ nl ++ nl ] ++
  (* Issues *)
  (if has_critical_issues summary
   then
     [ $"## ⚠️ Critical Issues Detected" ++ nl ++ nl ] ++
     flat_map (fun result =>
       if truthy (critical_issues result)
       then [ $"### " ++ path_name (filename result) ++ nl ++ nl ] ++
            map (fun issue => $"- ❌ " ++ issue ++ nl) (critical_issues result) ++
            [ nl ]
       else []) results
   else []) ++
  (if has_warnings summary
   then
     [ $"## ⚠️ Warnings" ++ nl ++ nl ] ++
     flat_map (fun result =>
       if truthy (warnings_list result)
       then [ $"### " ++ path_name (filename result) ++ nl ++ nl ] ++
            map (fun warning => $"- ⚠️ " ++ warning ++ nl) (warnings_list result) ++
            [ nl ]
       else []) results
   else []) ++
  (* Per-file details *)
  [ $"## Per-File Analysis" ++ nl ++ nl ] ++
  flat_map (fun result =>
    [ $"### " ++ path_name (filename result) ++ nl ++ nl;
      $"- **Duration:** " ++
        PyFloat.format_1f (PyFloat.sub (end_time result) (start_time result)) ++ $"s" ++ nl;
      $"- **Total Lines:** " ++ of_Z (total_lines result) ++ nl;
      $"- **Structured Entries:** " ++ of_Z (Z.of_nat (length (entries result))) ++ nl;
      $"- **Errors:** " ++ of_Z (errors result) ++ nl;
      $"- **Warnings:** " ++ of_Z (warnings result) ++ nl;
      $"- **Snapshots Sent:** " ++ of_Z (snapshots_sent result) ++ nl;
      $"- **Snapshots Received:** " ++ of_Z (snapshots_received result) ++ nl;
      $"- **Packet Loss Events:** " ++ of_Z (packet_loss_events result) ++ nl;
      $"- **Baseline Mismatches:** " ++ of_Z (baseline_mismatches result) ++ nl;
      $"- **Player Disappearances:** " ++ of_Z (player_disappearances result) ++ nl;
      $"- **Chunk Changes:** " ++ of_Z (chunk_changes result) ++ nl ++ nl ]) results.

(** The texts returned by [_suggest_fix]. *)
Definition disappearance_fix : str :=
  let nl := PyStr.nl in
  nl ++
  $"**Likely Cause:** Delta compression deserialization bug or interest management issue." ++ nl ++
  nl ++
  $"**Files to Check:**" ++ nl ++
  $"- `scripts/entity_snapshot.gd` (lines 150-180) - Delta compression logic" ++ nl ++
  $"- `scripts/server_world.gd` (lines 230-330) - Interest management" ++ nl ++
  nl ++
  $"**What to Look For:**" ++ nl ++
  $"- Ensure deserialization reads " ++ PyStr.dq ++ $"changed" ++ PyStr.dq ++
    $" bit only for entities that exist in baseline" ++ nl ++
  $"- Verify player entity is always included in snapshot (should be at index 0)" ++ nl ++
  $"- Check if interest area calculation includes player's own position" ++ nl.

Definition interpolation_fix : str :=
  let nl := PyStr.nl in
  nl ++
  $"**Likely Cause:** Network delay too high or client falling behind server." ++ nl ++
  nl ++
  $"**Solutions:**" ++ nl ++
  $"- Increase `INTERPOLATION_DELAY` in `scripts/network_config.gd`" ++ nl ++
  $"- Check if client is receiving snapshots at expected rate" ++ nl ++
  $"- Verify server tick rate matches configuration" ++ nl.

Definition mismatch_fix : str :=
  let nl := PyStr.nl in
  nl ++
  $"**Likely Cause:** Out-of-order packet delivery (normal for UDP)." ++ nl ++
  nl ++
  $"**Expected Behavior:** Occasional mismatches are normal. High rates (>10%) indicate network issues." ++ nl ++
  nl ++
  $"**Solutions:**" ++ nl ++
  $"- If rate is very high, check network quality" ++ nl ++
  $"- Consider implementing sequence buffering for out-of-order packets" ++ nl.

Definition no_suggestion : str := $"No specific suggestion available." ++ PyStr.nl.

(** Suggest fixes for common issues. *)
Definition _suggest_fix (issue : str) : str :=
  if PyStr.contains ($"disappearance") (PyStr.lower issue) then disappearance_fix
  else if PyStr.contains ($"interpolation warnings") (PyStr.lower issue)
  then interpolation_fix
  else if PyStr.contains ($"baseline mismatch") (PyStr.lower issue) then mismatch_fix
  else no_suggestion.

(** The texts of [_generate_recommendations]. *)
Definition delta_recommendation : str :=
  $"1. **Fix delta compression:** Player disappearances indicate a critical bug. " ++
  $"Review `DELTA_COMPRESSION_BUG.md` and verify the fix is applied.".

Definition buffer_recommendation : str :=
  $"2. **Tune interpolation buffer:** High interpolation warnings suggest buffer tuning needed. " ++
  $"Consider increasing `INTERPOLATION_DELAY` in `network_config.gd`.".

Definition no_recommendation : str :=
  $"✅ No recommendations - system is working as expected!".

(** Generate recommendations based on summary. *)
Definition _generate_recommendations (summary : Summary) : str :=
  let recommendations :=
    (if 0 <? total_player_disappearances summary then [delta_recommendation] else []) ++
    (if 50 <? total_interpolation_warnings summary then [buffer_recommendation] else []) in
  let recommendations :=
    if truthy recommendations then recommendations else [no_recommendation] in
  PyStr.join PyStr.nl recommendations ++ PyStr.nl ++ PyStr.nl.

(** The texts of [_generate_claude_prompts]. *)
Definition critical_prompt : str :=
  let nl := PyStr.nl in
  nl ++
  $"### For Critical Issues:" ++ nl ++
  nl ++
  $"```" ++ nl ++
  $"Claude, please analyze the critical issues in the test logs. Focus on:" ++ nl ++
  nl ++
  $"1. Read the log files listed in the report" ++ nl ++
  $"2. Identify patterns in player disappearance errors" ++ nl ++
  $"3. Check the delta compression logic in scripts/entity_snapshot.gd" ++ nl ++
  $"4. Verify the interest management in scripts/server_world.gd" ++ nl ++
  nl ++
  $"Provide a detailed analysis of what's going wrong and suggest fixes." ++ nl ++
  $"```" ++ nl.

Definition performance_prompt : str :=
  let nl := PyStr.nl in
  nl ++
  $"### For Performance Analysis:" ++ nl ++
  nl ++
  $"```" ++ nl ++
  $"Claude, please analyze the network performance from these test logs:" ++ nl ++
  nl ++
  $"1. Calculate average snapshot sizes and compression ratios" ++ nl ++
  $"2. Identify bandwidth usage patterns" ++ nl ++
  $"3. Check if tick rates match configuration" ++ nl ++
  $"4. Verify interpolation buffer is maintained correctly" ++ nl ++
  nl ++
  $"Generate a performance report with optimization suggestions." ++ nl ++
  $"```" ++ nl.

(** Generate suggested prompts. *)
Definition _generate_claude_prompts (summary : Summary) : str :=
  let prompts :=
    (if has_critical_issues summary then [critical_prompt] else []) ++
    [performance_prompt] in
  PyStr.join PyStr.nl prompts.

(** Generate the debugging summary. *)
Definition generate_claude_summary (results : list AnalysisResult) : list str :=
  let nl := PyStr.nl in
  let summary := _calculate_summary results in
  [ $"# Network Testing Debug Summary for Claude Code" ++ nl ++ nl;
    $"This report summarizes test results for the snapshot interpolation system." ++ nl ++ nl;
    (* Quick status *)
    $"## Quick Status" ++ nl ++ nl;
    if negb (has_critical_issues summary) && negb (has_warnings summary)
    then $"✅ **All tests passed!** No critical issues detected." ++ nl ++ nl
    else $"⚠️ **Issues detected.** See details below." ++ nl ++ nl ] ++
  (* Critical issues *)
  (if has_critical_issues summary
   then
     [ $"## 🔴 Critical Issues Requiring Immediate Attention" ++ nl ++ nl ] ++
     flat_map (fun result =>
       if truthy (critical_issues result)
       then [ $"### File: `" ++ filename result ++ $"`" ++ nl ++ nl ] ++
            flat_map (fun issue =>
              [ $"**Issue:** " ++ issue ++ nl ++ nl;
                _suggest_fix issue;
                nl ]) (critical_issues result)
       else []) results
   else []) ++
  (* Warnings *)
  (if has_warnings summary
   then
     [ $"## ⚠️ Warnings (May Need Investigation)" ++ nl ++ nl ] ++
     flat_map (fun result =>
       if truthy (warnings_list result)
       then [ $"### File: `" ++ filename result ++ $"`" ++ nl ++ nl ] ++
            map (fun warning => $"**Warning:** " ++ warning ++ nl ++ nl)
              (warnings_list result)
       else []) results
   else []) ++
  (* Recommendations *)
  [ $"## Recommendations" ++ nl ++ nl;
    _generate_recommendations summary;
    (* Claude prompts *)
    $"## Suggested Claude Code Prompts" ++ nl ++ nl;
    _generate_claude_prompts summary ].

(** Generate all report formats: the JSON report, the Markdown report
    and the debugging summary. *)
Definition generate_all (results : list AnalysisResult)
    : json * list str * list str :=
  (generate_json_report results,
   generate_markdown_report results,
   generate_claude_summary results).

(** [main]: the exit code it returns, with the three reports when
    they are written. What the run finds outside the log files is
    given by three arguments: [log_dir_exists] is the answer of
    [log_dir.exists()], [log_files] the paths that
    [log_dir.glob("*.log")] lists, and [output] the answer of the file
    system to the making of the output directory in
    [ReportGenerator.__init__] and to the opening of the report files
    for writing, [Ok] or the first exception raised. Nothing is parsed
    and nothing is written when the directory is missing or holds no
    log; an exception of [parse] or of the output ends the run. *)
Definition main (log_dir_exists : bool) (fs : gmap str LogAnalyzer.file)
    (log_files : list str) (output : result unit)
    : result (Z * option (json * list str * list str)) :=
  if negb log_dir_exists then Ok (1, None)
  else if negb (truthy log_files) then Ok (1, None)
  else
    (* Analyze each file *)
    results ← analyze_all fs log_files;
    (* Generate reports *)
    _ ← output;
    Ok (0, Some (generate_all results)).

End ReportGenerator.

(** ** The test framework ([test_framework.py], both copies)

    The two copies analyse raw log lines in the same way; the copy under
    [testing/tools] also tracks buffer underruns. [underruns] says which
    copy is meant. The average [avg_snapshot_size] of the server is a
    quotient of two [int]s and can raise; [int_max_str_digits] is the
    limit of the interpreter on the digits that [int] reads. The average
    [avg_delay_ms] of a client is computed on [float]s, where no
    operation raises, from free text that [float] reads inside a
    [try]; it is read by none of the checks below and is carried as the
    function [avg_delay] of the lines. The symbols that open the texts
    of the summary are kept as the bytes of their UTF-8 encoding. *)

Module TestFramework.
Import PyStr.

Definition count_lines (p : str -> bool) (lines : list str) : Z :=
  Z.of_nat (length (filter (fun l => p l = true) lines)).

Definition join_path (dir name : str) : str := dir ++ $"/" ++ name.

Section Analysis.
Variable underruns : bool.
Variable int_max_str_digits : N.
Variable avg_delay : list str -> json.

(** [log_path.exists()] *)
Definition exists_ (fs : gmap str LogAnalyzer.file) (path : str) : bool :=
  bool_decide (is_Some (fs !! path)).

(** Extract size if available: [int] of the last word before
    ["bytes"]; any exception (no word, not a numeral) is passed
    over. *)
Definition snapshot_size (line : str) : option Z :=
  match last (split_ws (split_head ($"bytes") line)) with
  | Some word =>
      match PyInt.of_str int_max_str_digits word with
      | Ok size => Some size
      | Raise _ => None
      end
  | None => None
  end.

Definition snapshot_sizes (lines : list str) : list Z :=
  omap snapshot_size
    (filter (fun l => contains ($"Snapshot #") l && contains ($"to peer") l
                      && contains ($"bytes") l = true) lines).

(** The entry [avg_snapshot_size]: the [int] 0 it starts with, or
    [sum(snapshot_sizes) / len(snapshot_sizes)]. *)
Definition avg_snapshot_size (lines : list str) : result json :=
  let sizes := snapshot_sizes lines in
  if ReportGenerator.truthy sizes
  then
    avg ← PyFloat.true_divide (fold_left Z.add sizes 0) (Z.of_nat (length sizes));
    Ok (JFloat avg)
  else Ok (JInt 0).

(** Extract server metrics from log file. *)
Definition _analyze_server_log (fs : gmap str LogAnalyzer.file) (log_path : str)
    : result json :=
  if negb (exists_ fs log_path)
  then Ok (JDict [ ($"error", JStr ($"Log file not found")) ])
  else
    lines ← LogAnalyzer.open_r fs log_path;
    avg_size ← avg_snapshot_size lines;
    Ok (JDict
      [ ($"total_snapshots",
          JInt (count_lines (fun l => contains ($"Snapshot #") l
                                      && contains ($"to peer") l) lines));
        ($"avg_snapshot_size", avg_size);
        ($"total_entities", JInt 0);
        ($"chunk_changes",
          JInt (count_lines (contains ($"moved from chunk")) lines));
        ($"errors",
          JList (map (fun l => JStr (strip l))
                   (filter (fun l => contains ($"ERROR") l
                                     || contains ($"WARNING") l = true) lines))) ]).

(** Extract client metrics from log file. *)
Definition _analyze_client_log (fs : gmap str LogAnalyzer.file) (log_path : str)
    (client_id : Z) : result json :=
  if negb (exists_ fs log_path)
  then Ok (JDict [ ($"error", JStr ($"Log file not found"));
                   ($"client_id", JInt client_id) ])
  else
    lines ← LogAnalyzer.open_r fs log_path;
    Ok (JDict
      ([ ($"client_id", JInt client_id);
         ($"snapshots_received",
           JInt (count_lines (contains ($"Received snapshot")) lines));
         ($"player_disappearances",
           JInt (count_lines (fun l => contains ($"Player entity") l
                                       && contains ($"NOT in snapshot") l) lines));
         ($"interpolation_warnings",
           JInt (count_lines (fun l => contains ($"INTERPOLATOR") l
                                       && contains ($"WARNING") l) lines)) ]
       ++ (if underruns
           then [ ($"buffer_underruns",
                    JInt (count_lines (fun l => contains ($"Buffer underrun") l
                                                || contains ($"stutter") (lower l))
                            lines)) ]
           else [])
       ++ [ ($"baseline_mismatches",
              JInt (count_lines (contains ($"Baseline mismatch")) lines));
            ($"avg_delay_ms", avg_delay lines);
            ($"errors",
              JList (map (fun l => JStr (strip l))
                       (filter (fun l => contains ($"ERROR") l = true) lines))) ])).

(** Analyze each client: a client whose log does not exist is left
    out of the list. *)
Fixpoint analyze_clients (fs : gmap str LogAnalyzer.file) (log_dir : str)
    (ids : list nat) : result (list json) :=
  match ids with
  | [] => Ok []
  | i :: rest =>
      let client_log :=
        join_path log_dir ($"client_" ++ of_Z (Z.of_nat i) ++ $".log") in
      if exists_ fs client_log
      then
        c ← _analyze_client_log fs client_log (Z.of_nat i);
        cs ← analyze_clients fs log_dir rest;
        Ok (c :: cs)
      else analyze_clients fs log_dir rest
  end.

(** The entry ["results"] of the report built by [_analyze_logs]. *)
Definition _analyze_logs (fs : gmap str LogAnalyzer.file) (log_dir : str)
    (num_clients : nat) : result json :=
  server ← _analyze_server_log fs (join_path log_dir ($"server.log"));
  clients ← analyze_clients fs log_dir (seq 0 num_clients);
  Ok (JDict [ ($"server", server); ($"clients", JList clients) ]).

(** The "Issues Detected" part of the summary. Each loop returns the
    texts it writes, or the exception that ends it. *)

(* Check for player disappearances *)
Fixpoint disappearance_loop (clients : list json) : result (list str) :=
  match clients with
  | [] => Ok []
  | client :: rest =>
      here ←
        (if 0 <? Json.get_int ($"player_disappearances") 0 client
         then
           id ← Json.index_int ($"client_id") client;
           n ← Json.index_int ($"player_disappearances") client;
           Ok [ $"⚠️ **Player Disappearance**: Client " ++ of_Z id ++ $" had " ++
                of_Z n ++ $" occurrences" ++ ["010"; "010"]%char ]
         else Ok []);
      more ← disappearance_loop rest;
      Ok (here ++ more)
  end.

(* Check for high interpolation warnings *)
Fixpoint interpolation_loop (clients : list json) : result (list str) :=
  match clients with
  | [] => Ok []
  | client :: rest =>
      here ←
        (if 10 <? Json.get_int ($"interpolation_warnings") 0 client
         then
           id ← Json.index_int ($"client_id") client;
           n ← Json.index_int ($"interpolation_warnings") client;
           Ok [ $"⚠️ **High Interpolation Warnings**: Client " ++ of_Z id ++
                $" had " ++ of_Z n ++ $" warnings" ++ ["010"; "010"]%char ]
         else Ok []);
      more ← interpolation_loop rest;
      Ok (here ++ more)
  end.

(* Check for buffer underruns *)
Fixpoint underrun_loop (clients : list json) : result (list str) :=
  match clients with
  | [] => Ok []
  | client :: rest =>
      here ←
        (if 0 <? Json.get_int ($"buffer_underruns") 0 client
         then
           id ← Json.index_int ($"client_id") client;
           n ← Json.index_int ($"buffer_underruns") client;
           Ok [ $"⚠️ **Buffer Underrun**: Client " ++ of_Z id ++ $" had " ++
                of_Z n ++ $" stutters" ++ ["010"; "010"]%char ]
         else Ok []);
      more ← underrun_loop rest;
      Ok (here ++ more)
  end.

(** The test [mismatches > received * 0.1] of the last loop. *)
Definition high_mismatches (mismatches received : Z) : result bool :=
  r ← PyFloat.of_int received;
  Ok (PyFloat.int_gtb mismatches (PyFloat.mul r PyFloat.lit_0_1)).

(* Check for high baseline mismatches *)
Fixpoint mismatch_loop (clients : list json) : result (list str) :=
  match clients with
  | [] => Ok []
  | client :: rest =>
      let mismatches := Json.get_int ($"baseline_mismatches") 0 client in
      let received := Json.get_int ($"snapshots_received") 1 client in
      high ← high_mismatches mismatches received;  (* More than 10% mismatches *)
      here ←
        (if high : bool
         then
           id ← Json.index_int ($"client_id") client;
           percent ← PyFloat.floor_divide (mismatches * 100) received;
           Ok [ $"⚠️ **High Baseline Mismatches**: Client " ++ of_Z id ++ $" had " ++
                of_Z mismatches ++ $" mismatches out of " ++ of_Z received ++
                $" snapshots (" ++ of_Z percent ++ $"%)" ++ ["010"; "010"]%char ]
         else Ok []);
      more ← mismatch_loop rest;
      Ok (here ++ more)
  end.

(** Everything written from "## Issues Detected" to the line before
    "## Log Files". *)
Definition issues_detected (clients : list json) : result (list str) :=
  a ← disappearance_loop clients;
  b ← interpolation_loop clients;
  c ← (if underruns then underrun_loop clients else Ok []);
  d ← mismatch_loop clients;
  let written := a ++ b ++ c ++ d in
  Ok ([ $"## Issues Detected" ++ ["010"; "010"]%char ] ++ written ++
      match written with
      | [] => [ $"✅ No major issues detected!" ++ ["010"; "010"]%char ]
      | _ => []
      end).

End Analysis.

(** [testing/tools/test_framework.py] *)
Definition _generate_agent_summary := issues_detected true.

(** [tools/test_framework.py] *)
Definition _generate_claude_summary := issues_detected false.

(** The last line that [run_test] of [testing/tools] prints, the key
    signal for the wrapper below: [print] ends it with a line feed. *)
Definition report_json_line (report_path : str) : str :=
  $"REPORT_JSON:" ++ report_path ++ nl.

End TestFramework.

(** ** The wrapper around a test run ([gemini_auto_debug.py]) *)

Module AutoDebug.
Import PyStr.

(** Find the REPORT_JSON line: the first line that starts with the
    marker gives the path, the text after its first colon, stripped.
    A line that starts with the marker holds a colon, so the second
    part of the split is there ([None] is not reached). *)
Fixpoint find_report_path (full_output : list str) : option str :=
  match full_output with
  | [] => None
  | line :: rest =>
      if startswith ($"REPORT_JSON:") line
      then match split_first ":" line with
           | Some (_, after) => Some (strip after)
           | None => None
           end
      else find_report_path rest
  end.

(** The output of the test script as the pipe hands it to the reader:
    the pipe is opened as text with universal newlines, so a carriage
    return, alone or followed by a line feed, is read as one line
    feed. [after_cr] says that the character just read is a carriage
    return. *)
Fixpoint universal_newlines (after_cr : bool) (s : str) : str :=
  match s with
  | [] => []
  | c :: t =>
      if Ascii.eqb c "013" then "010"%char :: universal_newlines true t
      else if Ascii.eqb c "010" && after_cr then universal_newlines false t
      else c :: universal_newlines false t
  end.

(** The loop over [process.stdout.readline()]: the lines appended to
    [full_output], each with the line feed that ends it; the last one
    has none when the output does not end with a line break. [cur] is
    the line being read, in reverse. *)
Fixpoint readlines (cur : str) (s : str) : list str :=
  match s with
  | [] => match cur with [] => [] | _ => [rev cur] end
  | c :: t =>
      if Ascii.eqb c "010" then rev (c :: cur) :: readlines [] t
      else readlines (c :: cur) t
  end.

(** [run_test_and_get_report]: [test_script_exists] is the answer of
    [test_script.exists()]; when the script is run, [stdout] is all
    that it writes and [exit_code] the code it ends with. The function
    returns the report path, [None] when no path or an empty one was
    found, and the whole output. After a failed run the handler of
    [CalledProcessError] adds [e.stderr], which is [None], to a text:
    the function raises [TypeError]. *)
Definition run_test_and_get_report (test_script_exists : bool) (exit_code : Z)
    (stdout : str) : result (option str * str) :=
  if negb test_script_exists then Ok (None, [])
  else
    let full_output := readlines [] (universal_newlines false stdout) in
    let output_str := concat full_output in
    if negb (exit_code =? 0) then Raise TypeError
    else match find_report_path full_output with
         | Some (c :: t) => Ok (Some (c :: t), output_str)
         | _ => Ok (None, output_str)
         end.

End AutoDebug.

(** * The vocabulary of the properties *)

(** ** Structured lines *)

Section Vocabulary.
Import Re PyStr LogAnalyzer.

(** A non-empty run of characters of one class: what [p+] consumes. *)
Definition run_of (p : ascii -> bool) (w : str) : Prop :=
  w <> [] /\ forallb p w = true.

(** [rest] does not continue a run of [p]. *)
Definition stops (p : ascii -> bool) (rest : str) : Prop :=
  match rest with
  | [] => True
  | c :: _ => p c = false
  end.

(** The head of a structured line up to the category,
    [[i.f] sp1 [lvl] sp2 [cat]], with the classes of its fields. *)
Definition header (i f sp1 lvl sp2 cat : str) : str :=
  $"[" ++ i ++ $"." ++ f ++ $"]" ++ sp1 ++ $"[" ++ lvl ++ $"]" ++ sp2 ++
  $"[" ++ cat ++ $"]".

Definition header_ok (i f sp1 lvl sp2 cat : str) : Prop :=
  run_of isdigit i /\ run_of isdigit f /\ run_of isspace sp1 /\
  run_of isword lvl /\ run_of isspace sp2 /\ run_of (none_of "]") cat.

(** A line has the documented shape
    [[<float-timestamp>] [<LEVEL>] [<category>] <message>] when a
    header is followed by whitespace and a message, that is at least
    one character that does not open the metadata. *)
Definition structured (line : str) : Prop :=
  exists i f sp1 lvl sp2 cat sp3 c tail,
    line = header i f sp1 lvl sp2 cat ++ sp3 ++ c :: tail /\
    header_ok i f sp1 lvl sp2 cat /\ run_of isspace sp3 /\ c <> "|"%char.

(** The fields of a line as the logging side writes it: the time stamp
    [f_int.f_frac], level and category in brackets, the message, and
    after a pipe, a blank-separated run of [key=value] tokens. *)
Record Fields := {
  f_int : str;
  f_frac : str;
  f_sp1 : str;
  f_level : str;
  f_sp2 : str;
  f_category : str;
  f_sp3 : str;
  f_message : str;
  f_meta : option (str * str);   (* blanks after the pipe, then the tokens *)
}.

Definition render (x : Fields) : str :=
  header (f_int x) (f_frac x) (f_sp1 x) (f_level x) (f_sp2 x) (f_category x) ++
  f_sp3 x ++ f_message x ++
  match f_meta x with
  | None => []
  | Some (sp, meta) => $"|" ++ sp ++ meta
  end.

Definition well_formed (x : Fields) : Prop :=
  header_ok (f_int x) (f_frac x) (f_sp1 x) (f_level x) (f_sp2 x) (f_category x) /\
  run_of isspace (f_sp3 x) /\
  run_of (none_of "|") (f_message x) /\ stops isspace (f_message x) /\
  match f_meta x with
  | None => True
  | Some (sp, meta) =>
      forallb isspace sp = true /\ run_of dot meta /\ stops isspace meta
  end.

(** The groups that the pattern captures on a well-formed line. *)
Definition groups_of (x : Fields) : groups :=
  let g := <[4%nat := f_message x]> (<[3%nat := f_category x]> (<[2%nat := f_level x]>
             (<[1%nat := f_int x ++ $"." ++ f_frac x]> ∅))) in
  match f_meta x with
  | None => g
  | Some (_, meta) => <[5%nat := meta]> g
  end.

(** The value that the tokens give to [key]: the one of the last token
    [key=value]. *)
Definition value_for (key tok : str) : option str :=
  match split_first "=" tok with
  | Some (k, v) => if decide (k = key) then Some v else None
  | None => None
  end.

Definition last_value (key : str) (toks : list str) : option str :=
  last (omap (value_for key) toks).

End Vocabulary.

(** ** Counters, issues and reports *)

Definition level_sum (r : AnalysisResult) : Z :=
  errors r + warnings r + info r + debug r.

(** The invariant of one pass over a file. *)
Definition pass_invariant (r : AnalysisResult) : Prop :=
  level_sum r <= Z.of_nat (length (entries r)) <= total_lines r.

(** An entry that the interpolation rule counts. *)
Definition is_interpolation_warn (e : LogEntry) : bool :=
  bool_decide (category e = $"INTERPOLATOR") && bool_decide (level e = $"WARN").

Definition count_entries (p : LogEntry -> bool) (es : list LogEntry) : Z :=
  Z.of_nat (length (filter (fun e => p e = true) es)).

Definition b2z (b : bool) : Z := if b then 1 else 0.

(** What the detector adds to the two lists, rule by rule. *)
Definition critical_of (log_path : str) (r : AnalysisResult) : list str :=
  (if 0 <? player_disappearances r
   then [LogAnalyzer.disappearance_issue (player_disappearances r)] else []) ++
  (if (snapshots_sent r =? 0) && PyStr.contains ($"server") (PyStr.lower log_path)
   then [LogAnalyzer.server_issue] else []) ++
  (if (snapshots_received r =? 0) && PyStr.contains ($"client") (PyStr.lower log_path)
   then [LogAnalyzer.client_issue] else []).

Definition mismatch_rate_of (r : AnalysisResult) : spec_float :=
  PyFloat.round_div (baseline_mismatches r) (snapshots_received r).

Definition warnings_of (r : AnalysisResult) : list str :=
  (if 10 <? interpolation_warnings r
   then [LogAnalyzer.interpolation_warning (interpolation_warnings r)] else []) ++
  (if (0 <? snapshots_received r) && PyFloat.gtb (mismatch_rate_of r) PyFloat.lit_0_1
   then [LogAnalyzer.mismatch_warning (mismatch_rate_of r)] else []).

(** The kinds of warning, told apart by the way their text starts. *)
Definition is_mismatch_warning (w : str) : bool :=
  PyStr.startswith ($"High baseline mismatch rate") w.

Definition is_interpolation_warning (w : str) : bool :=
  PyStr.startswith ($"High interpolation warnings") w.

Definition has_warning (kind : str -> bool) (r : AnalysisResult) : Prop :=
  exists w, In w (warnings_list r) /\ kind w = true.

(** What the loop keeps: no issue is recorded during the pass, the
    file name stays, and the two invariants on the counters hold. *)
Definition loop_invariant (log_path : str) (r : AnalysisResult) : Prop :=
  critical_issues r = [] /\ warnings_list r = [] /\ filename r = log_path /\
  pass_invariant r /\
  interpolation_warnings r = count_entries is_interpolation_warn (entries r).

(** The two counters of the mismatch rule count lines of the file. *)
Definition rate_counters_bounded (r : AnalysisResult) : Prop :=
  0 <= baseline_mismatches r <= total_lines r /\
  0 <= snapshots_received r <= total_lines r.

(** A line that reports a missing player entity, as the scenario of the
    five disappearances has it. *)
Definition is_disappearance_line (l : str) : Prop :=
  exists e,
    LogAnalyzer._parse_line (PyStr.strip l) = Ok (Some e) /\
    level e = $"ERROR" /\ category e = $"CLIENT_ERROR" /\
    message e = $"Player entity missing from snapshot".

Definition disappearance_line : str :=
  $"[12.5] [ERROR] [CLIENT_ERROR] Player entity missing from snapshot | peer=2".

(** Sample files. *)
Definition mismatch_line : str :=
  $"[3.25] [WARN] [CLIENT_DELTA] Baseline mismatch for snapshot | expected=7 got=5".
Definition snapshot_line : str :=
  $"[3.5] [DEBUG] [CLIENT_SNAPSHOT] Received snapshot | seq=8 size=212".
Definition interpolator_line : str :=
  $"[4.75] [WARN] [INTERPOLATOR] Buffer starved, extrapolating".
Definition noise_line : str := $"Godot Engine v4.2 - https://godotengine.org".

(** The result of a run that returns; the empty result stands for a run
    that raises. *)
Definition finalized (log_path : str) (lines : list str) : AnalysisResult :=
  match LogAnalyzer.parse_lines log_path lines with
  | Ok r => r
  | Raise _ => new_result log_path
  end.

(** [a] is the small letter [b] or its capital. *)
Definition either_case (a b : ascii) : bool :=
  Ascii.eqb a b || (PyStr.code a + 32 =? PyStr.code b)%N.

(** [word], written in small letters, opens [s] in some letter case. *)
Fixpoint opens_in_any_case (word s : str) : bool :=
  match word, s with
  | [], _ => true
  | _ :: _, [] => false
  | b :: word', a :: s' => either_case a b && opens_in_any_case word' s'
  end.

(** [word], written in small letters, occurs in [s] in some letter case. *)
Fixpoint occurs_in_any_case (word s : str) : bool :=
  opens_in_any_case word s ||
  match s with
  | [] => false
  | _ :: t => occurs_in_any_case word t
  end.

Definition small_letter (c : ascii) : bool := PyStr.between 97 122 c.

(** Every character, in the order of the codes. *)
Definition all_chars : list ascii := map ascii_of_nat (seq 0 256).

(** A server log line of a sent snapshot. *)
Definition sent_line : str :=
  $"[2.0] [DEBUG] [SERVER_SNAPSHOT] Sent snapshot | seq=8 peer=2".

(** The server log of a test run of the framework, whose directory is
    named after the test. *)
Definition run_server_log : str :=
  $"test_logs/basic_single_client_20240101_120000/server.log".


Definition sample_fields : Fields := {|
  f_int := $"12";
  f_frac := $"5";
  f_sp1 := $" ";
  f_level := $"INFO";
  f_sp2 := $"  ";
  f_category := $"SERVER_SNAPSHOT";
  f_sp3 := $" ";
  f_message := $"Snapshot #7 sent to peer 2 ";
  f_meta := Some ($" ", $"size=12 flag a=b=c size=13");
|}.

(** The sum of one counter over the analysed files. *)
Definition total (f : AnalysisResult -> Z) (results : list AnalysisResult) : Z :=
  fold_right Z.add 0 (map f results).

(** What the report says about one file: the counters that are emitted,
    each under the name of its field, and the two that are not. *)
Definition emitted_as (r : AnalysisResult) (f : json) : Prop :=
  Json.member ($"total_lines") f = Some (JInt (total_lines r)) /\
  Json.member ($"entries") f = Some (JInt (Z.of_nat (length (entries r)))) /\
  Json.member ($"errors") f = Some (JInt (errors r)) /\
  Json.member ($"warnings") f = Some (JInt (warnings r)) /\
  Json.member ($"snapshots_sent") f = Some (JInt (snapshots_sent r)) /\
  Json.member ($"snapshots_received") f = Some (JInt (snapshots_received r)) /\
  Json.member ($"packet_loss_events") f = Some (JInt (packet_loss_events r)) /\
  Json.member ($"baseline_mismatches") f = Some (JInt (baseline_mismatches r)) /\
  Json.member ($"player_disappearances") f = Some (JInt (player_disappearances r)) /\
  Json.member ($"interpolation_warnings") f = Some (JInt (interpolation_warnings r)) /\
  Json.member ($"chunk_changes") f = Some (JInt (chunk_changes r)) /\
  Json.member ($"info") f = None /\
  Json.member ($"debug") f = None.

Definition summary_emitted (results : list AnalysisResult) (s : json) : Prop :=
  Json.member ($"total_errors") s = Some (JInt (total errors results)) /\
  Json.member ($"total_warnings") s = Some (JInt (total warnings results)) /\
  Json.member ($"total_snapshots_sent") s = Some (JInt (total snapshots_sent results)) /\
  Json.member ($"total_snapshots_received") s =
    Some (JInt (total snapshots_received results)) /\
  Json.member ($"total_player_disappearances") s =
    Some (JInt (total player_disappearances results)) /\
  Json.member ($"total_interpolation_warnings") s =
    Some (JInt (total interpolation_warnings results)).

Definition info_line : str := $"[1.5] [INFO] [SERVER] Listening on port 7777".
Definition trace_line : str := $"[1.5] [TRACE] [SERVER] Listening on port 7777".

(** A client log with a baseline mismatch and no received snapshot. *)
Definition stalled_client_fs : gmap str LogAnalyzer.file :=
  {[ $"test_logs/run/client_0.log" :=
       LogAnalyzer.Text [ $"Connecting to 127.0.0.1:7777" ++ ["010"%char];
                          $"[CLIENT] Baseline mismatch: have 0, need 12" ++ ["010"%char] ] ]}.

(** A directory of logs of which one cannot be read. *)
Definition unreadable_fs : gmap str LogAnalyzer.file :=
  {[ $"logs/client_0.log" := LogAnalyzer.Unreadable;
     $"logs/server.log" := LogAnalyzer.Text [info_line] ]}.

(** A test run whose server log was never written. *)
Definition no_server_fs : gmap str LogAnalyzer.file :=
  {[ $"run/client_1.log" := LogAnalyzer.Text [ $"Received snapshot" ] ]}.

(** Every file that exists can be read. *)
Definition all_readable (fs : gmap str LogAnalyzer.file) : Prop :=
  forall path, fs !! path <> Some LogAnalyzer.Unreadable.

Definition client_log (log_dir : str) (i : nat) : str :=
  TestFramework.join_path log_dir ($"client_" ++ PyStr.of_Z (Z.of_nat i) ++ $".log").

Definition not_found_entry : json :=
  JDict [ ($"error", JStr ($"Log file not found")) ].

(** A test run whose server log cannot be read. *)
Definition locked_server_fs : gmap str LogAnalyzer.file :=
  {[ $"run/server.log" := LogAnalyzer.Unreadable;
     $"run/client_0.log" := LogAnalyzer.Text [ $"Received snapshot" ] ]}.

(** A test run whose server log reports a snapshot of a size above the
    range of a float, a numeral of 400 digits. *)
Definition oversized_line : str :=
  $"[SERVER] Snapshot #1 to peer 2: " ++ repeat "9"%char 400 ++ $" bytes".

Definition oversized_fs : gmap str LogAnalyzer.file :=
  {[ $"run/server.log" := LogAnalyzer.Text [ oversized_line ] ]}.

(** ** The pass over a file, entry by entry *)

(** The line is matched by the log pattern. *)
Definition matched (line : str) : bool :=
  match Re.match_ LogAnalyzer.LOG_PATTERN line with
  | Some _ => true
  | None => false
  end.

(** The entry that the loop of [parse] appends for a line, if any. *)
Definition entry_of (line : str) : option LogEntry :=
  match LogAnalyzer._parse_line (PyStr.strip line) with
  | Ok o => o
  | Raise _ => None
  end.

(** The tests of [_update_metrics] on one entry. *)
Definition is_level (lv : str) (e : LogEntry) : bool := bool_decide (level e = lv).

Definition in_category (cat : str) (e : LogEntry) : bool :=
  bool_decide (category e = cat).

Definition mentions (text : str) (e : LogEntry) : bool :=
  PyStr.contains text (PyStr.lower (message e)).

(** What [_detect_issues] records for a path when no snapshot was
    counted. *)
Definition zero_snapshot_issues (log_path : str) : list str :=
  (if PyStr.contains ($"server") (PyStr.lower log_path)
   then [LogAnalyzer.server_issue] else []) ++
  (if PyStr.contains ($"client") (PyStr.lower log_path)
   then [LogAnalyzer.client_issue] else []).

(** The time stamp of an entry that may be missing; [0.0] without one. *)
Definition timestamp_or_zero (e : option LogEntry) : spec_float :=
  from_option timestamp PyFloat.lit_0_0 e.

(** A file of three lines, two of them structured. *)
Definition short_log : list str :=
  [ $"  [0.5] [INFO] [SERVER_SNAPSHOT] Snapshot #1 sent to peer 2 | size=40" ++ PyStr.nl;
    $"Godot Engine v4.2" ++ PyStr.nl;
    $"[2.25] [ERROR] [CLIENT_ERROR] Player entity missing from snapshot" ++ PyStr.nl ].

(** ** Reports *)

(** A result that [parse] returned for some log. *)
Definition analysed (r : AnalysisResult) : Prop :=
  exists log_path lines, LogAnalyzer.parse_lines log_path lines = Ok r.

(** The texts that the Markdown report writes for one issue and for one
    warning. *)
Definition issue_bullet (issue : str) : str := $"- ❌ " ++ issue ++ PyStr.nl.

Definition warning_bullet (warning : str) : str := $"- ⚠️ " ++ warning ++ PyStr.nl.

(** The two texts of the quick status. *)
Definition all_passed : str :=
  $"✅ **All tests passed!** No critical issues detected." ++ PyStr.nl ++ PyStr.nl.

Definition issues_found : str :=
  $"⚠️ **Issues detected.** See details below." ++ PyStr.nl ++ PyStr.nl.

(** Two finished results: a client log with two missing-player errors,
    and a server log without any issue. *)
Definition faulty_result : AnalysisResult :=
  finalized ($"logs/client_0.log") (snapshot_line :: repeat disappearance_line 2).

Definition clean_result : AnalysisResult :=
  finalized ($"logs/server.log")
    [ $"[0.5] [INFO] [SERVER_SNAPSHOT] Snapshot #1 sent to peer 2 | size=40" ].

(** ** Paths and the test framework *)

(** No log of the file system has [2^53] lines or more. *)
Definition logs_bounded (fs : gmap str LogAnalyzer.file) : Prop :=
  forall path lines,
    fs !! path = Some (LogAnalyzer.Text lines) ->
    Z.of_nat (length lines) < 9007199254740992.

(** The two counters that the last loop of the summary reads. *)
Definition received_of (client : json) : Z := Json.get_int ($"snapshots_received") 1 client.

Definition mismatches_of (client : json) : Z := Json.get_int ($"baseline_mismatches") 0 client.

(** What the loops of the summary read from an analysed client: the
    keys they index are present and hold integers, and the counters are
    not negative. *)
Definition client_metrics (underruns : bool) (client : json) : Prop :=
  (exists id, Json.index_int ($"client_id") client = Ok id) /\
  (exists n, Json.index_int ($"player_disappearances") client = Ok n) /\
  (exists n, Json.index_int ($"interpolation_warnings") client = Ok n) /\
  (underruns = true -> exists n, Json.index_int ($"buffer_underruns") client = Ok n) /\
  0 <= received_of client /\ 0 <= mismatches_of client.

(** A run with two client logs: the first client received a snapshot,
    the second one only reported a baseline mismatch. *)
Definition two_clients_fs : gmap str LogAnalyzer.file :=
  {[ $"run/client_0.log" := LogAnalyzer.Text [ $"Received snapshot 1" ++ PyStr.nl ];
     $"run/client_2.log" := LogAnalyzer.Text [ $"Baseline mismatch" ++ PyStr.nl ] ]}.

(** [s] is empty or ends with a line feed. *)
Definition whole_lines (s : str) : Prop := s = [] \/ exists b, s = b ++ PyStr.nl.

(** ** Whole runs *)

(** Every listed log is a readable file of fewer than [2^53] lines. *)
Definition logs_readable (fs : gmap str LogAnalyzer.file) (log_files : list str) : Prop :=
  Forall (fun path => exists lines,
            fs !! path = Some (LogAnalyzer.Text lines) /\
            Z.of_nat (length lines) < 9007199254740992) log_files.

(** Two readable logs. *)
Definition two_logs_fs : gmap str LogAnalyzer.file :=
  {[ $"logs/server.log" := LogAnalyzer.Text [info_line];
     $"logs/client_0.log" := LogAnalyzer.Text [snapshot_line; mismatch_line] ]}.

(** ** The issues of a test run *)

(** No log of the file system has [2^50] lines or more. *)
Definition logs_short (fs : gmap str LogAnalyzer.file) : Prop :=
  forall path lines,
    fs !! path = Some (LogAnalyzer.Text lines) ->
    Z.of_nat (length lines) < 1125899906842624.

(** The other counters that the loops of the summary read. *)
Definition disappearances_of (client : json) : Z :=
  Json.get_int ($"player_disappearances") 0 client.

Definition interpolation_of (client : json) : Z :=
  Json.get_int ($"interpolation_warnings") 0 client.

Definition underruns_of (client : json) : Z :=
  Json.get_int ($"buffer_underruns") 0 client.

(** The line written when no loop has found an issue. *)
Definition no_major_issues : str :=
  $"✅ No major issues detected!" ++ PyStr.nl ++ PyStr.nl.

(** A client without any issue for the summary. *)
Definition quiet_client (underruns : bool) (client : json) : Prop :=
  disappearances_of client = 0 /\
  interpolation_of client <= 10 /\
  (underruns = true -> underruns_of client = 0) /\
  10 * mismatches_of client <= received_of client.

(** A run with one client that received ten snapshots and counted one
    baseline mismatch. *)
Definition steady_fs : gmap str LogAnalyzer.file :=
  {[ $"run/client_0.log" :=
       LogAnalyzer.Text
         (repeat ($"Received snapshot" ++ PyStr.nl) 10 ++ [ $"Baseline mismatch" ++ PyStr.nl ]) ]}.

(** * Properties of the regular-expression matcher *)

Section ReFacts.
Import Re.

Lemma star_inv {A} p s (k : str -> option A) r :
  star p s k = Some r ->
  exists w rest, s = w ++ rest /\ forallb p w = true /\ k rest = Some r.
Proof.
  revert r. induction s as [|c t IH]; intros r H; simpl in H.
  - exists [], []. auto.
  - destruct (p c) eqn:Hc.
    + destruct (star p t k) as [r'|] eqn:Hs.
      * inversion H; subst r'. destruct (IH r eq_refl) as (w & rest & -> & Hw & Hk).
        exists (c :: w), rest. simpl. rewrite Hc. auto.
      * exists [], (c :: t). auto.
    + exists [], (c :: t). auto.
Qed.

Lemma star_greedy {A} p w rest (k : str -> option A) r :
  forallb p w = true -> stops p rest -> k rest = Some r ->
  star p (w ++ rest) k = Some r.
Proof.
  intros Hw Hstop Hk. induction w as [|c w IH]; simpl.
  - destruct rest as [|c t]; simpl; [exact Hk|].
    simpl in Hstop. rewrite Hstop. exact Hk.
  - simpl in Hw. apply andb_true_iff in Hw as [Hc Hw].
    rewrite Hc, (IH Hw). reflexivity.
Qed.

(** Some split succeeds exactly when the repetition does. *)
Lemma star_complete {A} p w rest (k : str -> option A) :
  forallb p w = true -> is_Some (k rest) -> is_Some (star p (w ++ rest) k).
Proof.
  intros Hw Hk. induction w as [|c w IH]; simpl.
  - destruct rest as [|c t]; simpl; [exact Hk|].
    destruct (p c); [|exact Hk]. destruct (star p t k); eauto.
  - simpl in Hw. apply andb_true_iff in Hw as [Hc Hw].
    rewrite Hc. destruct (IH Hw) as [x ->]. eauto.
Qed.

Lemma run_Chr c s g k r :
  run (Chr c) s g k = Some r -> exists t, s = c :: t /\ k t g = Some r.
Proof.
  simpl. destruct s as [|c' t]; [discriminate|].
  destruct (Ascii.eqb_spec c' c) as [->|]; [|discriminate]. eauto.
Qed.

Lemma run_Chr_eq c t g k : run (Chr c) (c :: t) g k = k t g.
Proof. simpl. by rewrite Ascii.eqb_refl. Qed.

Lemma run_Plus_complete p w rest g k :
  run_of p w -> is_Some (k rest g) -> is_Some (run (Plus p) (w ++ rest) g k).
Proof.
  intros [Hne Hw] Hk. destruct w as [|c w]; [done|].
  simpl in *. apply andb_true_iff in Hw as [-> Hw].
  by apply star_complete.
Qed.

Lemma run_Opt_final r1 s g :
  is_Some (run (Opt r1) s g (fun _ g' => Some g')).
Proof. simpl. destruct (run r1 s g _); eauto. Qed.

Lemma run_Plus p s g k r :
  run (Plus p) s g k = Some r ->
  exists w rest, s = w ++ rest /\ run_of p w /\ k rest g = Some r.
Proof.
  simpl. destruct s as [|c t]; [discriminate|].
  destruct (p c) eqn:Hc; [|discriminate]. intros H.
  apply star_inv in H as (w & rest & -> & Hw & Hk).
  exists (c :: w), rest. repeat split; auto. simpl. rewrite Hc. exact Hw.
Qed.

Lemma run_Plus_greedy p w rest g k r :
  run_of p w -> stops p rest -> k rest g = Some r ->
  run (Plus p) (w ++ rest) g k = Some r.
Proof.
  intros [Hne Hw] Hstop Hk. destruct w as [|c w]; [done|].
  simpl in *. apply andb_true_iff in Hw as [-> Hw].
  by apply star_greedy.
Qed.

Lemma take_captured (s w rest : str) :
  s = w ++ rest -> take (length s - length rest) s = w.
Proof.
  intros ->. rewrite length_app.
  replace (length w + length rest - length rest)%nat with (length w) by lia.
  by rewrite take_app_length.
Qed.

Lemma run_Seq r1 r2 s g k :
  run (Seq r1 r2) s g k = run r1 s g (fun s' g' => run r2 s' g' k).
Proof. reflexivity. Qed.

Lemma run_Group n r1 s g k :
  run (Group n r1) s g k =
  run r1 s g (fun s' g' => k s' (<[n := take (length s - length s') s]> g')).
Proof. reflexivity. Qed.

Lemma run_Star p s g k r :
  run (Star p) s g k = Some r ->
  exists w rest, s = w ++ rest /\ forallb p w = true /\ k rest g = Some r.
Proof. simpl. apply star_inv. Qed.

Lemma run_Opt r1 s g k r :
  run (Opt r1) s g k = Some r -> run r1 s g k = Some r \/ k s g = Some r.
Proof. simpl. destruct (run r1 s g k); intros; simplify_eq; auto. Qed.

End ReFacts.

(** One step of running the pattern on a line of known shape. *)
Ltac open_re := repeat (rewrite run_Seq || rewrite run_Group).
Ltac eat_chr := open_re; rewrite run_Chr_eq; cbv beta.
Ltac eat_plus w Hw :=
  open_re; apply (run_Plus_complete _ w); [exact Hw|]; cbv beta.

Ltac take_plus w Hw :=
  open_re; apply (run_Plus_greedy _ w); [exact Hw|reflexivity|]; cbv beta.

(** One step of reading a successful match backwards. *)
Ltac step_chr H t :=
  let H' := fresh in
  rewrite ?run_Seq in H;
  destruct (run_Chr _ _ _ _ _ H) as (t & -> & H'); clear H; rename H' into H;
  cbv beta in H.

Ltac step_plus H w t :=
  let H' := fresh in
  let Hw := fresh "H" w in
  rewrite ?run_Seq in H;
  destruct (run_Plus _ _ _ _ _ H) as (w & t & -> & Hw & H'); clear H; rename H' into H;
  cbv beta in H.

(** * The grammar of structured lines *)

Section Grammar.
Import Re LogAnalyzer PyStr.

(** What a successful match has read and captured. *)
Lemma match_inv line m :
  match_ LOG_PATTERN line = Some m ->
  exists i f sp1 lvl sp2 cat sp3 g4 rest,
    line = header i f sp1 lvl sp2 cat ++ sp3 ++ g4 ++ rest /\
    header_ok i f sp1 lvl sp2 cat /\ run_of isspace sp3 /\
    run_of (none_of "|") g4 /\
    m !! 1%nat = Some (i ++ $"." ++ f) /\ m !! 2%nat = Some lvl /\
    m !! 3%nat = Some cat /\ m !! 4%nat = Some g4.
Proof.
  unfold match_, LOG_PATTERN. intros H.
  step_chr H s1.
  rewrite run_Seq, run_Group, !run_Seq in H.
  step_plus H i s2. step_chr H s3. step_plus H f s4.
  step_chr H s5. step_plus H sp1 s6. step_chr H s7.
  rewrite run_Seq, run_Group in H.
  step_plus H lvl s8. step_chr H s9. step_plus H sp2 s10. step_chr H s11.
  rewrite run_Seq, run_Group in H.
  step_plus H cat s12. step_chr H s13. step_plus H sp3 s14.
  rewrite run_Seq, run_Group in H.
  step_plus H g4 rest.
  rewrite (take_captured _ g4 _ eq_refl), (take_captured _ cat _ eq_refl),
    (take_captured _ lvl _ eq_refl),
    (take_captured _ (i ++ $"." ++ f) _) in H
    by (rewrite <- !app_assoc; reflexivity).
  exists i, f, sp1, lvl, sp2, cat, sp3, g4, rest.
  split; [unfold header; by rewrite <- !app_assoc|].
  split; [exact (conj Hi (conj Hf (conj Hsp1 (conj Hlvl (conj Hsp2 Hcat)))))|].
  split; [exact Hsp3|]. split; [exact Hg4|].
  apply run_Opt in H as [H|H].
  - rewrite !run_Seq in H.
    destruct (run_Star _ _ _ _ _ H) as (w1 & r1 & E1 & _ & H1). cbv beta in H1.
    step_chr H1 r2.
    destruct (run_Star _ _ _ _ _ H1) as (w2 & r3 & -> & _ & H2). cbv beta in H2.
    destruct r3 as [|c t]; [discriminate|]. destruct (dot c); [|discriminate].
    apply star_inv in H2 as (w3 & r4 & _ & _ & H2).
    inversion H2. by simplify_map_eq.
  - inversion H. by simplify_map_eq.
Qed.

(** Every line of the documented shape is matched. *)
Lemma structured_match line :
  structured line -> is_Some (match_ LOG_PATTERN line).
Proof.
  intros (i & f & sp1 & lvl & sp2 & cat & sp3 & c & tail & -> & Hh & Hsp3 & Hc).
  destruct Hh as (Hi & Hf & Hsp1 & Hlvl & Hsp2 & Hcat).
  unfold match_, LOG_PATTERN, header.
  rewrite <- !app_assoc. simpl app.
  eat_chr. eat_plus i Hi. eat_chr. eat_plus f Hf.
  eat_chr. eat_plus sp1 Hsp1.
  eat_chr. eat_plus lvl Hlvl.
  eat_chr. eat_plus sp2 Hsp2.
  eat_chr. eat_plus cat Hcat.
  eat_chr. eat_plus sp3 Hsp3.
  open_re.
  change (c :: tail) with ([c] ++ tail).
  apply (run_Plus_complete (none_of "|") [c]).
  - split; [done|]. simpl. unfold none_of.
    destruct (Ascii.eqb_spec c "|"); [contradiction|reflexivity].
  - apply run_Opt_final.
Qed.

(** The line is structured exactly when the pattern matches it. *)
Lemma match_structured line :
  is_Some (match_ LOG_PATTERN line) <-> structured line.
Proof.
  split; [|apply structured_match].
  intros [m Hm]. apply match_inv in Hm
    as (i & f & sp1 & lvl & sp2 & cat & sp3 & g4 & rest & -> & Hh & Hsp3 & Hg4 & _).
  destruct Hg4 as [Hne Hg4]. destruct g4 as [|c g4]; [done|].
  exists i, f, sp1, lvl, sp2, cat, sp3, c, (g4 ++ rest).
  repeat split; try apply Hh; try apply Hsp3.
  simpl in Hg4. apply andb_true_iff in Hg4 as [Hc _].
  intros ->. discriminate.
Qed.

Lemma stops_pipe_suffix (o : option (str * str)) :
  stops (none_of "|")
    match o with None => [] | Some (sp, meta) => $"|" ++ sp ++ meta end.
Proof. by destruct o as [[??]|]. Qed.

Lemma opt_meta sp meta (g : groups) :
  forallb isspace sp = true -> run_of dot meta -> stops isspace meta ->
  run (Opt (Star space ⋅ Chr "|" ⋅ Star space ⋅ Group 5 (Plus dot))%re)
    ($"|" ++ sp ++ meta) g (fun _ g' => Some g') = Some (<[5%nat := meta]> g).
Proof.
  intros Hsp [Hne Hd] Hm0. destruct meta as [|c meta]; [done|].
  simpl in Hd, Hm0. apply andb_true_iff in Hd as [Hc Hd].
  simpl.
  rewrite (star_greedy space sp (c :: meta) _ (<[5%nat := c :: meta]> g)); auto.
  rewrite Hc.
  pose proof (star_greedy dot meta [] (fun s' => Some
    (<[5%nat := take (length (c :: meta) - length s') (c :: meta)]> g))
    (<[5%nat := c :: meta]> g) Hd I) as Hall.
  rewrite (right_id_L [] (++)) in Hall. apply Hall.
  simpl. by rewrite (firstn_all meta).
Qed.

Lemma well_formed_match x :
  well_formed x -> match_ LOG_PATTERN (render x) = Some (groups_of x).
Proof.
  destruct x as [i f sp1 lvl sp2 cat sp3 msg meta].
  intros ((Hi & Hf & Hsp1 & Hlvl & Hsp2 & Hcat) & Hsp3 & Hmsg & Hm0 & Hmeta).
  simpl in *. unfold match_, LOG_PATTERN, render, header, groups_of. simpl f_meta.
  cbn [f_int f_frac f_sp1 f_level f_sp2 f_category f_sp3 f_message].
  rewrite <- !app_assoc. simpl app.
  eat_chr. take_plus i Hi. eat_chr. take_plus f Hf.
  eat_chr. take_plus sp1 Hsp1.
  eat_chr. take_plus lvl Hlvl.
  eat_chr. take_plus sp2 Hsp2.
  eat_chr. take_plus cat Hcat.
  eat_chr. open_re. apply (run_Plus_greedy _ sp3); [exact Hsp3| |cbv beta].
  { destruct Hmsg as [Hne _]. destruct msg; [done|exact Hm0]. }
  open_re. apply (run_Plus_greedy _ msg); [exact Hmsg|apply stops_pipe_suffix|cbv beta].
  rewrite (take_captured _ msg _ eq_refl), (take_captured _ cat _ eq_refl),
    (take_captured _ lvl _ eq_refl), (take_captured _ (i ++ $"." ++ f) _)
    by (rewrite <- !app_assoc; reflexivity).
  destruct meta as [[sp meta]|].
  - destruct Hmeta as (Hsp & Hmeta & Hmeta0).
    by apply opt_meta.
  - reflexivity.
Qed.

End Grammar.

(** * The line parser *)

Section ParseLine.
Import Re LogAnalyzer PyStr.

Lemma split_first_app c k v :
  forallb (fun a => negb (Ascii.eqb a c)) k = true ->
  split_first c (k ++ c :: v) = Some (k, v).
Proof.
  induction k as [|a k IH]; simpl; intros Hk.
  - by rewrite Ascii.eqb_refl.
  - apply andb_true_iff in Hk as [Ha Hk].
    destruct (Ascii.eqb a c); [discriminate|]. by rewrite (IH Hk).
Qed.

Lemma digit_not_point k :
  forallb isdigit k = true ->
  forallb (fun a => negb (Ascii.eqb a ".")) k = true.
Proof.
  induction k as [|a k IH]; simpl; [done|]. intros H.
  apply andb_true_iff in H as [Ha Hk]. rewrite (IH Hk), andb_true_r.
  destruct (Ascii.eqb_spec a "."); [subst; discriminate|reflexivity].
Qed.

(** [float] does not raise on a captured time stamp. *)
Lemma of_str_decimal i f :
  run_of isdigit i -> run_of isdigit f ->
  PyFloat.of_str (i ++ "."%char :: f) = Ok (PyFloat.of_decimal i f).
Proof.
  intros [Hni Hi] [Hnf Hf]. unfold PyFloat.of_str.
  rewrite (split_first_app _ _ _ (digit_not_point _ Hi)).
  destruct i as [|a i]; [done|]. destruct f as [|b f]; [done|].
  by rewrite Hi, Hf.
Qed.

(** A matched line always yields an entry: the parser never raises. *)
Lemma parse_line_match line m :
  match_ LOG_PATTERN line = Some m ->
  exists e, _parse_line line = Ok (Some e).
Proof.
  intros Hm. unfold _parse_line. rewrite Hm.
  apply match_inv in Hm
    as (i & f & sp1 & lvl & sp2 & cat & sp3 & g4 & rest & _ & Hh & _ & _ & H1 & _).
  unfold group. rewrite H1. simpl default.
  rewrite of_str_decimal by apply Hh. simpl. eauto.
Qed.

Lemma parse_line_total line : exists o, _parse_line line = Ok o.
Proof.
  destruct (match_ LOG_PATTERN line) as [m|] eqn:Hm.
  - destruct (parse_line_match _ _ Hm) as [e He]. eauto.
  - unfold _parse_line. rewrite Hm. eauto.
Qed.

Lemma parse_line_None line :
  _parse_line line = Ok None <-> ~ structured line.
Proof.
  rewrite <- match_structured. split.
  - intros H [m Hm]. destruct (parse_line_match _ _ Hm) as [e He]. congruence.
  - intros H. unfold _parse_line.
    destruct (match_ LOG_PATTERN line); [destruct H; eauto|reflexivity].
Qed.

Lemma fold_add_pair_lookup (toks : list str) (md : gmap str str) (key : str) :
  fold_left add_pair toks md !! key =
  match last_value key toks with
  | Some v => Some v
  | None => md !! key
  end.
Proof.
  unfold last_value. revert md. induction toks as [|tok toks IH]; intros md; [done|].
  simpl fold_left. rewrite IH. simpl omap.
  unfold add_pair, value_for at 2.
  destruct (split_first "=" tok) as [[k v]|]; [|done].
  destruct (decide (k = key)) as [->|Hne].
  - rewrite last_cons. destruct (last _); [done|]. by rewrite lookup_insert_eq.
  - destruct (last _); [done|]. by rewrite lookup_insert_ne.
Qed.

(** The entry of a well-formed line. *)
Lemma parse_line_well_formed x :
  well_formed x ->
  exists e,
    _parse_line (render x) = Ok (Some e) /\
    timestamp e = PyFloat.of_decimal (f_int x) (f_frac x) /\
    level e = f_level x /\
    category e = f_category x /\
    message e = strip (f_message x) /\
    (forall key,
       metadata e !! key =
       match f_meta x with
       | None => None
       | Some (_, meta) => last_value key (split_ws meta)
       end) /\
    raw_line e = render x.
Proof.
  intros Hx. pose proof (well_formed_match x Hx) as Hm.
  destruct Hx as ((Hi & Hf & _) & _ & _ & _ & Hmeta).
  unfold _parse_line. rewrite Hm.
  assert (G1 : group (groups_of x) 1 = f_int x ++ $"." ++ f_frac x).
  { unfold group, groups_of. destruct (f_meta x) as [[??]|]; by simplify_map_eq. }
  assert (G2 : group (groups_of x) 2 = f_level x).
  { unfold group, groups_of. destruct (f_meta x) as [[??]|]; by simplify_map_eq. }
  assert (G3 : group (groups_of x) 3 = f_category x).
  { unfold group, groups_of. destruct (f_meta x) as [[??]|]; by simplify_map_eq. }
  assert (G4 : group (groups_of x) 4 = f_message x).
  { unfold group, groups_of. destruct (f_meta x) as [[??]|]; by simplify_map_eq. }
  rewrite G1, G2, G3, G4. simpl app. rewrite (of_str_decimal _ _ Hi Hf). simpl.
  eexists. split; [reflexivity|]. simpl. repeat split.
  intros key. unfold groups_of. destruct (f_meta x) as [[sp meta]|].
  - rewrite lookup_insert_eq. destruct Hmeta as (_ & [Hne _] & _).
    destruct meta as [|c meta]; [done|]. unfold parse_metadata.
    rewrite fold_add_pair_lookup. destruct (last_value _ _); [done|].
    apply lookup_empty.
  - by simplify_map_eq.
Qed.

End ParseLine.

(** * The accumulator *)

Section Accumulator.
Import LogAnalyzer.

Lemma when_proj {A B} (f : A -> B) c g r :
  (forall x, f (g x) = f x) -> f (when c g r) = f r.
Proof. intros H. unfold when. destruct c; auto. Qed.

Lemma when_bump (f : AnalysisResult -> Z) c g r :
  (forall x, f (g x) = f x + 1) -> f (when c g r) = f r + b2z c.
Proof. intros H. unfold when, b2z. destruct c; [apply H|lia]. Qed.

Ltac through f := rewrite ?(when_proj f) by reflexivity.

Ltac by_level :=
  repeat match goal with
         | |- context [decide ?P] => destruct (decide P)
         end; simpl; try reflexivity; try lia.

Lemma update_entries e r : entries (_update_metrics e r) = entries r.
Proof. unfold _update_metrics. cbv zeta. through entries. by_level. Qed.

Lemma update_total_lines e r : total_lines (_update_metrics e r) = total_lines r.
Proof. unfold _update_metrics. cbv zeta. through total_lines. by_level. Qed.

Lemma update_level_sum e r :
  level_sum r <= level_sum (_update_metrics e r) <= level_sum r + 1.
Proof.
  unfold _update_metrics. cbv zeta. through level_sum.
  unfold level_sum. by_level.
Qed.

Lemma update_level_counters e r :
  let r' := _update_metrics e r in
  errors r <= errors r' /\ warnings r <= warnings r' /\
  info r <= info r' /\ debug r <= debug r'.
Proof.
  unfold _update_metrics. cbv zeta.
  through errors. through warnings. through info. through debug.
  by_level.
Qed.

Lemma update_interpolation_warnings e r :
  interpolation_warnings (_update_metrics e r) =
  interpolation_warnings r + b2z (is_interpolation_warn e).
Proof.
  unfold _update_metrics. cbv zeta. through interpolation_warnings.
  rewrite (when_bump interpolation_warnings) by reflexivity.
  through interpolation_warnings. unfold is_interpolation_warn. f_equal. by_level.
Qed.

(** The loop body, with the parser's three outcomes reduced to two. *)
Lemma parse_step_cases r line :
  (~ structured (PyStr.strip line) /\
   parse_step r line = Ok (set_total_lines (total_lines r + 1) r)) \/
  (exists e, _parse_line (PyStr.strip line) = Ok (Some e) /\
     parse_step r line =
     Ok (_update_metrics e
           (set_entries (entries r ++ [e]) (set_total_lines (total_lines r + 1) r)))).
Proof.
  unfold parse_step.
  destruct (parse_line_total (PyStr.strip line)) as [[e|] He]; rewrite He; simpl.
  - right. eauto.
  - left. split; [by apply parse_line_None|reflexivity].
Qed.

Lemma parse_step_total r line : exists r', parse_step r line = Ok r'.
Proof. destruct (parse_step_cases r line) as [[_ ->]|(e & _ & ->)]; eauto. Qed.

Lemma parse_loop_total lines r : exists r', parse_loop r lines = Ok r'.
Proof.
  revert r. induction lines as [|l lines IH]; intros r; simpl; [eauto|].
  destruct (parse_step_total r l) as [r' ->]. simpl. apply IH.
Qed.

(** A property kept by the loop body holds after the loop. *)
Lemma parse_loop_keeps (P : AnalysisResult -> Prop) :
  (forall r line r', P r -> parse_step r line = Ok r' -> P r') ->
  forall lines r r', P r -> parse_loop r lines = Ok r' -> P r'.
Proof.
  intros Hstep. induction lines as [|l lines IH]; intros r r' HP H; simpl in H.
  - by inversion H; subst.
  - destruct (parse_step r l) as [r1|] eqn:E; [|discriminate]. simpl in H.
    eapply IH; [|exact H]. eauto.
Qed.

Lemma parse_step_invariant r line r' :
  pass_invariant r -> parse_step r line = Ok r' -> pass_invariant r'.
Proof.
  unfold pass_invariant. intros Hr H.
  destruct (parse_step_cases r line) as [[_ E]|(e & _ & E)];
    rewrite E in H; inversion H; subst r'; clear H E.
  - unfold level_sum in *. simpl. lia.
  - rewrite update_entries, update_total_lines. simpl.
    pose proof (update_level_sum e
      (set_entries (entries r ++ [e]) (set_total_lines (total_lines r + 1) r))) as Hs.
    rewrite length_app. simpl length.
    unfold level_sum in *. simpl in *. lia.
Qed.

Lemma parse_step_interpolation r line r' :
  interpolation_warnings r = count_entries is_interpolation_warn (entries r) ->
  parse_step r line = Ok r' ->
  interpolation_warnings r' = count_entries is_interpolation_warn (entries r').
Proof.
  intros Hr H.
  destruct (parse_step_cases r line) as [[_ E]|(e & _ & E)];
    rewrite E in H; inversion H; subst r'; clear H E.
  - exact Hr.
  - rewrite update_interpolation_warnings, update_entries. simpl.
    unfold count_entries in *. rewrite filter_app, length_app, Hr.
    rewrite filter_cons, filter_nil. case_decide as Hd.
    + rewrite Hd. simpl. lia.
    + destruct (is_interpolation_warn e); [done|]. simpl. lia.
Qed.

End Accumulator.

(** * The issue detector *)

Section Detector.
Import LogAnalyzer.

Lemma true_divide_Ok a b x :
  PyFloat.true_divide a b = Ok x -> b <> 0 /\ x = PyFloat.round_div a b.
Proof.
  unfold PyFloat.true_divide. destruct (Z.eqb_spec b 0); [discriminate|].
  destruct (PyFloat.round_div a b); intros H; inversion H; auto.
Qed.

(** The detector never divides by zero. *)
Lemma detect_issues_no_zero_division log_path r :
  _detect_issues log_path r <> Raise ZeroDivisionError.
Proof.
  unfold _detect_issues. cbv zeta.
  set (r2 := when (10 <? _) _ _).
  destruct (0 <? snapshots_received r2) eqn:Hpos; [|discriminate].
  unfold PyFloat.true_divide.
  destruct (Z.eqb_spec (snapshots_received r2) 0) as [E|_]; [rewrite E in Hpos; discriminate|].
  destruct (PyFloat.round_div _ _); discriminate.
Qed.

Ltac red_r :=
  cbn [when set_critical_issues set_warnings_list interpolation_warnings
       snapshots_received baseline_mismatches snapshots_sent critical_issues
       warnings_list player_disappearances mbind result_bind andb].

(** The detector in closed form. *)
Lemma detect_issues_closed log_path r0 r :
  _detect_issues log_path r0 = Ok r ->
  r = set_warnings_list (warnings_list r0 ++ warnings_of r0)
        (set_critical_issues (critical_issues r0 ++ critical_of log_path r0) r0).
Proof.
  unfold _detect_issues, warnings_of, critical_of, mismatch_rate_of. cbv zeta.
  destruct r0 as [fn tl es er wa inf de ss sr pl bm pd iw cc ci wl st en]. red_r.
  destruct (0 <? pd); red_r;
  destruct (10 <? iw); red_r;
  (destruct (0 <? sr); red_r;
   [destruct (PyFloat.true_divide _ _) as [x|] eqn:Hd; [|discriminate];
    apply true_divide_Ok in Hd as [_ ->]; red_r;
    destruct (PyFloat.gtb _ _); red_r|]);
  destruct (ss =? 0); destruct (PyStr.contains ($"server") _); red_r;
  destruct (sr =? 0); destruct (PyStr.contains ($"client") _);
  red_r; intros H; inversion H; unfold set_warnings_list, set_critical_issues; cbn;
  rewrite <- ?app_assoc, ?app_nil_r; reflexivity.
Qed.

End Detector.

Section Finalized.
Import LogAnalyzer.

Lemma update_critical_issues e r :
  critical_issues (_update_metrics e r) = critical_issues r.
Proof.
  unfold _update_metrics. cbv zeta.
  rewrite ?(when_proj critical_issues) by reflexivity.
  repeat match goal with
         | |- context [decide ?P] => destruct (decide P)
         end; reflexivity.
Qed.

Lemma update_warnings_list e r :
  warnings_list (_update_metrics e r) = warnings_list r.
Proof.
  unfold _update_metrics. cbv zeta.
  rewrite ?(when_proj warnings_list) by reflexivity.
  repeat match goal with
         | |- context [decide ?P] => destruct (decide P)
         end; reflexivity.
Qed.

Lemma update_filename e r : filename (_update_metrics e r) = filename r.
Proof.
  unfold _update_metrics. cbv zeta.
  rewrite ?(when_proj filename) by reflexivity.
  repeat match goal with
         | |- context [decide ?P] => destruct (decide P)
         end; reflexivity.
Qed.

Lemma parse_loop_invariant log_path lines r :
  parse_loop (new_result log_path) lines = Ok r -> loop_invariant log_path r.
Proof.
  apply (parse_loop_keeps (loop_invariant log_path)).
  - intros r0 line r' (Hc & Hw & Hf & Hp & Hi) H.
    split; [|split; [|split; [|split]]].
    + destruct (parse_step_cases r0 line) as [[_ E]|(e & _ & E)];
        rewrite E in H; inversion H; [exact Hc|].
      by rewrite update_critical_issues.
    + destruct (parse_step_cases r0 line) as [[_ E]|(e & _ & E)];
        rewrite E in H; inversion H; [exact Hw|].
      by rewrite update_warnings_list.
    + destruct (parse_step_cases r0 line) as [[_ E]|(e & _ & E)];
        rewrite E in H; inversion H; [exact Hf|].
      by rewrite update_filename.
    + eapply parse_step_invariant; eauto.
    + eapply parse_step_interpolation; eauto.
  - repeat split; simpl; unfold level_sum; simpl; lia.
Qed.

Lemma set_timing_fields r :
  let r' := set_timing r in
  critical_issues r' = critical_issues r /\ warnings_list r' = warnings_list r /\
  filename r' = filename r /\ entries r' = entries r /\
  total_lines r' = total_lines r /\ level_sum r' = level_sum r /\
  snapshots_sent r' = snapshots_sent r /\
  snapshots_received r' = snapshots_received r /\
  baseline_mismatches r' = baseline_mismatches r /\
  player_disappearances r' = player_disappearances r /\
  interpolation_warnings r' = interpolation_warnings r.
Proof. unfold set_timing. destruct (entries r) eqn:E; simpl; rewrite ?E; by repeat split. Qed.

(** The result of [parse]: the counters of the loop, and the issue
    lists that the detector derives from them. *)
Lemma parse_lines_finalized log_path lines r :
  parse_lines log_path lines = Ok r ->
  warnings_list r = warnings_of r /\
  critical_issues r = critical_of log_path r /\
  filename r = log_path /\
  pass_invariant r /\
  interpolation_warnings r = count_entries is_interpolation_warn (entries r).
Proof.
  unfold parse_lines. destruct (parse_loop _ lines) as [r0|] eqn:Hl; [|discriminate].
  simpl. intros Hd. apply detect_issues_closed in Hd.
  apply parse_loop_invariant in Hl as (Hc & Hw & Hf & Hp & Hi).
  destruct (set_timing_fields r0)
    as (Tc & Tw & Tf & Te & Tl & Ts & Tss & Tsr & Tbm & Tpd & Tiw).
  rewrite Tc, Tw, Hc, Hw in Hd. simpl in Hd.
  assert (Ew : warnings_of r = warnings_of (set_timing r0)) by (by subst r).
  assert (Ec : critical_of log_path r = critical_of log_path (set_timing r0))
    by (by subst r).
  rewrite Ew, Ec. unfold pass_invariant, level_sum in *.
  subst r; simpl. rewrite Tf, Te, Tl, Tiw. unfold level_sum in Ts. simpl in Ts.
  repeat split; auto; lia.
Qed.

End Finalized.

(** * Rounding to binary64 *)

Section Rounding.
Import PyFloat.

Lemma digits2_bounds p :
  2 ^ (Z.pos (digits2_pos p) - 1) <= Z.pos p < 2 ^ Z.pos (digits2_pos p).
Proof.
  induction p as [p IH|p IH|]; cbn [digits2_pos].
  - rewrite Pos2Z.inj_succ.
    replace (Z.succ (Z.pos (digits2_pos p)) - 1) with (Z.succ (Z.pos (digits2_pos p) - 1)) by lia.
    rewrite !Z.pow_succ_r by lia. lia.
  - rewrite Pos2Z.inj_succ.
    replace (Z.succ (Z.pos (digits2_pos p)) - 1) with (Z.succ (Z.pos (digits2_pos p) - 1)) by lia.
    rewrite !Z.pow_succ_r by lia. lia.
  - change (2 ^ (1 - 1)) with 1. change (2 ^ 1) with 2. lia.
Qed.

(** The number of binary digits of a positive integer is fixed by the
    two powers of two around it. *)
Lemma Zdigits2_unique q d :
  0 < d -> 2 ^ (d - 1) <= q < 2 ^ d -> Zdigits2 q = d.
Proof.
  intros Hd [Hlo Hhi].
  assert (0 < 2 ^ (d - 1)) by (apply Z.pow_pos_nonneg; lia).
  destruct q as [|p|p]; try lia. cbn [Zdigits2].
  pose proof (digits2_bounds p) as [Plo Phi].
  set (d' := Z.pos (digits2_pos p)) in *.
  destruct (Z.lt_trichotomy d' d) as [Hlt|[->|Hgt]]; [|reflexivity|].
  - assert (2 ^ d' <= 2 ^ (d - 1)) by (apply Z.pow_le_mono_r; lia). lia.
  - assert (2 ^ d <= 2 ^ (d' - 1)) by (apply Z.pow_le_mono_r; lia). lia.
Qed.

Lemma Zdigits2_53 q :
  4503599627370496 <= q < 9007199254740992 -> Zdigits2 q = 53.
Proof.
  intros H. apply Zdigits2_unique; [lia|].
  change (2 ^ (53 - 1)) with 4503599627370496.
  change (2 ^ 53) with 9007199254740992. exact H.
Qed.

Lemma Zdigits2_54 q :
  9007199254740992 <= q < 18014398509481984 -> Zdigits2 q = 54.
Proof.
  intros H. apply Zdigits2_unique; [lia|].
  change (2 ^ (54 - 1)) with 9007199254740992.
  change (2 ^ 54) with 18014398509481984. exact H.
Qed.

Lemma round_nearest_even_bounds q l :
  q <= round_nearest_even q l <= q + 1.
Proof.
  unfold round_nearest_even. destruct l as [|[| |]]; try lia.
  destruct (Z.even q); lia.
Qed.

(** A mantissa of 53 bits stays as it is. *)
Lemma shr_fexp_53 q e l :
  4503599627370496 <= q < 9007199254740992 -> -1074 <= e ->
  shr_fexp prec emax q e l = (shr_record_of_loc q l, e).
Proof.
  intros Hq He. unfold shr_fexp. rewrite (Zdigits2_53 q Hq).
  unfold fexp, emin, prec, emax.
  replace (Z.max (53 + e - 53) (3 - 1024 - 53) - e) with 0 by lia.
  reflexivity.
Qed.

Lemma shr_1_m mrs : shr_m (shr_1 mrs) = shr_m mrs / 2 \/ shr_m mrs < 0.
Proof.
  destruct mrs as [m r s]. destruct m as [|p|p]; [left; reflexivity| |right; reflexivity].
  left. destruct p; cbn [shr_1 shr_m].
  - rewrite Pos2Z.inj_xI. apply Z.div_unique with (r := 1); lia.
  - rewrite Pos2Z.inj_xO. apply Z.div_unique with (r := 0); lia.
  - reflexivity.
Qed.

(** A mantissa of 54 bits loses its last bit. *)
Lemma shr_fexp_54 q e l :
  9007199254740992 <= q < 18014398509481984 -> -1074 <= e ->
  exists mrs, shr_fexp prec emax q e l = (mrs, e + 1) /\ shr_m mrs = q / 2.
Proof.
  intros Hq He. unfold shr_fexp. rewrite (Zdigits2_54 q Hq).
  unfold fexp, emin, prec, emax.
  replace (Z.max (54 + e - 53) (3 - 1024 - 53) - e) with 1 by lia.
  cbn [shr]. eexists. split; [reflexivity|].
  change (SpecFloat.iter_pos shr_1 1 (shr_record_of_loc q l))
    with (shr_1 (shr_record_of_loc q l)).
  destruct (shr_1_m (shr_record_of_loc q l)) as [E|E].
  - rewrite E. by destruct l as [|[| |]].
  - exfalso. destruct l as [|[| |]]; cbn in E; lia.
Qed.

Lemma loc_of_shr_record_of_loc q l :
  loc_of_shr_record (shr_record_of_loc q l) = l.
Proof. by destruct l as [|[| |]]. Qed.

Lemma shr_m_of_loc q l : shr_m (shr_record_of_loc q l) = q.
Proof. by destruct l as [|[| |]]. Qed.

(** The second normalisation of [binary_round_aux], after rounding:
    the mantissa has 53 bits, or it is [2^53] and is halved. *)
Lemma renormalise q e :
  4503599627370496 <= q <= 9007199254740992 -> -1074 <= e ->
  exists mrs e', shr_fexp prec emax q e loc_Exact = (mrs, e') /\
    ((q < 9007199254740992 /\ shr_m mrs = q /\ e' = e) \/
     (q = 9007199254740992 /\ shr_m mrs = 4503599627370496 /\ e' = e + 1)).
Proof.
  intros Hq He. destruct (Z.eq_dec q 9007199254740992) as [->|Hne].
  - eexists _, _. split; [|right; split; [reflexivity|]].
    + unfold shr_fexp. rewrite (Zdigits2_54 9007199254740992) by lia.
      unfold fexp, emin, prec, emax.
      replace (Z.max (54 + e - 53) (3 - 1024 - 53) - e) with 1 by lia.
      cbn [shr]. reflexivity.
    + split; reflexivity.
  - eexists _, _. split; [apply shr_fexp_53; lia|]. left. cbn. lia.
Qed.

(** The shape of a rounded quotient whose integer part has 53 or 54
    bits: the mantissa is the integer part or its successor, brought
    back to 53 bits. *)
Lemma binary_round_aux_shape q e l :
  4503599627370496 <= q < 18014398509481984 -> -1074 <= e <= 900 ->
  exists mF eF,
    binary_round_aux prec emax false q e l = S754_finite false mF eF /\
    ((q < 9007199254740992 /\ eF = e /\ q <= Z.pos mF <= q + 1 /\
      Z.pos mF < 9007199254740992) \/
     (9007199254740991 <= q /\ eF = e + 1 /\ q / 2 <= Z.pos mF <= q / 2 + 1 /\
      Z.pos mF < 9007199254740992) \/
     (18014398509481982 <= q /\ eF = e + 2 /\ Z.pos mF = 4503599627370496)).
Proof.
  intros Hq He. unfold binary_round_aux.
  destruct (Z_lt_le_dec q 9007199254740992) as [Hlt|Hge].
  - rewrite shr_fexp_53 by lia.
    rewrite loc_of_shr_record_of_loc, shr_m_of_loc.
    pose proof (round_nearest_even_bounds q l) as Hr.
    set (q' := round_nearest_even q l) in *.
    destruct (renormalise q' e) as (mrs & e' & -> & [(H1 & H2 & ->)|(H1 & H2 & ->)]);
      try lia; rewrite H2.
    + destruct q' as [|p|p]; try lia.
      replace (e <=? emax - prec) with true by (unfold emax, prec; lia).
      exists p, e. split; [reflexivity|]. left. lia.
    + replace (e + 1 <=? emax - prec) with true by (unfold emax, prec; lia).
      eexists _, _. split; [reflexivity|]. right. left.
      assert (q = 9007199254740991) as -> by lia.
      change (9007199254740991 / 2) with 4503599627370495. lia.
  - destruct (shr_fexp_54 q e l) as (mrs & -> & Hm); try lia.
    pose proof (round_nearest_even_bounds (shr_m mrs) (loc_of_shr_record mrs)) as Hr.
    set (q' := round_nearest_even (shr_m mrs) (loc_of_shr_record mrs)) in *.
    rewrite Hm in Hr.
    assert (9007199254740992 <= 2 * (q / 2) + 1 /\ 2 * (q / 2) <= q <= 2 * (q / 2) + 1)
      by (pose proof (Z.div_mod q 2); pose proof (Z.mod_pos_bound q 2); lia).
    destruct (renormalise q' (e + 1)) as (mrs' & e' & -> & [(H1 & H2 & ->)|(H1 & H2 & ->)]);
      try lia; rewrite H2.
    + destruct q' as [|p|p]; try lia.
      replace (e + 1 <=? emax - prec) with true by (unfold emax, prec; lia).
      exists p, (e + 1). split; [reflexivity|]. right. left. lia.
    + replace (e + 1 + 1 <=? emax - prec) with true by (unfold emax, prec; lia).
      eexists _, _. split; [reflexivity|]. right. right.
      split; [lia|]. split; [lia|reflexivity].
Qed.

(** Comparison of a positive finite double with the literal [0.1]. *)
Lemma gtb_lit_0_1 mF eF :
  gtb (S754_finite false mF eF) lit_0_1 = true <->
  -56 < eF \/ (eF = -56 /\ 7205759403792794 < Z.pos mF).
Proof.
  unfold gtb, SFltb, lit_0_1, SFcompare.
  destruct (Z.compare_spec (-56) eF) as [E|E|E].
  - change (Pos.compare_cont Eq 7205759403792794 mF)
      with (Z.pos 7205759403792794 ?= Z.pos mF).
    destruct (Z.compare_spec 7205759403792794 (Z.pos mF));
      split; intros; try discriminate; try reflexivity; lia.
  - split; [lia|reflexivity].
  - split; [discriminate|lia].
Qed.

(** The integer quotient that is rounded: for operands below [2^53],
    [m * 2^s = n * q + r] with [q] of 53 or 54 bits. *)
Lemma div_core m n :
  0 < m < 9007199254740992 -> 0 < n < 9007199254740992 ->
  exists q r s,
    SFdiv_core_binary prec emax m 0 n 0 = (q, - s, new_location n r) /\
    s = 53 - (Zdigits2 m - Zdigits2 n) /\ 1 <= s <= 105 /\
    m * 2 ^ s = n * q + r /\ 0 <= r < n /\
    4503599627370496 <= q < 18014398509481984.
Proof.
  intros Hm Hn.
  assert (exists pm, m = Z.pos pm) as [pm ->]
    by (destruct m as [|p|p]; [exfalso; lia|eauto|exfalso; lia]).
  assert (exists pn, n = Z.pos pn) as [pn ->]
    by (destruct n as [|p|p]; [exfalso; lia|eauto|exfalso; lia]).
  pose proof (digits2_bounds pm) as Dm. pose proof (digits2_bounds pn) as Dn.
  unfold SFdiv_core_binary. cbn [Zdigits2].
  set (d1 := Z.pos (digits2_pos pm)) in *. set (d2 := Z.pos (digits2_pos pn)) in *.
  assert (Hd1 : 1 <= d1 <= 53).
  { split; [unfold d1; lia|]. destruct (Z_le_gt_dec d1 53); [done|].
    assert (2 ^ 53 <= 2 ^ (d1 - 1)) by (apply Z.pow_le_mono_r; lia).
    change (2 ^ 53) with 9007199254740992 in *. lia. }
  assert (Hd2 : 1 <= d2 <= 53).
  { split; [unfold d2; lia|]. destruct (Z_le_gt_dec d2 53); [done|].
    assert (2 ^ 53 <= 2 ^ (d2 - 1)) by (apply Z.pow_le_mono_r; lia).
    change (2 ^ 53) with 9007199254740992 in *. lia. }
  unfold fexp, emin, prec, emax.
  replace (Z.min (Z.max (d1 + 0 - (d2 + 0) - 53) (3 - 1024 - 53)) (0 - 0))
    with (- (53 - (d1 - d2))) by lia.
  replace (0 - 0 - - (53 - (d1 - d2))) with (53 - (d1 - d2)) by lia.
  remember (53 - (d1 - d2)) as s eqn:Hs0.
  assert (Hs : 1 <= s <= 105) by lia.
  assert (Hsh : match s with
                | 0 => Z.pos pm
                | Z.pos _ => Z.shiftl (Z.pos pm) s
                | Z.neg _ => 0
                end = Z.pos pm * 2 ^ s).
  { destruct s; try lia. apply Z.shiftl_mul_pow2. lia. }
  rewrite Hsh.
  pose proof (Z_div_mod (Z.pos pm * 2 ^ s) (Z.pos pn) ltac:(lia)) as Hdiv.
  destruct (Z.div_eucl (Z.pos pm * 2 ^ s) (Z.pos pn)) as [q r].
  destruct Hdiv as [Heq Hr].
  assert (Hpow : 2 ^ (d1 - 1) * 2 ^ s = 9007199254740992 * 2 ^ (d2 - 1)).
  { rewrite <- Z.pow_add_r by lia. replace (d1 - 1 + s) with (53 + (d2 - 1)) by lia.
    rewrite Z.pow_add_r by lia. change (2 ^ 53) with 9007199254740992. reflexivity. }
  assert (HP : 0 < 2 ^ s) by (apply Z.pow_pos_nonneg; lia).
  assert (Hd2' : 2 ^ d2 = 2 * 2 ^ (d2 - 1)).
  { replace d2 with (Z.succ (d2 - 1)) at 1 by lia. apply Z.pow_succ_r. lia. }
  assert (Hd1' : 2 ^ d1 = 2 * 2 ^ (d1 - 1)).
  { replace d1 with (Z.succ (d1 - 1)) at 1 by lia. apply Z.pow_succ_r. lia. }
  exists q, r, s. repeat split; try lia.
  - (* 2^52 <= q *)
    destruct (Z_lt_le_dec q 4503599627370496) as [Hlt|]; [exfalso|lia].
    assert (Z.pos pn * (q + 1) <= Z.pos pn * 4503599627370496)
      by (apply Z.mul_le_mono_nonneg_l; lia).
    assert (2 ^ (d1 - 1) * 2 ^ s <= Z.pos pm * 2 ^ s)
      by (apply Z.mul_le_mono_nonneg_r; lia).
    lia.
  - (* q < 2^54 *)
    destruct (Z_lt_le_dec q 18014398509481984) as [|Hge]; [lia|exfalso].
    assert (Z.pos pn * 18014398509481984 <= Z.pos pn * q)
      by (apply Z.mul_le_mono_nonneg_l; lia).
    assert (Z.pos pm * 2 ^ s < 2 ^ d1 * 2 ^ s)
      by (apply Z.mul_lt_mono_pos_r; lia).
    rewrite Hd1' in *. lia.
Qed.

Lemma round_div_pos m n :
  0 < m < 9007199254740992 -> 0 < n < 9007199254740992 ->
  exists q r s mF eF,
    round_div m n = S754_finite false mF eF /\
    1 <= s <= 105 /\ m * 2 ^ s = n * q + r /\ 0 <= r < n /\
    4503599627370496 <= q < 18014398509481984 /\
    ((q < 9007199254740992 /\ eF = - s /\ q <= Z.pos mF <= q + 1 /\
      Z.pos mF < 9007199254740992) \/
     (9007199254740991 <= q /\ eF = - s + 1 /\ q / 2 <= Z.pos mF <= q / 2 + 1 /\
      Z.pos mF < 9007199254740992) \/
     (18014398509481982 <= q /\ eF = - s + 2 /\ Z.pos mF = 4503599627370496)).
Proof.
  intros Hm Hn.
  destruct (div_core m n Hm Hn) as (q & r & s & Hcore & _ & Hs & Heq & Hr & Hq).
  destruct (binary_round_aux_shape q (- s) (new_location n r) Hq ltac:(lia))
    as (mF & eF & Hround & Hshape).
  exists q, r, s, mF, eF. repeat split; try lia; try exact Hshape.
  unfold round_div.
  assert (exists pm, m = Z.pos pm) as [pm ->]
    by (destruct m as [|p|p]; [exfalso; lia|eauto|exfalso; lia]).
  assert (exists pn, n = Z.pos pn) as [pn ->]
    by (destruct n as [|p|p]; [exfalso; lia|eauto|exfalso; lia]).
  cbv beta iota delta [Z.abs]. rewrite Hcore. exact Hround.
Qed.

(** On counters below [2^53] (and a divisor below [2^52]) the rounded
    quotient exceeds the double [0.1] exactly when the exact quotient
    exceeds one tenth. *)
Lemma round_div_gt_tenth m n :
  0 <= m < 9007199254740992 -> 0 < n < 4503599627370496 ->
  gtb (round_div m n) lit_0_1 = true <-> n < 10 * m.
Proof.
  intros Hm Hn. destruct (Z.eq_dec m 0) as [->|Hm0].
  { cbn. split; [discriminate|lia]. }
  destruct (round_div_pos m n ltac:(lia) ltac:(lia))
    as (q & r & s & mF & eF & -> & Hs & Heq & Hr & Hq & Hshape).
  rewrite gtb_lit_0_1.
  assert (Hnq : n * 4503599627370496 <= n * q) by (apply Z.mul_le_mono_nonneg_l; lia).
  assert (Hnq' : n * q <= n * 18014398509481983) by (apply Z.mul_le_mono_nonneg_l; lia).
  destruct (Z_le_gt_dec s 55) as [Hs55|Hs55].
  { (* the quotient is at least 1/8 *)
    assert (2 ^ s <= 2 ^ 55) by (apply Z.pow_le_mono_r; lia).
    change (2 ^ 55) with 36028797018963968 in *.
    assert (m * 2 ^ s <= m * 36028797018963968) by (apply Z.mul_le_mono_nonneg_l; lia).
    split; [lia|]. intros _. left. lia. }
  destruct (Z_le_gt_dec 58 s) as [Hs58|Hs58].
  { (* the quotient is below 1/16 *)
    assert (2 ^ 58 <= 2 ^ s) by (apply Z.pow_le_mono_r; lia).
    change (2 ^ 58) with 288230376151711744 in *.
    assert (m * 288230376151711744 <= m * 2 ^ s) by (apply Z.mul_le_mono_nonneg_l; lia).
    split; [|lia]. intros [H1|H1]; exfalso; lia. }
  destruct (Z.eq_dec s 56) as [->|Hs56].
  { change (2 ^ 56) with 72057594037927936 in *.
    destruct (Z_le_gt_dec 7205759403792794 q) as [Hq0|Hq0].
    - assert (n * 7205759403792794 <= n * q) by (apply Z.mul_le_mono_nonneg_l; lia).
      assert (n * 7205759403792795 <= n * q \/ q = 7205759403792794).
      { destruct (Z.eq_dec q 7205759403792794); [by right|left].
        apply Z.mul_le_mono_nonneg_l; lia. }
      assert (n < 10 * m) by lia.
      split; [done|]. intros _.
      assert (7205759403792795 <= q); [|lia].
      destruct (Z_le_gt_dec 7205759403792795 q); [done|exfalso].
      assert (q = 7205759403792794) as -> by lia. lia.
    - assert (n * q <= n * 7205759403792793) by (apply Z.mul_le_mono_nonneg_l; lia).
      split; [lia|]. intros Hlt. exfalso. lia. }
  assert (s = 57) as -> by lia.
  change (2 ^ 57) with 144115188075855872 in *.
  destruct (Z_le_gt_dec 14411518807585588 q) as [Hq0|Hq0].
  - assert (n * 14411518807585588 <= n * q) by (apply Z.mul_le_mono_nonneg_l; lia).
    assert (n < 10 * m) by lia.
    split; [done|]. intros _.
    assert (14411518807585590 <= q).
    { destruct (Z_le_gt_dec 14411518807585590 q); [done|exfalso].
      assert (n * q <= n * 14411518807585589) by (apply Z.mul_le_mono_nonneg_l; lia).
      lia. }
    assert (7205759403792795 <= q / 2) by (apply Z.div_le_lower_bound; lia).
    lia.
  - assert (n * q <= n * 14411518807585587) by (apply Z.mul_le_mono_nonneg_l; lia).
    pose proof (Z.div_mod q 2 ltac:(lia)). pose proof (Z.mod_pos_bound q 2 ltac:(lia)).
    split; [lia|]. intros Hlt. exfalso. lia.
Qed.

End Rounding.

Section Totality.
Import LogAnalyzer.

Lemma b2z_bounds b : 0 <= b2z b <= 1.
Proof. destruct b; simpl; lia. Qed.

Lemma update_baseline_mismatches e r :
  baseline_mismatches (_update_metrics e r) =
  baseline_mismatches r +
  b2z (bool_decide (category e = $"CLIENT_DELTA")
       && PyStr.contains ($"mismatch") (PyStr.lower (message e))).
Proof.
  unfold _update_metrics. cbv zeta.
  rewrite ?(when_proj baseline_mismatches) by reflexivity.
  rewrite (when_bump baseline_mismatches) by reflexivity.
  rewrite ?(when_proj baseline_mismatches) by reflexivity.
  f_equal.
  repeat match goal with
         | |- context [decide ?P] => destruct (decide P)
         end; reflexivity.
Qed.

Lemma update_snapshots_received e r :
  snapshots_received (_update_metrics e r) =
  snapshots_received r + b2z (bool_decide (category e = $"CLIENT_SNAPSHOT")).
Proof.
  unfold _update_metrics. cbv zeta.
  rewrite ?(when_proj snapshots_received) by reflexivity.
  rewrite (when_bump snapshots_received) by reflexivity.
  rewrite ?(when_proj snapshots_received) by reflexivity.
  f_equal.
  repeat match goal with
         | |- context [decide ?P] => destruct (decide P)
         end; reflexivity.
Qed.

Lemma parse_step_rate_counters r line r' :
  rate_counters_bounded r -> parse_step r line = Ok r' -> rate_counters_bounded r'.
Proof.
  unfold rate_counters_bounded. intros Hr H.
  destruct (parse_step_cases r line) as [[_ E]|(e & _ & E)];
    rewrite E in H; inversion H; subst r'; clear H E.
  - simpl. lia.
  - rewrite update_baseline_mismatches, update_snapshots_received, update_total_lines.
    cbn [baseline_mismatches snapshots_received total_lines set_entries set_total_lines].
    pose proof (b2z_bounds (bool_decide (category e = $"CLIENT_DELTA")
       && PyStr.contains ($"mismatch") (PyStr.lower (message e)))).
    pose proof (b2z_bounds (bool_decide (category e = $"CLIENT_SNAPSHOT"))).
    lia.
Qed.

Lemma parse_step_total_lines r line r' :
  parse_step r line = Ok r' -> total_lines r' = total_lines r + 1.
Proof.
  intros H.
  destruct (parse_step_cases r line) as [[_ E]|(e & _ & E)];
    rewrite E in H; inversion H; subst r'; [reflexivity|].
  by rewrite update_total_lines.
Qed.

Lemma parse_loop_total_lines lines r r' :
  parse_loop r lines = Ok r' ->
  total_lines r' = total_lines r + Z.of_nat (length lines).
Proof.
  revert r. induction lines as [|l lines IH]; intros r H; simpl in H.
  - inversion H. simpl. lia.
  - destruct (parse_step r l) as [r1|] eqn:E; [|discriminate]. simpl in H.
    rewrite (IH _ H), (parse_step_total_lines _ _ _ E). simpl length. lia.
Qed.

(** Division of two counters below [2^53] returns. *)
Lemma true_divide_total m n :
  0 <= m < 9007199254740992 -> 0 < n < 9007199254740992 ->
  PyFloat.true_divide m n = Ok (PyFloat.round_div m n).
Proof.
  intros Hm Hn. unfold PyFloat.true_divide.
  destruct (Z.eqb_spec n 0); [lia|].
  destruct (Z.eq_dec m 0) as [->|Hm0]; [reflexivity|].
  destruct (round_div_pos m n ltac:(lia) Hn)
    as (q & r & s & mF & eF & -> & _). reflexivity.
Qed.

(** The detector returns on counters below [2^53]. *)
Lemma detect_issues_total log_path r :
  0 <= baseline_mismatches r < 9007199254740992 ->
  snapshots_received r < 9007199254740992 ->
  exists r', _detect_issues log_path r = Ok r'.
Proof.
  intros Hm Hn. unfold _detect_issues.
  set (r1 := when (0 <? player_disappearances r) _ r).
  set (r2 := when (10 <? interpolation_warnings r1) _ r1).
  assert (E1 : baseline_mismatches r2 = baseline_mismatches r).
  { unfold r2, r1. by rewrite !(when_proj baseline_mismatches) by reflexivity. }
  assert (E2 : snapshots_received r2 = snapshots_received r).
  { unfold r2, r1. by rewrite !(when_proj snapshots_received) by reflexivity. }
  cbv zeta. fold r1. fold r2.
  destruct (0 <? snapshots_received r2) eqn:Hpos; simpl; [|eauto].
  rewrite true_divide_total by lia. simpl. eauto.
Qed.

(** [parse] returns a result on every file of fewer than [2^53] lines. *)
Lemma parse_lines_total log_path lines :
  Z.of_nat (length lines) < 9007199254740992 ->
  exists r, parse_lines log_path lines = Ok r.
Proof.
  intros Hlen. unfold parse_lines.
  destruct (parse_loop_total lines (new_result log_path)) as [r0 Hr0].
  rewrite Hr0. simpl.
  pose proof (parse_loop_total_lines _ _ _ Hr0) as Htl. simpl in Htl.
  assert (Hb : rate_counters_bounded r0).
  { eapply (parse_loop_keeps rate_counters_bounded); [|..|exact Hr0].
    - apply parse_step_rate_counters.
    - unfold rate_counters_bounded. simpl. lia. }
  destruct Hb as [Hb1 Hb2].
  destruct (set_timing_fields r0)
    as (_ & _ & _ & _ & _ & _ & _ & Tsr & Tbm & _).
  apply detect_issues_total; rewrite ?Tsr, ?Tbm; lia.
Qed.

End Totality.

Section Results.
Import LogAnalyzer.

Lemma parse_lines_inv log_path lines r :
  parse_lines log_path lines = Ok r ->
  exists r0,
    parse_loop (new_result log_path) lines = Ok r0 /\
    r = set_warnings_list (warnings_of r0)
          (set_critical_issues (critical_of log_path r0) (set_timing r0)).
Proof.
  unfold parse_lines. destruct (parse_loop _ lines) as [r0|] eqn:Hl; [|discriminate].
  simpl. intros Hd. apply detect_issues_closed in Hd. exists r0. split; [done|].
  apply parse_loop_invariant in Hl as (Hc & Hw & _).
  destruct (set_timing_fields r0) as (Tc & Tw & _).
  rewrite Tc, Tw, Hc, Hw in Hd. simpl in Hd. subst r. f_equal.
  - unfold warnings_of, mismatch_rate_of, set_timing.
    by destruct (entries r0).
  - f_equal. unfold critical_of, set_timing. by destruct (entries r0).
Qed.

(** The kinds of issue text are told apart. *)
Lemma kind_interpolation n :
  is_interpolation_warning (interpolation_warning n) = true /\
  is_mismatch_warning (interpolation_warning n) = false.
Proof. split. - reflexivity. - reflexivity. Qed.

Lemma kind_mismatch x :
  is_mismatch_warning (mismatch_warning x) = true /\
  is_interpolation_warning (mismatch_warning x) = false.
Proof. split. - reflexivity. - reflexivity. Qed.

Lemma disappearance_not_zero_snapshots n :
  disappearance_issue n <> server_issue /\ disappearance_issue n <> client_issue.
Proof. split; discriminate. Qed.

Lemma server_not_client : server_issue <> client_issue.
Proof. discriminate. Qed.

Lemma has_interpolation_warning_iff r :
  warnings_list r = warnings_of r ->
  has_warning is_interpolation_warning r <-> 10 < interpolation_warnings r.
Proof.
  intros E. unfold has_warning. rewrite E. unfold warnings_of.
  destruct (Z.ltb_spec 10 (interpolation_warnings r)) as [H|H].
  - split; [done|]. intros _.
    exists (interpolation_warning (interpolation_warnings r)).
    split; [apply in_or_app; left; left; reflexivity|].
    apply (proj1 (kind_interpolation _)).
  - split; [|lia]. intros (w & Hin & Hk). exfalso.
    destruct (_ && _); cbn [In app] in Hin; [|done].
    destruct Hin as [<-|[]]. by rewrite (proj2 (kind_mismatch _)) in Hk.
Qed.

Lemma has_mismatch_warning_iff r :
  warnings_list r = warnings_of r ->
  has_warning is_mismatch_warning r <->
  0 < snapshots_received r /\
  PyFloat.gtb (mismatch_rate_of r) PyFloat.lit_0_1 = true.
Proof.
  intros E. unfold has_warning. rewrite E. unfold warnings_of.
  destruct (Z.ltb_spec 0 (snapshots_received r)) as [H|H];
    destruct (PyFloat.gtb _ _) eqn:Hg; cbn [andb].
  - split; [done|]. intros _.
    exists (mismatch_warning (mismatch_rate_of r)).
    split; [apply in_or_app; right; left; reflexivity|].
    apply (proj1 (kind_mismatch _)).
  - split; [|intros [_ ?]; done]. intros (w & Hin & Hk). exfalso.
    rewrite app_nil_r in Hin. destruct (10 <? _); cbn [In app] in Hin; [|done].
    destruct Hin as [<-|[]]. by rewrite (proj2 (kind_interpolation _)) in Hk.
  - split; [|lia]. intros (w & Hin & Hk). exfalso.
    rewrite app_nil_r in Hin. destruct (10 <? _); cbn [In app] in Hin; [|done].
    destruct Hin as [<-|[]]. by rewrite (proj2 (kind_interpolation _)) in Hk.
  - split; [|lia]. intros (w & Hin & Hk). exfalso.
    rewrite app_nil_r in Hin. destruct (10 <? _); cbn [In app] in Hin; [|done].
    destruct Hin as [<-|[]]. by rewrite (proj2 (kind_interpolation _)) in Hk.
Qed.

Lemma in_if_singleton {A} (c : bool) (x y : A) :
  In x (if c then [y] else []) <-> c = true /\ y = x.
Proof. destruct c; simpl; intuition congruence. Qed.

Lemma client_issue_iff log_path r :
  critical_issues r = critical_of log_path r ->
  In client_issue (critical_issues r) <->
  snapshots_received r = 0 /\
  PyStr.contains ($"client") (PyStr.lower log_path) = true.
Proof.
  intros E. rewrite E. unfold critical_of.
  pose proof (disappearance_not_zero_snapshots (player_disappearances r)) as [_ Hd].
  pose proof server_not_client as Hsc.
  rewrite !in_app_iff, !in_if_singleton, !andb_true_iff, !Z.eqb_eq.
  intuition congruence.
Qed.

Lemma server_issue_iff log_path r :
  critical_issues r = critical_of log_path r ->
  In server_issue (critical_issues r) <->
  snapshots_sent r = 0 /\
  PyStr.contains ($"server") (PyStr.lower log_path) = true.
Proof.
  intros E. rewrite E. unfold critical_of.
  pose proof (disappearance_not_zero_snapshots (player_disappearances r)) as [Hd _].
  pose proof server_not_client as Hsc.
  rewrite !in_app_iff, !in_if_singleton, !andb_true_iff, !Z.eqb_eq.
  intuition congruence.
Qed.

End Results.

Section Scenarios.
Import LogAnalyzer.

Lemma parse_lines_counters log_path lines r :
  parse_lines log_path lines = Ok r ->
  exists r0,
    parse_loop (new_result log_path) lines = Ok r0 /\
    entries r = entries r0 /\ total_lines r = total_lines r0 /\
    errors r = errors r0 /\ warnings r = warnings r0 /\
    info r = info r0 /\ debug r = debug r0 /\
    snapshots_sent r = snapshots_sent r0 /\
    snapshots_received r = snapshots_received r0 /\
    baseline_mismatches r = baseline_mismatches r0 /\
    player_disappearances r = player_disappearances r0 /\
    interpolation_warnings r = interpolation_warnings r0 /\
    warnings_list r = warnings_of r /\
    critical_issues r = critical_of log_path r.
Proof.
  intros H. apply parse_lines_inv in H as (r0 & Hl & ->). exists r0.
  split; [exact Hl|]. unfold set_timing.
  destruct (entries r0) eqn:E; cbn; rewrite ?E; repeat split; reflexivity.
Qed.

Lemma update_metrics_disappearance e r :
  level e = $"ERROR" -> category e = $"CLIENT_ERROR" ->
  message e = $"Player entity missing from snapshot" ->
  _update_metrics e r =
  set_player_disappearances (player_disappearances r + 1) (set_errors (errors r + 1) r).
Proof. intros H1 H2 H3. unfold _update_metrics. rewrite H1, H2, H3. reflexivity. Qed.

Lemma parse_loop_disappearances lines r :
  Forall is_disappearance_line lines ->
  exists r',
    parse_loop r lines = Ok r' /\
    errors r' = errors r + Z.of_nat (length lines) /\
    player_disappearances r' = player_disappearances r + Z.of_nat (length lines) /\
    snapshots_sent r' = snapshots_sent r /\
    snapshots_received r' = snapshots_received r.
Proof.
  intros Hall. revert r. induction Hall as [|l lines (e & He & H1 & H2 & H3) _ IH]; intros r.
  - exists r. simpl. repeat split; lia.
  - simpl parse_loop. unfold parse_step. rewrite He. simpl.
    rewrite (update_metrics_disappearance _ _ H1 H2 H3).
    destruct (IH (set_player_disappearances
                    (player_disappearances
                       (set_entries (entries (set_total_lines (total_lines r + 1) r) ++ [e])
                          (set_total_lines (total_lines r + 1) r)) + 1)
                    (set_errors
                       (errors (set_entries (entries (set_total_lines (total_lines r + 1) r) ++ [e])
                          (set_total_lines (total_lines r + 1) r)) + 1)
                       (set_entries (entries (set_total_lines (total_lines r + 1) r) ++ [e])
                          (set_total_lines (total_lines r + 1) r)))))
      as (r' & Hr' & E1 & E2 & E3 & E4).
    exists r'. split; [exact Hr'|]. rewrite E1, E2, E3, E4. simpl.
    repeat split; lia.
Qed.

End Scenarios.

(** C2: the high-baseline-mismatch warning is in the warnings list of a
    finalized result exactly when [snapshots_received > 0] and the rate
    [baseline_mismatches / snapshots_received], as the float that Python
    computes, is greater than the float [0.1]; on counters below [2^52]
    that is exactly when the exact quotient is above one tenth. With 100
    snapshots it fires at 11 mismatches and not at 10, and with no
    snapshot it never fires. *)
Theorem C2_mismatch_warning_threshold (log_path : str) (lines : list str) (r : AnalysisResult) :
  LogAnalyzer.parse_lines log_path lines = Ok r ->
  (has_warning is_mismatch_warning r <->
   0 < snapshots_received r /\
   PyFloat.gtb (PyFloat.round_div (baseline_mismatches r) (snapshots_received r))
     PyFloat.lit_0_1 = true) /\
  (snapshots_received r < 4503599627370496 ->
   baseline_mismatches r < 9007199254740992 ->
   (has_warning is_mismatch_warning r <->
    0 < snapshots_received r /\ snapshots_received r < 10 * baseline_mismatches r)) /\
  (snapshots_received r = 100 -> baseline_mismatches r = 11 ->
   has_warning is_mismatch_warning r) /\
  (snapshots_received r = 100 -> baseline_mismatches r = 10 ->
   ~ has_warning is_mismatch_warning r) /\
  (snapshots_received r = 0 -> ~ has_warning is_mismatch_warning r).
Proof.
  intros H.
  destruct (parse_lines_counters _ _ _ H)
    as (r0 & Hl & _ & Htl & _ & _ & _ & _ & _ & Hsr & Hbm & _ & _ & Hw & _).
  pose proof (has_mismatch_warning_iff r Hw) as Hiff. unfold mismatch_rate_of in Hiff.
  assert (Hb : rate_counters_bounded r0).
  { eapply (parse_loop_keeps rate_counters_bounded); [|..|exact Hl].
    - apply parse_step_rate_counters.
    - unfold rate_counters_bounded. simpl. lia. }
  destruct Hb as [Hb1 Hb2]. rewrite <- Hbm in Hb1. rewrite <- Hsr in Hb2.
  assert (Hexact : snapshots_received r < 4503599627370496 ->
            baseline_mismatches r < 9007199254740992 ->
            (has_warning is_mismatch_warning r <->
             0 < snapshots_received r /\ snapshots_received r < 10 * baseline_mismatches r)).
  { intros B1 B2. rewrite Hiff. split.
    - intros [Hpos Hg]. split; [exact Hpos|].
      apply round_div_gt_tenth in Hg; lia.
    - intros [Hpos Hg]. split; [exact Hpos|].
      apply round_div_gt_tenth; lia. }
  split; [exact Hiff|]. split; [exact Hexact|].
  split; [|split].
  - intros E1 E2. apply Hexact; lia.
  - intros E1 E2 Hhas. apply Hexact in Hhas; lia.
  - intros E1 Hhas. apply Hiff in Hhas. lia.
Qed.

Lemma C2_witness :
  let lines := repeat mismatch_line 2 ++ noise_line :: repeat snapshot_line 10 in
  let r := finalized ($"logs/client_0.log") lines in
  LogAnalyzer.parse_lines ($"logs/client_0.log") lines = Ok r /\
  has_warning is_mismatch_warning r.
Proof.
  intros lines r.
  assert (H : LogAnalyzer.parse_lines ($"logs/client_0.log") lines = Ok r)
    by (vm_compute; reflexivity).
  split; [exact H|].
  destruct (C2_mismatch_warning_threshold _ _ _ H) as (_ & Hexact & _).
  apply Hexact; vm_compute; [reflexivity|reflexivity|split; reflexivity].
Defined.

(** C7: the interpolation counter of a finalized result is the number of
    its entries with category INTERPOLATOR and level WARN, and the
    high-interpolation-warnings warning is in the warnings list exactly
    when that counter is greater than 10: not with 9 such entries, and
    with 11 of them. *)
Theorem C7_interpolation_warning_threshold (log_path : str) (lines : list str)
    (r : AnalysisResult) :
  LogAnalyzer.parse_lines log_path lines = Ok r ->
  interpolation_warnings r = count_entries is_interpolation_warn (entries r) /\
  (has_warning is_interpolation_warning r <-> 10 < interpolation_warnings r) /\
  (count_entries is_interpolation_warn (entries r) = 9 ->
   ~ has_warning is_interpolation_warning r) /\
  (count_entries is_interpolation_warn (entries r) = 11 ->
   In (LogAnalyzer.interpolation_warning 11) (warnings_list r)).
Proof.
  intros H.
  destruct (parse_lines_finalized _ _ _ H) as (Hw & _ & _ & _ & Hcount).
  pose proof (has_interpolation_warning_iff r Hw) as Hiff.
  split; [exact Hcount|]. split; [exact Hiff|]. split.
  - intros E Hhas. apply Hiff in Hhas. lia.
  - intros E. rewrite Hw. unfold warnings_of. rewrite Hcount, E.
    apply in_or_app. left. left. reflexivity.
Qed.

Lemma C7_witness :
  let lines := repeat interpolator_line 6 ++ snapshot_line :: repeat interpolator_line 5 in
  let r := finalized ($"logs/client_1.log") lines in
  LogAnalyzer.parse_lines ($"logs/client_1.log") lines = Ok r /\
  In (LogAnalyzer.interpolation_warning 11) (warnings_list r).
Proof.
  intros lines r.
  assert (H : LogAnalyzer.parse_lines ($"logs/client_1.log") lines = Ok r)
    by (vm_compute; reflexivity).
  split; [exact H|].
  destruct (C7_interpolation_warning_threshold _ _ _ H) as (_ & _ & _ & H11).
  apply H11. vm_compute. reflexivity.
Defined.

(** ** Letter case of the path *)

Section LetterCase.
Import PyStr.

Lemma in_all_chars c : In c all_chars.
Proof.
  unfold all_chars. rewrite <- (ascii_nat_embedding c).
  apply in_map, in_seq. pose proof (nat_ascii_bounded c). lia.
Qed.

Lemma lower_char_small_letter a b :
  small_letter b = true -> Ascii.eqb b (lower_char a) = either_case a b.
Proof.
  assert (H : forallb (fun a => forallb (fun b =>
                implb (small_letter b)
                      (Bool.eqb (Ascii.eqb b (lower_char a)) (either_case a b)))
                all_chars) all_chars = true) by (vm_compute; reflexivity).
  intros Hb. rewrite forallb_forall in H. specialize (H a (in_all_chars a)).
  rewrite forallb_forall in H. specialize (H b (in_all_chars b)).
  rewrite Hb in H. simpl in H. by apply Bool.eqb_prop.
Qed.

Lemma startswith_lower word s :
  forallb small_letter word = true ->
  startswith word (lower s) = opens_in_any_case word s.
Proof.
  revert s. induction word as [|b word IH]; intros s Hw; [by destruct s|].
  cbn [forallb] in Hw. apply andb_true_iff in Hw as [Hb Hw].
  destruct s as [|a s]; [reflexivity|].
  cbn [lower map startswith opens_in_any_case].
  fold (lower s). by rewrite (lower_char_small_letter a b Hb), (IH s Hw).
Qed.

(** The test of the source on the lower-cased path is the occurrence
    of the word in any letter case. *)
Lemma contains_lower word s :
  forallb small_letter word = true ->
  contains word (lower s) = occurs_in_any_case word s.
Proof.
  intros Hw. induction s as [|a s IH].
  - cbn [contains occurs_in_any_case].
    by rewrite <- (startswith_lower word [] Hw).
  - change (lower (a :: s)) with (lower_char a :: lower s).
    cbn [contains occurs_in_any_case]. rewrite <- IH.
    change (lower_char a :: lower s) with (lower (a :: s)).
    by rewrite (startswith_lower word (a :: s) Hw).
Qed.

Lemma opens_in_any_case_app word s t :
  opens_in_any_case word s = true -> opens_in_any_case word (s ++ t) = true.
Proof.
  revert s. induction word as [|b word IH]; intros s H; [by destruct s|].
  destruct s as [|a s]; [discriminate|].
  cbn [app opens_in_any_case] in *. apply andb_true_iff in H as [H1 H2].
  by rewrite H1, (IH s H2).
Qed.

Lemma occurs_in_any_case_app word s t :
  occurs_in_any_case word s = true -> occurs_in_any_case word (s ++ t) = true.
Proof.
  induction s as [|a s IH]; intros H.
  - cbn [occurs_in_any_case] in H. rewrite orb_false_r in H.
    destruct word; [by destruct t|discriminate].
  - cbn [occurs_in_any_case] in H. apply orb_true_iff in H as [H|H].
    + change ((a :: s) ++ t) with (a :: s ++ t). cbn [occurs_in_any_case].
      change (a :: s ++ t) with ((a :: s) ++ t).
      by rewrite (opens_in_any_case_app word (a :: s) t H).
    + change ((a :: s) ++ t) with (a :: s ++ t). cbn [occurs_in_any_case].
      rewrite (IH H). apply orb_true_r.
Qed.

End LetterCase.

(** C8, as stated, fails for a file named server.log: the test is made
    on the whole path, and the server log of the test run
    basic_single_client lies in a directory named after the test; with
    no snapshot sent, the client issue is recorded next to the server
    issue. *)
Lemma C8_counterexample :
  ~ (forall log_path lines r,
       LogAnalyzer.parse_lines log_path lines = Ok r ->
       ReportGenerator.path_name log_path = $"server.log" ->
       snapshots_sent r = 0 ->
       In LogAnalyzer.server_issue (critical_issues r) /\
       ~ In LogAnalyzer.client_issue (critical_issues r)).
Proof.
  intros H.
  destruct (H run_server_log [noise_line] (finalized run_server_log [noise_line]))
    as [_ Hno]; [vm_compute; reflexivity..|].
  apply Hno. vm_compute. auto.
Qed.

(** C8 (amended): in a finalized result the issue "Client received 0
    snapshots" is recorded exactly when [snapshots_received = 0] and the
    whole path of the file, its directories included, holds "client" in
    some letter case, and the issue "Server sent 0 snapshots" exactly
    when [snapshots_sent = 0] and the whole path holds "server"; the
    test of the source on the lower-cased path is this occurrence in any
    letter case. For a path that is client_0.log up to letter case and
    no received snapshot the client issue is recorded and the server
    issue is not, and the other way round for server.log without sent
    snapshots. A word in the name of a directory counts as well: in a
    directory whose name holds "client", every log without received
    snapshots gets the client issue, and a path that holds both words
    gets both issues when both counters are zero. *)
Theorem C8_zero_snapshot_issues (log_path : str) (lines : list str) (r : AnalysisResult) :
  LogAnalyzer.parse_lines log_path lines = Ok r ->
  (PyStr.contains ($"client") (PyStr.lower log_path) =
     occurs_in_any_case ($"client") log_path /\
   PyStr.contains ($"server") (PyStr.lower log_path) =
     occurs_in_any_case ($"server") log_path) /\
  (In LogAnalyzer.client_issue (critical_issues r) <->
   snapshots_received r = 0 /\ occurs_in_any_case ($"client") log_path = true) /\
  (In LogAnalyzer.server_issue (critical_issues r) <->
   snapshots_sent r = 0 /\ occurs_in_any_case ($"server") log_path = true) /\
  (PyStr.lower log_path = $"client_0.log" -> snapshots_received r = 0 ->
   In LogAnalyzer.client_issue (critical_issues r) /\
   ~ In LogAnalyzer.server_issue (critical_issues r)) /\
  (PyStr.lower log_path = $"server.log" -> snapshots_sent r = 0 ->
   In LogAnalyzer.server_issue (critical_issues r) /\
   ~ In LogAnalyzer.client_issue (critical_issues r)) /\
  (forall dir name,
     log_path = TestFramework.join_path dir name ->
     occurs_in_any_case ($"client") dir = true -> snapshots_received r = 0 ->
     In LogAnalyzer.client_issue (critical_issues r)) /\
  (forall dir name,
     log_path = TestFramework.join_path dir name ->
     occurs_in_any_case ($"server") dir = true -> snapshots_sent r = 0 ->
     In LogAnalyzer.server_issue (critical_issues r)) /\
  (occurs_in_any_case ($"client") log_path = true ->
   occurs_in_any_case ($"server") log_path = true ->
   snapshots_received r = 0 -> snapshots_sent r = 0 ->
   In LogAnalyzer.client_issue (critical_issues r) /\
   In LogAnalyzer.server_issue (critical_issues r)).
Proof.
  intros H.
  destruct (parse_lines_finalized _ _ _ H) as (_ & Hc & _).
  pose proof (client_issue_iff log_path r Hc) as Hcl.
  pose proof (server_issue_iff log_path r Hc) as Hsv.
  assert (Ec : PyStr.contains ($"client") (PyStr.lower log_path) =
               occurs_in_any_case ($"client") log_path)
    by (apply contains_lower; reflexivity).
  assert (Es : PyStr.contains ($"server") (PyStr.lower log_path) =
               occurs_in_any_case ($"server") log_path)
    by (apply contains_lower; reflexivity).
  split; [by split|].
  split; [by rewrite <- Ec|]. split; [by rewrite <- Es|].
  split; [|split; [|split; [|split; [|]]]].
  - intros E E0. rewrite Hcl, Hsv, E. split; [split; [exact E0|reflexivity]|].
    intros [_ Hno]. vm_compute in Hno. discriminate.
  - intros E E0. rewrite Hcl, Hsv, E. split; [split; [exact E0|reflexivity]|].
    intros [_ Hno]. vm_compute in Hno. discriminate.
  - intros dir name -> Hd E0. rewrite Hcl, Ec. split; [exact E0|].
    unfold TestFramework.join_path. by apply occurs_in_any_case_app.
  - intros dir name -> Hd E0. rewrite Hsv, Es. split; [exact E0|].
    unfold TestFramework.join_path. by apply occurs_in_any_case_app.
  - intros Oc Os E0 E1. rewrite Hcl, Hsv, Ec, Es. by repeat split.
Qed.

(** A log of a client written in capitals, and the log of a server that
    has sent a snapshot in the directory of the test basic_single_client:
    both get the client issue. *)
Lemma C8_witness :
  let lines := [noise_line; interpolator_line] in
  let r := finalized ($"Logs/CLIENT_0.LOG") lines in
  let r' := finalized run_server_log [sent_line] in
  (LogAnalyzer.parse_lines ($"Logs/CLIENT_0.LOG") lines = Ok r /\
   In LogAnalyzer.client_issue (critical_issues r) /\
   ~ In LogAnalyzer.server_issue (critical_issues r)) /\
  (LogAnalyzer.parse_lines run_server_log [sent_line] = Ok r' /\
   snapshots_sent r' = 1 /\
   In LogAnalyzer.client_issue (critical_issues r')).
Proof.
  intros lines r r'.
  assert (H : LogAnalyzer.parse_lines ($"Logs/CLIENT_0.LOG") lines = Ok r)
    by (vm_compute; reflexivity).
  assert (H' : LogAnalyzer.parse_lines run_server_log [sent_line] = Ok r')
    by (vm_compute; reflexivity).
  split.
  - split; [exact H|].
    destruct (C8_zero_snapshot_issues _ _ _ H) as (_ & Hclient & Hserver & _).
    split; [apply Hclient; vm_compute; by split|].
    intros Hin. apply Hserver in Hin as [_ Hin]. vm_compute in Hin. discriminate.
  - split; [exact H'|]. split; [vm_compute; reflexivity|].
    destruct (C8_zero_snapshot_issues _ _ _ H') as (_ & _ & _ & _ & _ & Hdir & _).
    apply (Hdir ($"test_logs/basic_single_client_20240101_120000") ($"server.log"));
      vm_compute; reflexivity.
Defined.

(** C10: a record raises none of the four per-level counters by more
    than one and their sum by at most one, and after every prefix of the
    lines of a file the loop has returned a result on which
    [errors + warnings + info + debug <= number of entries <= total_lines];
    the same holds inside the next turn of the loop: once the line is
    counted, once its entry is appended, and once its metrics are
    updated. *)
Theorem C10_level_counters_bounded :
  (forall (e : LogEntry) (r : AnalysisResult),
     errors r <= errors (LogAnalyzer._update_metrics e r) /\
     warnings r <= warnings (LogAnalyzer._update_metrics e r) /\
     info r <= info (LogAnalyzer._update_metrics e r) /\
     debug r <= debug (LogAnalyzer._update_metrics e r) /\
     level_sum (LogAnalyzer._update_metrics e r) <= level_sum r + 1) /\
  (forall (log_path : str) (lines : list str) (k : nat),
     exists r,
       LogAnalyzer.parse_loop (new_result log_path) (take k lines) = Ok r /\
       level_sum r <= Z.of_nat (length (entries r)) <= total_lines r /\
       let counted := set_total_lines (total_lines r + 1) r in
       pass_invariant counted /\
       forall e : LogEntry,
         let appended := set_entries (entries counted ++ [e]) counted in
         pass_invariant appended /\
         pass_invariant (LogAnalyzer._update_metrics e appended)).
Proof.
  split.
  - intros e r. pose proof (update_level_counters e r) as (H1 & H2 & H3 & H4).
    pose proof (update_level_sum e r). repeat split; auto; lia.
  - intros log_path lines k.
    destruct (parse_loop_total (take k lines) (new_result log_path)) as [r Hr].
    exists r. split; [exact Hr|].
    apply parse_loop_invariant in Hr as (_ & _ & _ & Hp & _).
    split; [exact Hp|]. unfold pass_invariant in *. cbv zeta.
    split; [unfold level_sum in *; simpl; lia|].
    intros e. split.
    + unfold level_sum in *. simpl. rewrite length_app. simpl. lia.
    + pose proof (update_level_sum e
        (set_entries (entries r ++ [e]) (set_total_lines (total_lines r + 1) r))) as Hs.
      rewrite update_entries, update_total_lines.
      unfold level_sum in *. simpl in *. rewrite length_app. simpl. lia.
Qed.

Section LineClaims.
Import LogAnalyzer.




End LineClaims.



(** C4: on a line of the documented shape,
    [[i.f] [LEVEL] [category] message] with an optional [| key=value ...],
    the parser returns an entry whose time stamp is the float of [i.f],
    whose level and category are the bracketed texts, whose message is
    the message text without surrounding blanks, and whose metadata gives
    each key the value of the last blank-separated token [key=value],
    cut at its first [=]; tokens without [=] give nothing. *)
Theorem C4_well_formed_line_fields (x : Fields) :
  well_formed x ->
  exists e,
    LogAnalyzer._parse_line (render x) = Ok (Some e) /\
    timestamp e = PyFloat.of_decimal (f_int x) (f_frac x) /\
    level e = f_level x /\
    category e = f_category x /\
    message e = PyStr.strip (f_message x) /\
    (forall key,
       metadata e !! key =
       match f_meta x with
       | None => None
       | Some (_, meta) => last_value key (PyStr.split_ws meta)
       end) /\
    raw_line e = render x.
Proof. apply parse_line_well_formed. Qed.

Lemma C4_witness :
  well_formed sample_fields /\
  exists e,
    LogAnalyzer._parse_line
      ($"[12.5] [INFO]  [SERVER_SNAPSHOT] Snapshot #7 sent to peer 2 | size=12 flag a=b=c size=13")
    = Ok (Some e) /\
    timestamp e = S754_finite false 7036874417766400 (-49) /\
    level e = $"INFO" /\
    category e = $"SERVER_SNAPSHOT" /\
    message e = $"Snapshot #7 sent to peer 2" /\
    metadata e !! $"size" = Some $"13" /\
    metadata e !! $"a" = Some $"b=c" /\
    metadata e !! $"flag" = None.
Proof.
  assert (Hwf : well_formed sample_fields).
  { repeat split; try discriminate; reflexivity. }
  split; [exact Hwf|].
  destruct (C4_well_formed_line_fields sample_fields Hwf)
    as (e & He & Ht & Hl & Hc & Hm & Hmeta & _).
  exists e. split; [exact He|].
  rewrite Ht, Hl, Hc, Hm, !Hmeta. vm_compute. by repeat split.
Defined.

(** C6, as stated, fails on the log of a client: the five disappearance
    lines in client_0.log give two critical issues, the second one being
    "Client received 0 snapshots". *)
Lemma C6_counterexample :
  ~ (exists r issue,
       LogAnalyzer.parse_lines ($"client_0.log") (repeat disappearance_line 5) = Ok r /\
       player_disappearances r = 5 /\ errors r = 5 /\
       critical_issues r = [issue] /\ PyStr.contains ($"5") issue = true).
Proof.
  intros (r & issue & H & _ & _ & Hc & _).
  vm_compute in H. inversion H; subst r; clear H.
  vm_compute in Hc. discriminate.
Qed.

(** C6 (amended): for a file of exactly five structured lines of
    category CLIENT_ERROR, level ERROR and message "Player entity missing
    from snapshot", the analysis returns a result with
    [player_disappearances = 5] and [errors = 5] whose critical issues
    start with the disappearance issue, the only one that mentions "5";
    it is followed by the zero-snapshot issue of a path that contains
    "server" or "client", so the list has exactly one string when the
    path contains neither. *)
Theorem C6_five_disappearances (log_path : str) (lines : list str) :
  length lines = 5%nat ->
  Forall is_disappearance_line lines ->
  exists r,
    LogAnalyzer.parse_lines log_path lines = Ok r /\
    player_disappearances r = 5 /\
    errors r = 5 /\
    critical_issues r =
      [LogAnalyzer.disappearance_issue 5] ++
      (if PyStr.contains ($"server") (PyStr.lower log_path)
       then [LogAnalyzer.server_issue] else []) ++
      (if PyStr.contains ($"client") (PyStr.lower log_path)
       then [LogAnalyzer.client_issue] else []) /\
    PyStr.contains ($"5") (LogAnalyzer.disappearance_issue 5) = true /\
    PyStr.contains ($"5") LogAnalyzer.server_issue = false /\
    PyStr.contains ($"5") LogAnalyzer.client_issue = false /\
    (PyStr.contains ($"server") (PyStr.lower log_path) = false ->
     PyStr.contains ($"client") (PyStr.lower log_path) = false ->
     critical_issues r = [LogAnalyzer.disappearance_issue 5]).
Proof.
  intros Hlen Hall.
  destruct (parse_lines_total log_path lines ltac:(lia)) as [r Hr].
  exists r. split; [exact Hr|].
  destruct (parse_lines_counters _ _ _ Hr)
    as (r0 & Hl & _ & _ & He & _ & _ & _ & Hss & Hsr & _ & Hpd & _ & _ & Hc).
  destruct (parse_loop_disappearances lines (new_result log_path) Hall)
    as (r1 & Hl1 & E1 & E2 & E3 & E4).
  rewrite Hl in Hl1. inversion Hl1; subst r1; clear Hl1.
  rewrite Hlen in E1, E2. simpl in E1, E2, E3, E4.
  assert (Hcrit : critical_issues r =
      [LogAnalyzer.disappearance_issue 5] ++
      (if PyStr.contains ($"server") (PyStr.lower log_path)
       then [LogAnalyzer.server_issue] else []) ++
      (if PyStr.contains ($"client") (PyStr.lower log_path)
       then [LogAnalyzer.client_issue] else [])).
  { rewrite Hc. unfold critical_of. rewrite Hpd, Hss, Hsr, E2, E3, E4. reflexivity. }
  split; [lia|]. split; [lia|]. split; [exact Hcrit|].
  split; [reflexivity|]. split; [reflexivity|]. split; [reflexivity|].
  intros Hs Hcl. rewrite Hcrit, Hs, Hcl. reflexivity.
Qed.

Lemma C6_witness :
  length (repeat disappearance_line 5) = 5%nat /\
  Forall is_disappearance_line (repeat disappearance_line 5) /\
  exists r,
    LogAnalyzer.parse_lines ($"logs/peer_a.log") (repeat disappearance_line 5) = Ok r /\
    player_disappearances r = 5 /\ errors r = 5 /\
    critical_issues r = [LogAnalyzer.disappearance_issue 5].
Proof.
  assert (Hall : Forall is_disappearance_line (repeat disappearance_line 5)).
  { repeat constructor; eexists; (split; [vm_compute; reflexivity|]); by repeat split. }
  split; [reflexivity|]. split; [exact Hall|].
  destruct (C6_five_disappearances ($"logs/peer_a.log") (repeat disappearance_line 5)
              eq_refl Hall) as (r & Hr & Hpd & He & _ & _ & _ & _ & Hone).
  exists r. repeat split; try assumption. apply Hone; reflexivity.
Defined.

Section Report.
Import ReportGenerator.

Lemma file_dict_emitted r : emitted_as r (file_dict r).
Proof. unfold emitted_as. repeat split; reflexivity. Qed.

Lemma summary_fold results s :
  let s' := fold_left summary_step results s in
  total_errors s' = total_errors s + total errors results /\
  total_warnings s' = total_warnings s + total warnings results /\
  total_snapshots_sent s' = total_snapshots_sent s + total snapshots_sent results /\
  total_snapshots_received s' =
    total_snapshots_received s + total snapshots_received results /\
  total_player_disappearances s' =
    total_player_disappearances s + total player_disappearances results /\
  total_interpolation_warnings s' =
    total_interpolation_warnings s + total interpolation_warnings results.
Proof.
  revert s. induction results as [|r results IH]; intros s; simpl.
  - unfold total. simpl. repeat split; lia.
  - destruct (IH (summary_step s r)) as (H1 & H2 & H3 & H4 & H5 & H6).
    rewrite H1, H2, H3, H4, H5, H6. unfold total. simpl. repeat split; lia.
Qed.

End Report.

(** C9, as stated, fails on the per-level counters [info] and [debug]:
    two analysed files that differ in [info] give the same report. *)
Lemma C9_counterexample :
  info (finalized ($"server.log") [info_line]) <>
  info (finalized ($"server.log") [trace_line]) /\
  ReportGenerator.generate_json_report [finalized ($"server.log") [info_line]] =
  ReportGenerator.generate_json_report [finalized ($"server.log") [trace_line]].
Proof. split; [vm_compute; discriminate|vm_compute; reflexivity]. Qed.

(** C9 (amended): the structured report holds, for every analysed file
    in order, the counters [total_lines], the number of entries,
    [errors], [warnings], [snapshots_sent], [snapshots_received],
    [packet_loss_events], [baseline_mismatches], [player_disappearances],
    [interpolation_warnings] and [chunk_changes] under the names of their
    fields with equal values, and the six totals of the summary are the
    sums over the files; the counters [info] and [debug] are not in the
    report. *)
Theorem C9_report_counters (results : list AnalysisResult) :
  exists files summary,
    Json.member ($"files") (ReportGenerator.generate_json_report results) =
      Some (JList files) /\
    Forall2 emitted_as results files /\
    Json.member ($"summary") (ReportGenerator.generate_json_report results) =
      Some summary /\
    summary_emitted results summary.
Proof.
  exists (map ReportGenerator.file_dict results),
         (ReportGenerator.summary_dict (ReportGenerator._calculate_summary results)).
  split; [reflexivity|]. split.
  - induction results as [|r results IH]; constructor; [apply file_dict_emitted|exact IH].
  - split; [reflexivity|].
    destruct (summary_fold results ReportGenerator.empty_summary)
      as (H1 & H2 & H3 & H4 & H5 & H6).
    unfold summary_emitted, ReportGenerator._calculate_summary.
    repeat split; cbn [Json.member ReportGenerator.summary_dict];
      [rewrite H1|rewrite H2|rewrite H3|rewrite H4|rewrite H5|rewrite H6]; reflexivity.
Qed.

Section Framework.
Import TestFramework.
Variable underruns : bool.
Variable int_max_str_digits : N.
Variable avg_delay : list str -> json.

Lemma open_readable fs path :
  all_readable fs -> exists_ fs path = true ->
  exists lines, LogAnalyzer.open_r fs path = Ok lines.
Proof.
  intros Hr He. unfold exists_ in He. apply bool_decide_eq_true in He as [f Hf].
  unfold LogAnalyzer.open_r. rewrite Hf. destruct f; [by destruct (Hr path)|eauto].
Qed.

Lemma exists_unreadable fs path :
  fs !! path = Some LogAnalyzer.Unreadable -> exists_ fs path = true.
Proof. intros H. unfold exists_. apply bool_decide_eq_true. by rewrite H. Qed.

Lemma exists_missing fs path : fs !! path = None -> exists_ fs path = false.
Proof.
  intros H. unfold exists_. apply bool_decide_eq_false. rewrite H.
  by intros [x Hx].
Qed.

Lemma analyze_client_log_no_error fs path id c :
  exists_ fs path = true ->
  _analyze_client_log underruns avg_delay fs path id = Ok c ->
  Json.member ($"error") c = None.
Proof.
  intros He. unfold _analyze_client_log. rewrite He. simpl.
  destruct (LogAnalyzer.open_r fs path); [|discriminate]. simpl.
  intros H. inversion H. by destruct underruns.
Qed.

Lemma analyze_client_log_unreadable fs path id :
  fs !! path = Some LogAnalyzer.Unreadable ->
  _analyze_client_log underruns avg_delay fs path id = Raise PermissionError.
Proof.
  intros H. unfold _analyze_client_log. rewrite (exists_unreadable _ _ H).
  unfold LogAnalyzer.open_r. by rewrite H.
Qed.

(** The three cases of the server log. *)
Lemma analyze_server_log_missing fs path :
  fs !! path = None ->
  _analyze_server_log int_max_str_digits fs path = Ok not_found_entry.
Proof. intros H. unfold _analyze_server_log. by rewrite (exists_missing _ _ H). Qed.

Lemma analyze_server_log_unreadable fs path :
  fs !! path = Some LogAnalyzer.Unreadable ->
  _analyze_server_log int_max_str_digits fs path = Raise PermissionError.
Proof.
  intros H. unfold _analyze_server_log. rewrite (exists_unreadable _ _ H).
  unfold LogAnalyzer.open_r. by rewrite H.
Qed.

Lemma analyze_server_log_overflow fs path lines e :
  fs !! path = Some (LogAnalyzer.Text lines) ->
  avg_snapshot_size int_max_str_digits lines = Raise e ->
  _analyze_server_log int_max_str_digits fs path = Raise e.
Proof.
  intros H Ha. unfold _analyze_server_log, exists_.
  rewrite bool_decide_eq_true_2 by (by rewrite H).
  unfold LogAnalyzer.open_r. rewrite H. cbn [negb mbind result_bind]. by rewrite Ha.
Qed.

Lemma analyze_server_log_metrics fs path lines avg :
  fs !! path = Some (LogAnalyzer.Text lines) ->
  avg_snapshot_size int_max_str_digits lines = Ok avg ->
  exists metrics,
    _analyze_server_log int_max_str_digits fs path = Ok metrics /\
    Json.member ($"avg_snapshot_size") metrics = Some avg /\
    Json.member ($"error") metrics = None.
Proof.
  intros H Ha. unfold _analyze_server_log, exists_.
  rewrite bool_decide_eq_true_2 by (by rewrite H).
  unfold LogAnalyzer.open_r. rewrite H. cbn [negb mbind result_bind]. rewrite Ha.
  eexists. split; [reflexivity|]. by split.
Qed.

(** The average raises nothing but the overflow of the quotient. *)
Lemma avg_snapshot_size_raises lines e :
  avg_snapshot_size int_max_str_digits lines = Raise e -> e = OverflowError.
Proof.
  unfold avg_snapshot_size.
  destruct (snapshot_sizes int_max_str_digits lines) as [|size sizes]; [discriminate|].
  cbn [ReportGenerator.truthy]. unfold PyFloat.true_divide.
  destruct (_ =? 0) eqn:E0; [apply Z.eqb_eq in E0; simpl in E0; lia|].
  destruct (PyFloat.round_div _ _); cbn [mbind result_bind]; congruence.
Qed.

(** The clients that are analysed are those whose log exists; none of
    them is an error entry. *)
Lemma analyze_clients_existing fs log_dir ids :
  all_readable fs ->
  exists clients,
    analyze_clients underruns avg_delay fs log_dir ids = Ok clients /\
    length clients =
      length (filter (fun i => exists_ fs (client_log log_dir i) = true) ids) /\
    Forall (fun c => Json.member ($"error") c = None) clients.
Proof.
  intros Hr. induction ids as [|i ids (clients & IH & Hlen & Hall)].
  - exists []. by repeat split.
  - cbn [analyze_clients]. fold (client_log log_dir i).
    destruct (exists_ fs (client_log log_dir i)) eqn:He.
    + destruct (open_readable _ _ Hr He) as [lines Hl].
      destruct (_analyze_client_log underruns avg_delay fs (client_log log_dir i)
                  (Z.of_nat i)) as [c|] eqn:Hc.
      * rewrite IH. simpl. exists (c :: clients). rewrite filter_cons_True by exact He.
        split; [reflexivity|]. split; [simpl; by rewrite Hlen|].
        constructor; [|exact Hall]. by eapply analyze_client_log_no_error.
      * exfalso. unfold _analyze_client_log in Hc. rewrite He, Hl in Hc. discriminate.
    + rewrite filter_cons_False by (rewrite He; discriminate).
      exists clients. by repeat split.
Qed.

(** The analysis of a client raises nothing but the exception of
    [open] on a log that cannot be read. *)
Lemma analyze_client_log_raises fs path id e :
  _analyze_client_log underruns avg_delay fs path id = Raise e -> e = PermissionError.
Proof.
  unfold _analyze_client_log, exists_. case_bool_decide as He; cbn [negb]; [|discriminate].
  unfold LogAnalyzer.open_r. destruct He as [f Hf]. rewrite Hf.
  destruct f; cbn [mbind result_bind]; congruence.
Qed.

Lemma analyze_clients_raises fs log_dir ids e :
  analyze_clients underruns avg_delay fs log_dir ids = Raise e -> e = PermissionError.
Proof.
  induction ids as [|i ids IH]; [discriminate|].
  cbn [analyze_clients]. destruct (exists_ fs _); [|exact IH].
  destruct (_analyze_client_log _ _ _ _ _) as [c|e'] eqn:Hc; cbn [mbind result_bind].
  - destruct (analyze_clients _ _ _ _ ids) as [cs|e'']; cbn [mbind result_bind];
      [discriminate|]. intros [= <-]. by apply IH.
  - intros [= <-]. by eapply analyze_client_log_raises.
Qed.

(** One log that cannot be read ends the loop over the clients. *)
Lemma analyze_clients_unreadable fs log_dir ids i :
  In i ids -> fs !! client_log log_dir i = Some LogAnalyzer.Unreadable ->
  analyze_clients underruns avg_delay fs log_dir ids = Raise PermissionError.
Proof.
  intros Hin Hu. induction ids as [|j ids IH]; [destruct Hin|].
  cbn [analyze_clients]. fold (client_log log_dir j).
  destruct Hin as [->|Hin].
  - by rewrite (exists_unreadable _ _ Hu), (analyze_client_log_unreadable _ _ _ Hu).
  - specialize (IH Hin). destruct (exists_ fs (client_log log_dir j)); [|exact IH].
    destruct (_analyze_client_log _ _ _ _ _) as [c|e] eqn:Hc; cbn [mbind result_bind].
    + by rewrite IH.
    + by rewrite (analyze_client_log_raises _ _ _ _ Hc).
Qed.

End Framework.

(** C1: the mismatch rate of the structured analyzer is guarded, but the
    summary of the test framework is not: on a client log with a baseline
    mismatch and no received snapshot, both copies of the summary divide
    by [received = 0]. *)
Theorem C1_summary_divides_by_zero (avg_delay : list str -> json) :
  (forall log_path r,
     LogAnalyzer._detect_issues log_path r <> Raise ZeroDivisionError) /\
  (exists clients,
     TestFramework.analyze_clients true avg_delay stalled_client_fs
       ($"test_logs/run") [0%nat] = Ok clients /\
     TestFramework._generate_agent_summary clients = Raise ZeroDivisionError) /\
  (exists clients,
     TestFramework.analyze_clients false avg_delay stalled_client_fs
       ($"test_logs/run") [0%nat] = Ok clients /\
     TestFramework._generate_claude_summary clients = Raise ZeroDivisionError).
Proof.
  split; [apply detect_issues_no_zero_division|].
  split; eexists; (split; [vm_compute; reflexivity|vm_compute; reflexivity]).
Qed.

(** C3, as stated, fails for the structured analyzer: with one log that
    cannot be read, the run ends without an exit code and without a
    report for the other log. *)
Lemma C3_counterexample :
  ~ (exists outcome,
       ReportGenerator.main true unreadable_fs
         [ $"logs/client_0.log"; $"logs/server.log" ] (Ok ()) = Ok outcome).
Proof. intros [outcome H]. vm_compute in H. discriminate. Qed.

(** C3 (amended). The structured analyzer records no error entry:
    [parse] raises [FileNotFoundError] on a missing log and
    [PermissionError] on a log that cannot be read, and the run of [main]
    over a list that holds such a log ends with an exception. In the
    test framework a missing server log is recorded as the entry
    [{"error": "Log file not found"}] and a missing client log is left
    out, but a server or client log that exists and cannot be read ends
    [_analyze_logs] with the exception of [open]. When every log that
    exists can be read, the report is returned as soon as the server
    entry is: its clients are the ones whose log exists, none of them an
    error entry, and the only exception left is the [OverflowError] of
    the average snapshot size of a readable server log. *)
Theorem C3_missing_log_handling (underruns : bool) (int_max_str_digits : N)
    (avg_delay : list str -> json)
    (fs : gmap str LogAnalyzer.file) (log_dir : str) (num_clients : nat) :
  let server_log := TestFramework.join_path log_dir ($"server.log") in
  let analyze_logs :=
    TestFramework._analyze_logs underruns int_max_str_digits avg_delay
      fs log_dir num_clients in
  (forall path, fs !! path = None ->
     LogAnalyzer.parse fs path = Raise FileNotFoundError) /\
  (forall path, fs !! path = Some LogAnalyzer.Unreadable ->
     LogAnalyzer.parse fs path = Raise PermissionError) /\
  (forall log_files path output, In path log_files ->
     fs !! path = None \/ fs !! path = Some LogAnalyzer.Unreadable ->
     exists e, ReportGenerator.main true fs log_files output = Raise e) /\
  (fs !! server_log = None ->
     TestFramework._analyze_server_log int_max_str_digits fs server_log =
       Ok not_found_entry) /\
  (fs !! server_log = Some LogAnalyzer.Unreadable ->
     analyze_logs = Raise PermissionError) /\
  (forall i, (i < num_clients)%nat ->
     fs !! client_log log_dir i = Some LogAnalyzer.Unreadable ->
     exists e, analyze_logs = Raise e) /\
  (forall lines avg, fs !! server_log = Some (LogAnalyzer.Text lines) ->
     TestFramework.avg_snapshot_size int_max_str_digits lines = Ok avg ->
     exists metrics,
       TestFramework._analyze_server_log int_max_str_digits fs server_log = Ok metrics /\
       Json.member ($"avg_snapshot_size") metrics = Some avg /\
       Json.member ($"error") metrics = None) /\
  (forall lines e, fs !! server_log = Some (LogAnalyzer.Text lines) ->
     TestFramework.avg_snapshot_size int_max_str_digits lines = Raise e ->
     e = OverflowError /\ analyze_logs = Raise OverflowError) /\
  (all_readable fs ->
     forall server,
       TestFramework._analyze_server_log int_max_str_digits fs server_log = Ok server ->
       exists clients,
         analyze_logs = Ok (JDict [ ($"server", server); ($"clients", JList clients) ]) /\
         length clients =
           length (filter (fun i => TestFramework.exists_ fs (client_log log_dir i) = true)
                     (seq 0 num_clients)) /\
         Forall (fun c => Json.member ($"error") c = None) clients).
Proof.
  intros server_log analyze_logs.
  split; [|split; [|split; [|split; [|split; [|split; [|split; [|split]]]]]]].
  - intros path Hnone. unfold LogAnalyzer.parse, LogAnalyzer.open_r. by rewrite Hnone.
  - intros path Hu. unfold LogAnalyzer.parse, LogAnalyzer.open_r. by rewrite Hu.
  - intros log_files path output Hin Hbad. unfold ReportGenerator.main.
    assert (He : exists e, ReportGenerator.analyze_all fs log_files = Raise e).
    { induction log_files as [|p ps IH]; [destruct Hin|].
      simpl. destruct (LogAnalyzer.parse fs p) as [r|e] eqn:Hp; [|eauto].
      destruct Hin as [->|Hin].
      - unfold LogAnalyzer.parse, LogAnalyzer.open_r in Hp.
        by destruct Hbad as [Hb|Hb]; rewrite Hb in Hp.
      - destruct (IH Hin) as [e ->]. simpl. eauto. }
    destruct He as [e He]. exists e.
    destruct log_files; [destruct Hin|]. cbn [negb ReportGenerator.truthy].
    by rewrite He.
  - apply analyze_server_log_missing.
  - intros Hu. unfold analyze_logs, TestFramework._analyze_logs. fold server_log.
    by rewrite (analyze_server_log_unreadable _ _ _ Hu).
  - intros i Hi Hu. unfold analyze_logs, TestFramework._analyze_logs. fold server_log.
    destruct (TestFramework._analyze_server_log _ _ _) as [server|e];
      cbn [mbind result_bind]; [|eauto].
    rewrite (analyze_clients_unreadable underruns avg_delay fs log_dir _ i); [eauto| |exact Hu].
    apply in_seq. lia.
  - apply analyze_server_log_metrics.
  - intros lines e Hl Ha.
    pose proof (avg_snapshot_size_raises _ _ _ Ha) as ->. split; [reflexivity|].
    unfold analyze_logs, TestFramework._analyze_logs. fold server_log.
    by rewrite (analyze_server_log_overflow _ _ _ _ _ Hl Ha).
  - intros Hr server Hs.
    destruct (analyze_clients_existing underruns avg_delay fs log_dir (seq 0 num_clients) Hr)
      as (clients & Hc & Hlen & Hall).
    unfold analyze_logs, TestFramework._analyze_logs. fold server_log.
    rewrite Hs. cbn [mbind result_bind]. rewrite Hc. cbn [mbind result_bind].
    exists clients. by repeat split.
Qed.

(** A run without a server log, a run whose server log cannot be read,
    and a run whose server log holds a snapshot size of 400 digits. *)
Lemma C3_witness :
  (all_readable no_server_fs /\
   exists clients,
     TestFramework._analyze_logs true 4300 (fun _ => JInt 0) no_server_fs ($"run") 3 =
       Ok (JDict [ ($"server", not_found_entry); ($"clients", JList clients) ]) /\
     length clients = 1%nat) /\
  TestFramework._analyze_logs true 4300 (fun _ => JInt 0) locked_server_fs ($"run") 1 =
    Raise PermissionError /\
  TestFramework._analyze_logs true 4300 (fun _ => JInt 0) oversized_fs ($"run") 1 =
    Raise OverflowError.
Proof.
  assert (Hr : all_readable no_server_fs).
  { intros path. unfold no_server_fs.
    destruct (decide (path = $"run/client_1.log")) as [->|Hne].
    - rewrite lookup_singleton_eq. discriminate.
    - rewrite lookup_singleton_ne by done. discriminate. }
  split; [split; [exact Hr|]|split].
  - destruct (C3_missing_log_handling true 4300 (fun _ => JInt 0) no_server_fs ($"run") 3)
      as (_ & _ & _ & Hserver & _ & _ & _ & _ & Hrep).
    destruct (Hrep Hr not_found_entry (Hserver eq_refl)) as (clients & Hrun & Hlen & _).
    exists clients. split; [exact Hrun|]. rewrite Hlen. vm_compute. reflexivity.
  - destruct (C3_missing_log_handling true 4300 (fun _ => JInt 0) locked_server_fs ($"run") 1)
      as (_ & _ & _ & _ & Hlocked & _).
    apply Hlocked. vm_compute. reflexivity.
  - destruct (C3_missing_log_handling true 4300 (fun _ => JInt 0) oversized_fs ($"run") 1)
      as (_ & _ & _ & _ & _ & _ & _ & Hover & _).
    apply (Hover [oversized_line] OverflowError); vm_compute; reflexivity.
Defined.

(** * The pass of [parse] in closed form *)

Section Pass.
Import LogAnalyzer.

Ltac keep_field f := rewrite ?(when_proj f) by reflexivity.

Ltac split_levels :=
repeat case_bool_decide;
repeat match goal with
       | |- context [decide ?P] => destruct (decide P)
       end; simpl; try reflexivity; try lia;
try (exfalso; congruence);
try (exfalso;
     match goal with
     | H : ?x = _, H' : ?x = _ |- _ => rewrite H in H'; discriminate H'
     end).

Lemma parse_line_Some line e :
_parse_line line = Ok (Some e) -> raw_line e = line /\ matched line = true.
Proof.
unfold _parse_line, matched. destruct (Re.match_ LOG_PATTERN line) as [m|]; [|discriminate].
destruct (PyFloat.of_str (group m 1)); simpl; [|discriminate].
intros H. inversion H. by split.
Qed.

Lemma parse_line_unmatched line :
_parse_line line = Ok None -> matched line = false.
Proof.
unfold _parse_line, matched. destruct (Re.match_ LOG_PATTERN line) as [m|]; [|done].
destruct (PyFloat.of_str (group m 1)); simpl; discriminate.
Qed.

Lemma entry_of_cases line :
(entry_of line = None /\ matched (PyStr.strip line) = false /\
 forall r, parse_step r line = Ok (set_total_lines (total_lines r + 1) r)) \/
(exists e, entry_of line = Some e /\ _parse_line (PyStr.strip line) = Ok (Some e) /\
   forall r, parse_step r line =
     Ok (_update_metrics e
           (set_entries (entries r ++ [e]) (set_total_lines (total_lines r + 1) r)))).
Proof.
unfold entry_of, parse_step.
destruct (parse_line_total (PyStr.strip line)) as [[e|] He]; rewrite He; simpl.
- right. exists e. by repeat split.
- left. split; [done|]. split; [by apply parse_line_unmatched|done].
Qed.

Lemma omap_entry_cons l lines :
omap entry_of (l :: lines) =
match entry_of l with
| Some e => e :: omap entry_of lines
| None => omap entry_of lines
end.
Proof. reflexivity. Qed.

(** The loop appends the entries of the lines, in order, and counts
  the lines. *)
Lemma parse_loop_entries lines r r' :
parse_loop r lines = Ok r' ->
entries r' = entries r ++ omap entry_of lines /\
total_lines r' = total_lines r + Z.of_nat (length lines).
Proof.
revert r. induction lines as [|l lines IH]; intros r H; simpl in H.
- inversion H; subst. simpl. rewrite app_nil_r. split; [done|lia].
- destruct (parse_step r l) as [r1|] eqn:E; [|discriminate]. simpl in H.
  destruct (IH _ H) as [IH1 IH2]. rewrite IH1, IH2. clear IH IH1 IH2 H.
  destruct (entry_of_cases l) as [(Hn & _ & Hs)|(e & Hn & _ & Hs)];
    rewrite Hs in E; inversion E; subst r1; clear E; rewrite omap_entry_cons, Hn.
  + simpl. split; [done|lia].
  + rewrite update_entries, update_total_lines. simpl.
    rewrite <- app_assoc. simpl. split; [done|lia].
Qed.

Lemma entries_raw_lines lines :
map raw_line (omap entry_of lines) =
filter (fun l => matched l = true) (map PyStr.strip lines).
Proof.
induction lines as [|l lines IH]; [done|]. rewrite omap_entry_cons, map_cons.
destruct (entry_of_cases l) as [(Hn & Hm & _)|(e & Hn & He & _)]; rewrite Hn.
- rewrite filter_cons_False by (rewrite Hm; discriminate). exact IH.
- apply parse_line_Some in He as [Hraw Hm].
  rewrite filter_cons_True by exact Hm. rewrite map_cons. by rewrite Hraw, IH.
Qed.

Lemma entries_reparse lines :
Forall (fun e => _parse_line (raw_line e) = Ok (Some e)) (omap entry_of lines).
Proof.
induction lines as [|l lines IH]; [constructor|]. rewrite omap_entry_cons.
destruct (entry_of_cases l) as [(Hn & _)|(e & Hn & He & _)]; rewrite Hn; [exact IH|].
constructor; [|exact IH]. destruct (parse_line_Some _ _ He) as [-> _]. exact He.
Qed.

Lemma count_entries_app p es es' :
count_entries p (es ++ es') = count_entries p es + count_entries p es'.
Proof. unfold count_entries. rewrite filter_app, length_app. lia. Qed.

Lemma count_entries_one p e : count_entries p [e] = b2z (p e).
Proof.
unfold count_entries. rewrite filter_cons, filter_nil.
case_decide as Hd; [by rewrite Hd|]. by destruct (p e).
Qed.

Lemma count_entries_bounds p es : 0 <= count_entries p es <= Z.of_nat (length es).
Proof.
unfold count_entries. pose proof (length_filter (fun e => p e = true) es). lia.
Qed.

(** A counter that [_update_metrics] raises on the entries of a kind
  counts the entries of that kind. *)
Lemma parse_loop_counter (f : AnalysisResult -> Z) (p : LogEntry -> bool) :
(forall e r, f (_update_metrics e r) = f r + b2z (p e)) ->
(forall v r, f (set_total_lines v r) = f r) ->
(forall v r, f (set_entries v r) = f r) ->
forall lines r r',
  parse_loop r lines = Ok r' ->
  f r' = f r + count_entries p (omap entry_of lines).
Proof.
intros Hu Ht He. induction lines as [|l lines IH]; intros r r' H; simpl in H.
- inversion H; subst. unfold count_entries. simpl. lia.
- destruct (parse_step r l) as [r1|] eqn:E; [|discriminate]. simpl in H.
  rewrite (IH _ _ H). clear IH H.
  destruct (entry_of_cases l) as [(Hn & _ & Hs)|(e & Hn & _ & Hs)];
    rewrite Hs in E; inversion E; subst r1; clear E; rewrite omap_entry_cons, Hn.
  + rewrite Ht. lia.
  + rewrite Hu, He, Ht. change (e :: omap entry_of lines) with ([e] ++ omap entry_of lines).
    rewrite count_entries_app, count_entries_one. lia.
Qed.

Lemma update_errors e r :
errors (_update_metrics e r) = errors r + b2z (is_level ($"ERROR") e).
Proof.
unfold _update_metrics. cbv zeta. keep_field errors.
unfold is_level. split_levels.
Qed.

Lemma update_warnings e r :
warnings (_update_metrics e r) = warnings r + b2z (is_level ($"WARN") e).
Proof.
unfold _update_metrics. cbv zeta. keep_field warnings.
unfold is_level. split_levels.
Qed.

Lemma update_info e r :
info (_update_metrics e r) = info r + b2z (is_level ($"INFO") e).
Proof.
unfold _update_metrics. cbv zeta. keep_field info.
unfold is_level. split_levels.
Qed.

Lemma update_debug e r :
debug (_update_metrics e r) = debug r + b2z (is_level ($"DEBUG") e).
Proof.
unfold _update_metrics. cbv zeta. keep_field debug.
unfold is_level. split_levels.
Qed.

Lemma update_snapshots_sent e r :
snapshots_sent (_update_metrics e r) =
snapshots_sent r + b2z (in_category ($"SERVER_SNAPSHOT") e).
Proof.
unfold _update_metrics. cbv zeta. keep_field snapshots_sent.
rewrite (when_bump snapshots_sent) by reflexivity.
unfold in_category. f_equal. split_levels.
Qed.

Lemma update_snapshots_received_cat e r :
snapshots_received (_update_metrics e r) =
snapshots_received r + b2z (in_category ($"CLIENT_SNAPSHOT") e).
Proof. apply update_snapshots_received. Qed.

Lemma update_packet_loss_events e r :
packet_loss_events (_update_metrics e r) =
packet_loss_events r + b2z (mentions ($"packet loss") e).
Proof.
unfold _update_metrics. cbv zeta. keep_field packet_loss_events.
rewrite (when_bump packet_loss_events) by reflexivity.
keep_field packet_loss_events.
unfold mentions. f_equal. split_levels.
Qed.

Lemma update_player_disappearances e r :
player_disappearances (_update_metrics e r) =
player_disappearances r +
b2z (in_category ($"CLIENT_ERROR") e && mentions ($"missing") e).
Proof.
unfold _update_metrics. cbv zeta. keep_field player_disappearances.
rewrite (when_bump player_disappearances) by reflexivity.
keep_field player_disappearances.
unfold mentions, in_category. f_equal. split_levels.
Qed.

Lemma update_chunk_changes e r :
chunk_changes (_update_metrics e r) =
chunk_changes r + b2z (in_category ($"SERVER_CHUNK") e && mentions ($"changed chunk") e).
Proof.
unfold _update_metrics. cbv zeta.
rewrite (when_bump chunk_changes) by reflexivity.
keep_field chunk_changes.
unfold mentions, in_category. f_equal. split_levels.
Qed.

Lemma update_start_time e r : start_time (_update_metrics e r) = start_time r.
Proof. unfold _update_metrics. cbv zeta. keep_field start_time. split_levels. Qed.

Lemma update_end_time e r : end_time (_update_metrics e r) = end_time r.
Proof. unfold _update_metrics. cbv zeta. keep_field end_time. split_levels. Qed.

End Pass.

Section Finished.
Import LogAnalyzer.

Lemma last_default {A} (l : list A) (d : A) :
List.last l d = from_option id d (last l).
Proof.
induction l as [|a l IH]; [done|].
destruct l as [|b l]; [done|]. exact IH.
Qed.

Lemma parse_loop_times lines r r' :
parse_loop r lines = Ok r' -> start_time r' = start_time r /\ end_time r' = end_time r.
Proof.
revert r. induction lines as [|l lines IH]; intros r H; simpl in H.
- by inversion H.
- destruct (parse_step r l) as [r1|] eqn:E; [|discriminate]. simpl in H.
  destruct (IH _ H) as [-> ->].
  destruct (entry_of_cases l) as [(_ & _ & Hs)|(e & _ & _ & Hs)];
    rewrite Hs in E; inversion E; subst r1; [done|].
  by rewrite update_start_time, update_end_time.
Qed.

(** The fields of a finished result that come from the loop. *)
Lemma parse_lines_entries log_path lines r :
parse_lines log_path lines = Ok r ->
filename r = log_path /\
total_lines r = Z.of_nat (length lines) /\
entries r = omap entry_of lines.
Proof.
intros H. destruct (parse_lines_finalized _ _ _ H) as (_ & _ & Hf & _).
destruct (parse_lines_counters _ _ _ H) as (r0 & Hl & He & Ht & _).
destruct (parse_loop_entries _ _ _ Hl) as [E1 E2].
rewrite He, Ht, E1, E2. by split.
Qed.

Lemma parse_lines_loop log_path lines r :
parse_lines log_path lines = Ok r ->
exists r0,
  parse_loop (new_result log_path) lines = Ok r0 /\
  entries r = entries r0 /\
  errors r = errors r0 /\ warnings r = warnings r0 /\
  info r = info r0 /\ debug r = debug r0 /\
  snapshots_sent r = snapshots_sent r0 /\
  snapshots_received r = snapshots_received r0 /\
  packet_loss_events r = packet_loss_events r0 /\
  baseline_mismatches r = baseline_mismatches r0 /\
  player_disappearances r = player_disappearances r0 /\
  interpolation_warnings r = interpolation_warnings r0 /\
  chunk_changes r = chunk_changes r0 /\
  start_time r = timestamp_or_zero (head (entries r0)) /\
  end_time r = timestamp_or_zero (last (entries r0)).
Proof.
intros H. apply parse_lines_inv in H as (r0 & Hl & ->). exists r0.
split; [exact Hl|]. destruct (parse_loop_times _ _ _ Hl) as [Hs He].
simpl in Hs, He. unfold set_timing.
destruct (entries r0) as [|e es] eqn:E; cbn; rewrite ?E.
- by repeat split.
- repeat split. rewrite last_default. cbn.
  change (last (e :: es)) with (last (e :: es)).
  by destruct (last (e :: es)) eqn:El; [|apply last_None in El].
Qed.

(** Every counter of a finished result counts the entries of its kind. *)
Lemma parse_lines_counts log_path lines r :
parse_lines log_path lines = Ok r ->
errors r = count_entries (is_level ($"ERROR")) (entries r) /\
warnings r = count_entries (is_level ($"WARN")) (entries r) /\
info r = count_entries (is_level ($"INFO")) (entries r) /\
debug r = count_entries (is_level ($"DEBUG")) (entries r) /\
snapshots_sent r = count_entries (in_category ($"SERVER_SNAPSHOT")) (entries r) /\
snapshots_received r = count_entries (in_category ($"CLIENT_SNAPSHOT")) (entries r) /\
packet_loss_events r = count_entries (mentions ($"packet loss")) (entries r) /\
baseline_mismatches r =
  count_entries (fun e => in_category ($"CLIENT_DELTA") e && mentions ($"mismatch") e)
    (entries r) /\
player_disappearances r =
  count_entries (fun e => in_category ($"CLIENT_ERROR") e && mentions ($"missing") e)
    (entries r) /\
chunk_changes r =
  count_entries (fun e => in_category ($"SERVER_CHUNK") e && mentions ($"changed chunk") e)
    (entries r).
Proof.
intros H. destruct (parse_lines_entries _ _ _ H) as (_ & _ & He). rewrite He.
destruct (parse_lines_loop _ _ _ H)
  as (r0 & Hl & _ & -> & -> & -> & -> & -> & -> & -> & -> & -> & _ & -> & _).
repeat split.
- exact (parse_loop_counter errors _ update_errors
           ltac:(done) ltac:(done) _ _ _ Hl).
- exact (parse_loop_counter warnings _ update_warnings
           ltac:(done) ltac:(done) _ _ _ Hl).
- exact (parse_loop_counter info _ update_info
           ltac:(done) ltac:(done) _ _ _ Hl).
- exact (parse_loop_counter debug _ update_debug
           ltac:(done) ltac:(done) _ _ _ Hl).
- exact (parse_loop_counter snapshots_sent _ update_snapshots_sent
           ltac:(done) ltac:(done) _ _ _ Hl).
- exact (parse_loop_counter snapshots_received _ update_snapshots_received_cat
           ltac:(done) ltac:(done) _ _ _ Hl).
- exact (parse_loop_counter packet_loss_events _ update_packet_loss_events
           ltac:(done) ltac:(done) _ _ _ Hl).
- exact (parse_loop_counter baseline_mismatches _ update_baseline_mismatches
           ltac:(done) ltac:(done) _ _ _ Hl).
- exact (parse_loop_counter player_disappearances _ update_player_disappearances
           ltac:(done) ltac:(done) _ _ _ Hl).
- exact (parse_loop_counter chunk_changes _ update_chunk_changes
           ltac:(done) ltac:(done) _ _ _ Hl).
Qed.

End Finished.

(** * Properties of [parse] *)

(** X1: a finished result keeps the path it was given, counts every line
    of the file, and holds one entry for each line that the pattern
    matches once stripped, in the order of the file: the raw lines of
    the entries are the matched stripped lines, and each entry is the
    parse of its raw line. *)
Theorem X1_parse_entries_in_order (log_path : str) (lines : list str) (r : AnalysisResult) :
  LogAnalyzer.parse_lines log_path lines = Ok r ->
  filename r = log_path /\
  total_lines r = Z.of_nat (length lines) /\
  map raw_line (entries r) =
    filter (fun l => matched l = true) (map PyStr.strip lines) /\
  Forall (fun e => LogAnalyzer._parse_line (raw_line e) = Ok (Some e)) (entries r).
Proof.
  intros H. destruct (parse_lines_entries _ _ _ H) as (Hf & Ht & He).
  rewrite He. repeat split; try assumption.
  - apply entries_raw_lines.
  - apply entries_reparse.
Qed.

Lemma X1_witness :
  let r := finalized ($"logs/server.log") short_log in
  LogAnalyzer.parse_lines ($"logs/server.log") short_log = Ok r /\
  total_lines r = 3 /\
  map raw_line (entries r) =
    [ $"[0.5] [INFO] [SERVER_SNAPSHOT] Snapshot #1 sent to peer 2 | size=40";
      $"[2.25] [ERROR] [CLIENT_ERROR] Player entity missing from snapshot" ].
Proof.
  intros r.
  assert (H : LogAnalyzer.parse_lines ($"logs/server.log") short_log = Ok r)
    by (vm_compute; reflexivity).
  split; [exact H|].
  destruct (X1_parse_entries_in_order _ _ _ H) as (_ & Ht & Hraw & _).
  split; [exact Ht|]. rewrite Hraw. vm_compute. reflexivity.
Defined.

(** X2: in a finished result every counter is the number of entries that
    pass the test of its rule in [_update_metrics]: the four level
    counters count the entries of level ERROR, WARN, INFO and DEBUG,
    the snapshot counters the entries of category SERVER_SNAPSHOT and
    CLIENT_SNAPSHOT, and the others the entries whose lower-cased
    message holds the key text (for three of them, within one
    category). *)
Theorem X2_counters_count_entries (log_path : str) (lines : list str) (r : AnalysisResult) :
  LogAnalyzer.parse_lines log_path lines = Ok r ->
  errors r = count_entries (is_level ($"ERROR")) (entries r) /\
  warnings r = count_entries (is_level ($"WARN")) (entries r) /\
  info r = count_entries (is_level ($"INFO")) (entries r) /\
  debug r = count_entries (is_level ($"DEBUG")) (entries r) /\
  snapshots_sent r = count_entries (in_category ($"SERVER_SNAPSHOT")) (entries r) /\
  snapshots_received r = count_entries (in_category ($"CLIENT_SNAPSHOT")) (entries r) /\
  packet_loss_events r = count_entries (mentions ($"packet loss")) (entries r) /\
  baseline_mismatches r =
    count_entries (fun e => in_category ($"CLIENT_DELTA") e && mentions ($"mismatch") e)
      (entries r) /\
  player_disappearances r =
    count_entries (fun e => in_category ($"CLIENT_ERROR") e && mentions ($"missing") e)
      (entries r) /\
  chunk_changes r =
    count_entries (fun e => in_category ($"SERVER_CHUNK") e && mentions ($"changed chunk") e)
      (entries r).
Proof. apply parse_lines_counts. Qed.

Lemma X2_witness :
  let r := finalized ($"logs/server.log") short_log in
  LogAnalyzer.parse_lines ($"logs/server.log") short_log = Ok r /\
  errors r = 1 /\ info r = 1 /\ snapshots_sent r = 1 /\ player_disappearances r = 1.
Proof.
  intros r.
  assert (H : LogAnalyzer.parse_lines ($"logs/server.log") short_log = Ok r)
    by (vm_compute; reflexivity).
  split; [exact H|].
  destruct (X2_counters_count_entries _ _ _ H)
    as (He & _ & Hi & _ & Hs & _ & _ & _ & Hp & _).
  rewrite He, Hi, Hs, Hp. vm_compute. by repeat split.
Defined.

(** X3: the start time of a finished result is the time stamp of its
    first entry and the end time that of its last entry, whatever the
    order of the time stamps in the file; without any entry both stay
    [0.0]. *)
Theorem X3_timing_first_and_last (log_path : str) (lines : list str) (r : AnalysisResult) :
  LogAnalyzer.parse_lines log_path lines = Ok r ->
  start_time r = timestamp_or_zero (head (entries r)) /\
  end_time r = timestamp_or_zero (last (entries r)).
Proof.
  intros H.
  destruct (parse_lines_loop _ _ _ H)
    as (r0 & _ & -> & _ & _ & _ & _ & _ & _ & _ & _ & _ & _ & _ & Hs & He).
  by split.
Qed.

Lemma X3_witness :
  let r := finalized ($"logs/server.log") (rev short_log) in
  LogAnalyzer.parse_lines ($"logs/server.log") (rev short_log) = Ok r /\
  start_time r = PyFloat.of_decimal ($"2") ($"25") /\
  end_time r = PyFloat.of_decimal ($"0") ($"5").
Proof.
  intros r.
  assert (H : LogAnalyzer.parse_lines ($"logs/server.log") (rev short_log) = Ok r)
    by (vm_compute; reflexivity).
  split; [exact H|].
  destruct (X3_timing_first_and_last _ _ _ H) as [-> ->].
  vm_compute. by split.
Defined.

(** X4: the pass is additive over the concatenation of two files: the
    result for the lines of one file followed by those of another has
    the entries of the first followed by the entries of the second, and
    each of its counters is the sum of the counters of the two. *)
Theorem X4_counters_additive (p1 p2 p : str) (l1 l2 : list str) (r1 r2 r : AnalysisResult) :
  LogAnalyzer.parse_lines p1 l1 = Ok r1 ->
  LogAnalyzer.parse_lines p2 l2 = Ok r2 ->
  LogAnalyzer.parse_lines p (l1 ++ l2) = Ok r ->
  entries r = entries r1 ++ entries r2 /\
  total_lines r = total_lines r1 + total_lines r2 /\
  errors r = errors r1 + errors r2 /\
  warnings r = warnings r1 + warnings r2 /\
  info r = info r1 + info r2 /\
  debug r = debug r1 + debug r2 /\
  snapshots_sent r = snapshots_sent r1 + snapshots_sent r2 /\
  snapshots_received r = snapshots_received r1 + snapshots_received r2 /\
  packet_loss_events r = packet_loss_events r1 + packet_loss_events r2 /\
  baseline_mismatches r = baseline_mismatches r1 + baseline_mismatches r2 /\
  player_disappearances r = player_disappearances r1 + player_disappearances r2 /\
  interpolation_warnings r = interpolation_warnings r1 + interpolation_warnings r2 /\
  chunk_changes r = chunk_changes r1 + chunk_changes r2.
Proof.
  intros H1 H2 H.
  destruct (parse_lines_entries _ _ _ H1) as (_ & T1 & E1).
  destruct (parse_lines_entries _ _ _ H2) as (_ & T2 & E2).
  destruct (parse_lines_entries _ _ _ H) as (_ & T & E).
  assert (Happ : entries r = entries r1 ++ entries r2)
    by (by rewrite E, E1, E2, omap_app).
  destruct (parse_lines_finalized _ _ _ H1) as (_ & _ & _ & _ & I1).
  destruct (parse_lines_finalized _ _ _ H2) as (_ & _ & _ & _ & I2).
  destruct (parse_lines_finalized _ _ _ H) as (_ & _ & _ & _ & I).
  destruct (parse_lines_counts _ _ _ H1)
    as (A1 & A2 & A3 & A4 & A5 & A6 & A7 & A8 & A9 & A10).
  destruct (parse_lines_counts _ _ _ H2)
    as (B1 & B2 & B3 & B4 & B5 & B6 & B7 & B8 & B9 & B10).
  destruct (parse_lines_counts _ _ _ H)
    as (C1 & C2 & C3 & C4 & C5 & C6 & C7 & C8 & C9 & C10).
  rewrite Happ, count_entries_app in C1, C2, C3, C4, C5, C6, C7, C8, C9, C10, I.
  split; [exact Happ|]. split; [rewrite T, T1, T2, length_app; lia|].
  repeat split; congruence.
Qed.

Lemma X4_witness :
  let a := finalized ($"a.log") short_log in
  let b := finalized ($"b.log") [info_line] in
  let r := finalized ($"ab.log") (short_log ++ [info_line]) in
  LogAnalyzer.parse_lines ($"a.log") short_log = Ok a /\
  LogAnalyzer.parse_lines ($"b.log") [info_line] = Ok b /\
  LogAnalyzer.parse_lines ($"ab.log") (short_log ++ [info_line]) = Ok r /\
  total_lines r = 4 /\ info r = 2.
Proof.
  intros a b r.
  assert (Ha : LogAnalyzer.parse_lines ($"a.log") short_log = Ok a)
    by (vm_compute; reflexivity).
  assert (Hb : LogAnalyzer.parse_lines ($"b.log") [info_line] = Ok b)
    by (vm_compute; reflexivity).
  assert (Hr : LogAnalyzer.parse_lines ($"ab.log") (short_log ++ [info_line]) = Ok r)
    by (vm_compute; reflexivity).
  split; [exact Ha|]. split; [exact Hb|]. split; [exact Hr|].
  destruct (X4_counters_additive _ _ _ _ _ _ _ _ Ha Hb Hr)
    as (_ & Ht & _ & _ & Hi & _).
  rewrite Ht, Hi. vm_compute. by split.
Defined.

(** X5: a file without any line that the pattern matches (the empty
    file for one) gives the initial result with its line counter set to
    the number of lines, no entry, no warning, both times [0.0], and as
    critical issues the zero-snapshot issues of its path: "Server sent 0
    snapshots" when the lower-cased path contains "server", then
    "Client received 0 snapshots" when it contains "client". *)
Theorem X5_unstructured_file (log_path : str) (lines : list str) :
  Forall (fun l => matched (PyStr.strip l) = false) lines ->
  LogAnalyzer.parse_lines log_path lines =
  Ok (set_critical_issues (zero_snapshot_issues log_path)
        (set_total_lines (Z.of_nat (length lines)) (new_result log_path))).
Proof.
  intros Hall.
  assert (Hloop : forall r,
    LogAnalyzer.parse_loop r lines =
    Ok (set_total_lines (total_lines r + Z.of_nat (length lines)) r)).
  { induction Hall as [|l lines Hl Hall IH]; intros r.
    - simpl. rewrite Z.add_0_r. by destruct r.
    - cbn [LogAnalyzer.parse_loop].
      destruct (entry_of_cases l) as [(_ & _ & Hs)|(e & _ & He & _)].
      + rewrite Hs. cbn [mbind result_bind]. rewrite IH. f_equal.
        unfold set_total_lines. cbn. f_equal. lia.
      + apply parse_line_Some in He as [_ He]. congruence. }
  unfold LogAnalyzer.parse_lines. rewrite Hloop. cbn [mbind result_bind].
  unfold LogAnalyzer._detect_issues, LogAnalyzer.set_timing, zero_snapshot_issues, when.
  cbn. by destruct (PyStr.contains _ (PyStr.lower log_path)),
                  (PyStr.contains _ (PyStr.lower log_path)).
Qed.

Lemma X5_witness :
  Forall (fun l => matched (PyStr.strip l) = false) [noise_line; $"  "] /\
  LogAnalyzer.parse_lines ($"logs/client_0.log") [noise_line; $"  "] =
  Ok (set_critical_issues [LogAnalyzer.client_issue]
        (set_total_lines 2 (new_result ($"logs/client_0.log")))).
Proof.
  assert (H : Forall (fun l => matched (PyStr.strip l) = false) [noise_line; $"  "])
    by (repeat constructor).
  split; [exact H|].
  exact (X5_unstructured_file ($"logs/client_0.log") _ H).
Defined.

(** X6: [_parse_line] never raises: on a line that the pattern matches,
    [float] accepts the captured time stamp and an entry is returned;
    on any other line the result is [None]. *)
Theorem X6_parse_line_never_raises (line : str) :
  exists o,
    LogAnalyzer._parse_line line = Ok o /\
    (is_Some o <-> matched line = true).
Proof.
  destruct (parse_line_total line) as [[e|] H]; eexists; (split; [exact H|]).
  - apply parse_line_Some in H as [_ ->]. split; eauto.
  - apply parse_line_unmatched in H as ->. split; [intros [? ?]|]; discriminate.
Qed.

(** X7: [parse] returns a result for every log that can be read and has
    fewer than [2^53] lines: neither the parser nor the mismatch rate
    raises. *)
Theorem X7_parse_returns (fs : gmap str LogAnalyzer.file) (log_path : str)
    (lines : list str) :
  fs !! log_path = Some (LogAnalyzer.Text lines) ->
  Z.of_nat (length lines) < 9007199254740992 ->
  exists r, LogAnalyzer.parse fs log_path = Ok r.
Proof.
  intros Hf Hlen. unfold LogAnalyzer.parse, LogAnalyzer.open_r. rewrite Hf.
  cbn [mbind result_bind]. by apply parse_lines_total.
Qed.

Lemma X7_witness :
  unreadable_fs !! $"logs/server.log" = Some (LogAnalyzer.Text [info_line]) /\
  Z.of_nat (length [info_line]) < 9007199254740992 /\
  exists r, LogAnalyzer.parse unreadable_fs ($"logs/server.log") = Ok r.
Proof.
  assert (Hf : unreadable_fs !! $"logs/server.log" = Some (LogAnalyzer.Text [info_line]))
    by (vm_compute; reflexivity).
  assert (Hlen : Z.of_nat (length [info_line]) < 9007199254740992)
    by (vm_compute; reflexivity).
  split; [exact Hf|]. split; [exact Hlen|].
  exact (X7_parse_returns _ _ _ Hf Hlen).
Defined.

(** * Stripping *)

Section Strip.
Import PyStr.

Lemma dropwhile_spec p s :
exists w, s = w ++ dropwhile p s /\ forallb p w = true /\ stops p (dropwhile p s).
Proof.
induction s as [|c s (w & Hs & Hw & Hstop)]; simpl.
- by exists [].
- destruct (p c) eqn:Hc.
  + exists (c :: w). simpl. rewrite Hc, Hw. split; [by f_equal|done].
  + by exists [].
Qed.

Lemma dropwhile_stops p s : stops p s -> dropwhile p s = s.
Proof. destruct s as [|c s]; simpl; [done|]. by intros ->. Qed.

Lemma forallb_dropwhile q p s :
forallb q s = true -> forallb q (dropwhile p s) = true.
Proof.
induction s as [|c s IH]; simpl; [done|]. intros H.
destruct (p c); [|exact H]. apply andb_true_iff in H as [_ H]. auto.
Qed.

Lemma forallb_rev_true q (s : str) : forallb q s = true -> forallb q (rev s) = true.
Proof.
rewrite !forallb_forall. intros H x Hx. apply H. by apply in_rev.
Qed.

(** Stripping keeps a property of all characters. *)
Lemma strip_forallb q s : forallb q s = true -> forallb q (strip s) = true.
Proof.
intros H. unfold strip, rstrip, lstrip.
apply forallb_rev_true, forallb_dropwhile, forallb_rev_true, forallb_dropwhile, H.
Qed.

(** A stripped text has no blank at either end. *)
Lemma strip_ends s : stops isspace (strip s) /\ stops isspace (rev (strip s)).
Proof.
unfold strip, rstrip, lstrip.
destruct (dropwhile_spec isspace s) as (w1 & _ & _ & Ht).
set (t := dropwhile isspace s) in *.
destruct (dropwhile_spec isspace (rev t)) as (w2 & Hr & _ & Hd).
set (d := dropwhile isspace (rev t)) in *.
split; [|by rewrite rev_involutive].
assert (Et : t = rev d ++ rev w2).
{ rewrite <- (rev_involutive t), Hr, rev_app_distr. done. }
destruct (rev d) as [|c u] eqn:E; [done|].
rewrite Et in Ht. exact Ht.
Qed.

Lemma strip_fixed s :
stops isspace s -> stops isspace (rev s) -> strip s = s.
Proof.
intros H1 H2. unfold strip, rstrip, lstrip.
rewrite (dropwhile_stops _ _ H1), (dropwhile_stops _ _ H2). apply rev_involutive.
Qed.

Lemma strip_idempotent s : strip (strip s) = strip s.
Proof. destruct (strip_ends s). by apply strip_fixed. Qed.

End Strip.

(** * The fields of a parsed entry *)

(** X8: whatever the line, an entry that [_parse_line] returns keeps the
    line as its raw line; its level is a non-empty run of word
    characters and its category a non-empty text without "]"; its
    message holds no "|" and has no blank at either end; and its time
    stamp is the float of the digits, point and digits that open the
    line in brackets. *)
Theorem X8_parsed_entry_shape (line : str) (e : LogEntry) :
  LogAnalyzer._parse_line line = Ok (Some e) ->
  raw_line e = line /\
  run_of PyStr.isword (level e) /\
  run_of (Re.none_of "]") (category e) /\
  forallb (Re.none_of "|") (message e) = true /\
  PyStr.strip (message e) = message e /\
  exists i f rest,
    line = $"[" ++ i ++ $"." ++ f ++ $"]" ++ rest /\
    run_of PyStr.isdigit i /\ run_of PyStr.isdigit f /\
    timestamp e = PyFloat.of_decimal i f.
Proof.
  intros H. unfold LogAnalyzer._parse_line in H.
  destruct (Re.match_ LogAnalyzer.LOG_PATTERN line) as [m|] eqn:Hm; [|discriminate].
  apply match_inv in Hm
    as (i & f & sp1 & lvl & sp2 & cat & sp3 & g4 & rest & Hline & Hh & _ & Hg4 &
        H1 & H2 & H3 & H4).
  destruct Hh as (Hi & Hf & _ & Hlvl & _ & Hcat).
  unfold LogAnalyzer.group in H. rewrite H1, H2, H3, H4 in H. simpl default in H.
  change (i ++ $"." ++ f) with (i ++ "."%char :: f) in H.
  rewrite (of_str_decimal i f Hi Hf) in H. cbn [mbind result_bind] in H.
  inversion H; subst e; clear H. cbn [raw_line level category message timestamp].
  split; [done|]. split; [exact Hlvl|]. split; [exact Hcat|].
  split; [apply strip_forallb, Hg4|]. split; [apply strip_idempotent|].
  exists i, f, (sp1 ++ $"[" ++ lvl ++ $"]" ++ sp2 ++ $"[" ++ cat ++ $"]" ++ sp3 ++ g4 ++ rest).
  split; [|split; [exact Hi|split; [exact Hf|reflexivity]]].
  rewrite Hline. unfold header. by rewrite <- !app_assoc.
Qed.

Lemma X8_witness :
  exists e,
    LogAnalyzer._parse_line ($"[7.5] [WARN] [NET]  late  |x") = Ok (Some e) /\
    level e = $"WARN" /\ message e = $"late" /\
    forallb (Re.none_of "|") (message e) = true /\
    PyStr.strip (message e) = message e.
Proof.
  eexists.
  assert (H : LogAnalyzer._parse_line ($"[7.5] [WARN] [NET]  late  |x") = Ok (Some _))
    by (vm_compute; reflexivity).
  split; [exact H|].
  destruct (X8_parsed_entry_shape _ _ H) as (_ & _ & _ & Hm & Hs & _).
  split; [reflexivity|]. split; [reflexivity|]. split; [exact Hm|exact Hs].
Defined.

(** * The summary and the texts derived from it *)

Section Summary.
Import ReportGenerator.

Lemma fold_flags results s :
has_critical_issues (fold_left summary_step results s) =
  has_critical_issues s || existsb (fun r => truthy (critical_issues r)) results /\
has_warnings (fold_left summary_step results s) =
  has_warnings s || existsb (fun r => truthy (warnings_list r)) results.
Proof.
revert s. induction results as [|r results IH]; intros s; simpl.
- by rewrite !orb_false_r.
- destruct (IH (summary_step s r)) as [-> ->]. simpl.
  by destruct (truthy (critical_issues r)), (truthy (warnings_list r)),
    (has_critical_issues s), (has_warnings s).
Qed.

Lemma truthy_true {A} (l : list A) : truthy l = true <-> l <> [].
Proof. by destruct l. Qed.

Lemma has_critical_issues_iff results :
has_critical_issues (_calculate_summary results) = true <->
exists r, In r results /\ critical_issues r <> [].
Proof.
unfold _calculate_summary. rewrite (proj1 (fold_flags results empty_summary)).
simpl. rewrite existsb_exists. by setoid_rewrite truthy_true.
Qed.

Lemma has_warnings_iff results :
has_warnings (_calculate_summary results) = true <->
exists r, In r results /\ warnings_list r <> [].
Proof.
unfold _calculate_summary. rewrite (proj2 (fold_flags results empty_summary)).
simpl. rewrite existsb_exists. by setoid_rewrite truthy_true.
Qed.

End Summary.

(** X9: the flag [has_critical_issues] of the summary is set exactly
    when some analysed file has a critical issue, and [has_warnings]
    exactly when some file has a warning. *)
Theorem X9_summary_flags (results : list AnalysisResult) :
  (ReportGenerator.has_critical_issues (ReportGenerator._calculate_summary results) = true <->
   exists r, In r results /\ critical_issues r <> []) /\
  (ReportGenerator.has_warnings (ReportGenerator._calculate_summary results) = true <->
   exists r, In r results /\ warnings_list r <> []).
Proof. split; [apply has_critical_issues_iff|apply has_warnings_iff]. Qed.

Section Suggestions.
Import PyStr LogAnalyzer ReportGenerator.

Lemma startswith_app p a b : startswith p a = true -> startswith p (a ++ b) = true.
Proof.
revert a. induction p as [|c p IH]; intros a; [done|].
destruct a as [|d a]; simpl; [done|].
intros H. apply andb_true_iff in H as [-> H]. by rewrite IH.
Qed.

Lemma contains_app_l n a b : contains n a = true -> contains n (a ++ b) = true.
Proof.
induction a as [|c a IH]; simpl.
- rewrite orb_false_r. intros H. destruct b; simpl.
  + by rewrite H.
  + change (startswith n (a :: b)) with (startswith n ([] ++ a :: b)).
    by rewrite (startswith_app n [] (a :: b) H).
- intros H. apply orb_true_iff in H as [H|H].
  + change (c :: a ++ b) with ((c :: a) ++ b). by rewrite (startswith_app _ _ _ H).
  + by rewrite (IH H), orb_true_r.
Qed.

Lemma suggest_fix_disappearance n :
_suggest_fix (disappearance_issue n) = disappearance_fix.
Proof.
unfold _suggest_fix, disappearance_issue, lower. rewrite map_app.
by rewrite contains_app_l.
Qed.

Lemma suggest_fix_zero_snapshots :
_suggest_fix server_issue = no_suggestion /\ _suggest_fix client_issue = no_suggestion.
Proof. split; reflexivity. Qed.

End Suggestions.

(** X10: for every critical issue that the analyzer records,
    [_suggest_fix] returns one of two texts: the delta-compression
    advice for the player-disappearance issue, and "No specific
    suggestion available." for the two zero-snapshot issues. Its
    branches for interpolation warnings and baseline mismatches are
    never taken on a recorded critical issue. *)
Theorem X10_suggested_fixes (log_path : str) (lines : list str) (r : AnalysisResult)
    (issue : str) :
  LogAnalyzer.parse_lines log_path lines = Ok r ->
  In issue (critical_issues r) ->
  (issue = LogAnalyzer.disappearance_issue (player_disappearances r) /\
   ReportGenerator._suggest_fix issue = ReportGenerator.disappearance_fix) \/
  ((issue = LogAnalyzer.server_issue \/ issue = LogAnalyzer.client_issue) /\
   ReportGenerator._suggest_fix issue = ReportGenerator.no_suggestion).
Proof.
  intros H Hin. destruct (parse_lines_finalized _ _ _ H) as (_ & Hc & _).
  rewrite Hc in Hin. unfold critical_of in Hin.
  rewrite !in_app_iff, !in_if_singleton in Hin.
  destruct Hin as [[_ <-]|[[_ <-]|[_ <-]]].
  - left. split; [done|apply suggest_fix_disappearance].
  - right. split; [by left|apply suggest_fix_zero_snapshots].
  - right. split; [by right|apply suggest_fix_zero_snapshots].
Qed.

Lemma X10_witness :
  LogAnalyzer.parse_lines ($"logs/client_0.log") (snapshot_line :: repeat disappearance_line 2)
    = Ok faulty_result /\
  In (LogAnalyzer.disappearance_issue 2) (critical_issues faulty_result) /\
  ReportGenerator._suggest_fix (LogAnalyzer.disappearance_issue 2) =
    ReportGenerator.disappearance_fix.
Proof.
  assert (H : LogAnalyzer.parse_lines ($"logs/client_0.log")
                (snapshot_line :: repeat disappearance_line 2) = Ok faulty_result)
    by (vm_compute; reflexivity).
  assert (Hin : In (LogAnalyzer.disappearance_issue 2) (critical_issues faulty_result))
    by (vm_compute; left; reflexivity).
  split; [exact H|]. split; [exact Hin|].
  destruct (X10_suggested_fixes _ _ _ _ H Hin) as [[_ E]|[[E|E] _]];
    [exact E|discriminate E|discriminate E].
Defined.

Section Recommendations.
Import PyStr LogAnalyzer ReportGenerator.

Lemma analysed_counters r :
analysed r -> 0 <= player_disappearances r /\ 0 <= interpolation_warnings r.
Proof.
intros (log_path & lines & H).
destruct (parse_lines_counts _ _ _ H) as (_ & _ & _ & _ & _ & _ & _ & _ & Hp & _).
destruct (parse_lines_finalized _ _ _ H) as (_ & _ & _ & _ & Hi).
rewrite Hp, Hi. split; apply count_entries_bounds.
Qed.

Lemma total_positive (f : AnalysisResult -> Z) results :
Forall (fun r => 0 <= f r) results ->
0 <= total f results /\
(0 < total f results <-> exists r, In r results /\ 0 < f r).
Proof.
induction 1 as [|r results Hr Hall (IH0 & IH)]; unfold total in *; simpl.
- split; [lia|]. split; [lia|]. by intros (r & [] & _).
- split; [lia|]. split.
  + intros H. destruct (Z.ltb_spec 0 (f r)) as [Hf|Hf].
    * exists r. by split; [left|].
    * destruct (proj1 IH ltac:(lia)) as (r' & Hin & Hpos). exists r'. by split; [right|].
  + intros (r' & [<-|Hin] & Hpos); [lia|].
    assert (0 < fold_right Z.add 0 (map f results)) by (apply IH; eauto). lia.
Qed.

Lemma disappearance_issue_iff r :
analysed r ->
In (disappearance_issue (player_disappearances r)) (critical_issues r) <->
0 < player_disappearances r.
Proof.
intros (log_path & lines & H).
destruct (parse_lines_finalized _ _ _ H) as (_ & Hc & _).
rewrite Hc. unfold critical_of. rewrite !in_app_iff, !in_if_singleton.
destruct (disappearance_not_zero_snapshots (player_disappearances r)) as [N1 N2].
rewrite Z.ltb_lt. split.
- intros [[Hp _]|[[_ E]|[_ E]]]; [exact Hp|by destruct N1|by destruct N2].
- intros Hp. left. by split.
Qed.

End Recommendations.

(** X11: for analysed files, the recommendations start with "1. **Fix
    delta compression" exactly when some file carries the
    player-disappearance issue among its critical issues, and they are
    the single line "No recommendations - system is working as
    expected!" exactly when no file counted a disappearance and the
    interpolation warnings of all files together are at most 50. *)
Theorem X11_recommendations (results : list AnalysisResult) :
  Forall analysed results ->
  let text :=
    ReportGenerator._generate_recommendations (ReportGenerator._calculate_summary results) in
  (PyStr.startswith ReportGenerator.delta_recommendation text = true <->
   exists r, In r results /\
     In (LogAnalyzer.disappearance_issue (player_disappearances r)) (critical_issues r)) /\
  (text = ReportGenerator.no_recommendation ++ PyStr.nl ++ PyStr.nl <->
   (forall r, In r results -> player_disappearances r = 0) /\
   total interpolation_warnings results <= 50).
Proof.
  intros Hall text.
  assert (Hp : Forall (fun r => 0 <= player_disappearances r) results).
  { eapply Forall_impl; [exact Hall|]. intros r Hr. apply (analysed_counters r Hr). }
  destruct (total_positive player_disappearances results Hp) as [Hp0 Hpos].
  destruct (summary_fold results ReportGenerator.empty_summary)
    as (_ & _ & _ & _ & H5 & H6).
  cbn [ReportGenerator.total_player_disappearances
       ReportGenerator.total_interpolation_warnings
       ReportGenerator.empty_summary] in H5, H6.
  rewrite Z.add_0_l in H5, H6.
  subst text. unfold ReportGenerator._generate_recommendations.
  fold (ReportGenerator._calculate_summary results) in H5, H6. rewrite H5, H6.
  assert (Hex : (exists r, In r results /\
             In (LogAnalyzer.disappearance_issue (player_disappearances r))
               (critical_issues r)) <->
          0 < total player_disappearances results).
  { rewrite Hpos. split; intros (r & Hin & Hr); exists r; (split; [exact Hin|]);
      rewrite List.Forall_forall in Hall; by apply (disappearance_issue_iff r (Hall r Hin)). }
  assert (Hzero : (forall r, In r results -> player_disappearances r = 0) <->
          ~ 0 < total player_disappearances results).
  { rewrite Hpos. rewrite List.Forall_forall in Hp. split.
    - intros Hz (r & Hin & Hr). rewrite (Hz r Hin) in Hr. lia.
    - intros Hn r Hin. destruct (Z.ltb_spec 0 (player_disappearances r)) as [Hlt|Hle].
      + destruct Hn. eauto.
      + pose proof (Hp r Hin). lia. }
  rewrite Hex, Hzero.
  destruct (Z.ltb_spec 0 (total player_disappearances results)) as [H1|H1];
    destruct (Z.ltb_spec 50 (total interpolation_warnings results)) as [H2|H2];
    cbn [app ReportGenerator.truthy]; (split; [split|split]); intros H;
    try reflexivity; try lia; try (by destruct H);
    try (vm_compute in H; discriminate H).
Qed.

Lemma X11_witness :
  Forall analysed [faulty_result; clean_result] /\
  PyStr.startswith ReportGenerator.delta_recommendation
    (ReportGenerator._generate_recommendations
       (ReportGenerator._calculate_summary [faulty_result; clean_result])) = true.
Proof.
  assert (H : Forall analysed [faulty_result; clean_result]).
  { constructor; [|constructor; [|constructor]].
    - exists ($"logs/client_0.log"), (snapshot_line :: repeat disappearance_line 2).
      vm_compute. reflexivity.
    - exists ($"logs/server.log"),
        [ $"[0.5] [INFO] [SERVER_SNAPSHOT] Snapshot #1 sent to peer 2 | size=40" ].
      vm_compute. reflexivity. }
  split; [exact H|].
  apply (proj1 (X11_recommendations _ H)).
  exists faulty_result. split; [by left|]. vm_compute. left. reflexivity.
Defined.

(** * The Markdown report *)

Section Markdown.
Import ReportGenerator.

Ltac differ H :=
exfalso; unfold issue_bullet, warning_bullet, PyStr.nl in H;
cbn [app list_ascii_of_string] in H; discriminate H.

Ltac one_of H :=
cbn [In] in H;
repeat match type of H with
       | _ \/ _ => destruct H as [H|H]
       | False => destruct H
       end.

Lemma in_truthy {A} (x : A) l : In x l -> truthy l = true.
Proof. by destruct l. Qed.

Lemma markdown_issue_bullets results issue :
In (issue_bullet issue) (generate_markdown_report results) <->
exists r, In r results /\ In issue (critical_issues r).
Proof.
unfold generate_markdown_report. cbv zeta. split.
- intros Hin. rewrite !in_app_iff in Hin.
  destruct Hin as [H|[H|[H|[H|H]]]].
  + one_of H; differ H.
  + destruct (has_critical_issues _); [|destruct H].
    rewrite in_app_iff in H. destruct H as [H|H]; [one_of H; differ H|].
    apply in_flat_map in H as (r & Hr & H).
    destruct (truthy (critical_issues r)); [|destruct H].
    rewrite !in_app_iff in H. destruct H as [H|[H|H]].
    * one_of H; differ H.
    * apply in_map_iff in H as (i & E & Hi). fold (issue_bullet i) in E.
      unfold issue_bullet in E. apply app_inv_head, app_inv_tail in E. subst i.
      eauto.
    * one_of H; differ H.
  + destruct (has_warnings _); [|destruct H].
    rewrite in_app_iff in H. destruct H as [H|H]; [one_of H; differ H|].
    apply in_flat_map in H as (r & Hr & H).
    destruct (truthy (warnings_list r)); [|destruct H].
    rewrite !in_app_iff in H. destruct H as [H|[H|H]].
    * one_of H; differ H.
    * apply in_map_iff in H as (i & E & Hi). differ E.
    * one_of H; differ H.
  + one_of H; differ H.
  + apply in_flat_map in H as (r & Hr & H). one_of H; differ H.
- intros (r & Hr & Hi).
  assert (Hc : has_critical_issues (_calculate_summary results) = true).
  { apply has_critical_issues_iff. exists r. split; [exact Hr|]. by destruct (critical_issues r). }
  rewrite Hc, !in_app_iff. right. left. right.
  apply in_flat_map. exists r. split; [exact Hr|].
  rewrite (in_truthy _ _ Hi), !in_app_iff. right. left.
  apply in_map_iff. exists issue. by split.
Qed.

Lemma markdown_warning_bullets results warning :
In (warning_bullet warning) (generate_markdown_report results) <->
exists r, In r results /\ In warning (warnings_list r).
Proof.
unfold generate_markdown_report. cbv zeta. split.
- intros Hin. rewrite !in_app_iff in Hin.
  destruct Hin as [H|[H|[H|[H|H]]]].
  + one_of H; differ H.
  + destruct (has_critical_issues _); [|destruct H].
    rewrite in_app_iff in H. destruct H as [H|H]; [one_of H; differ H|].
    apply in_flat_map in H as (r & Hr & H).
    destruct (truthy (critical_issues r)); [|destruct H].
    rewrite !in_app_iff in H. destruct H as [H|[H|H]].
    * one_of H; differ H.
    * apply in_map_iff in H as (i & E & Hi). differ E.
    * one_of H; differ H.
  + destruct (has_warnings _); [|destruct H].
    rewrite in_app_iff in H. destruct H as [H|H]; [one_of H; differ H|].
    apply in_flat_map in H as (r & Hr & H).
    destruct (truthy (warnings_list r)); [|destruct H].
    rewrite !in_app_iff in H. destruct H as [H|[H|H]].
    * one_of H; differ H.
    * apply in_map_iff in H as (i & E & Hi). fold (warning_bullet i) in E.
      unfold warning_bullet in E. apply app_inv_head, app_inv_tail in E. subst i.
      eauto.
    * one_of H; differ H.
  + one_of H; differ H.
  + apply in_flat_map in H as (r & Hr & H). one_of H; differ H.
- intros (r & Hr & Hi).
  assert (Hc : has_warnings (_calculate_summary results) = true).
  { apply has_warnings_iff. exists r. split; [exact Hr|]. by destruct (warnings_list r). }
  rewrite Hc, !in_app_iff. right. right. left. right.
  apply in_flat_map. exists r. split; [exact Hr|].
  rewrite (in_truthy _ _ Hi), !in_app_iff. right. left.
  apply in_map_iff. exists warning. by split.
Qed.

End Markdown.

(** X12: the Markdown report lists the recorded issues and nothing
    else as issues: among the texts it writes, the bullet of an issue
    ("- ❌ issue") occurs exactly when some analysed file has that
    critical issue, and the bullet of a warning ("- ⚠️ warning") exactly
    when some file has that warning. *)
Theorem X12_markdown_lists_issues (results : list AnalysisResult) :
  (forall issue,
     In (issue_bullet issue) (ReportGenerator.generate_markdown_report results) <->
     exists r, In r results /\ In issue (critical_issues r)) /\
  (forall warning,
     In (warning_bullet warning) (ReportGenerator.generate_markdown_report results) <->
     exists r, In r results /\ In warning (warnings_list r)).
Proof.
  split; [intros issue; apply markdown_issue_bullets|
          intros warning; apply markdown_warning_bullets].
Qed.

(** * The debugging summary *)

Section DebugSummary.
Import ReportGenerator.

Lemma status_text results :
generate_claude_summary results !! 3%nat =
Some (if negb (has_critical_issues (_calculate_summary results))
         && negb (has_warnings (_calculate_summary results))
      then all_passed else issues_found).
Proof. reflexivity. Qed.

Lemma no_flag_iff results :
negb (has_critical_issues (_calculate_summary results))
  && negb (has_warnings (_calculate_summary results)) = true <->
forall r, In r results -> critical_issues r = [] /\ warnings_list r = [].
Proof.
rewrite andb_true_iff, !negb_true_iff, <- !not_true_iff_false.
rewrite has_critical_issues_iff, has_warnings_iff. split.
- intros [Hc Hw] r Hr. split.
  + destruct (critical_issues r) eqn:E; [done|]. destruct Hc. exists r. by rewrite E.
  + destruct (warnings_list r) eqn:E; [done|]. destruct Hw. exists r. by rewrite E.
- intros H. split; intros (r & Hr & Hne); by destruct (H r Hr).
Qed.

End DebugSummary.

(** X13: the quick status of the debugging summary, the fourth text it
    writes, is "All tests passed!" exactly when no analysed file has a
    critical issue or a warning, and "Issues detected." otherwise; the
    counters of errors play no part in it. *)
Theorem X13_quick_status (results : list AnalysisResult) :
  (ReportGenerator.generate_claude_summary results !! 3%nat = Some all_passed <->
   forall r, In r results -> critical_issues r = [] /\ warnings_list r = []) /\
  (ReportGenerator.generate_claude_summary results !! 3%nat = Some issues_found <->
   exists r, In r results /\ (critical_issues r <> [] \/ warnings_list r <> [])).
Proof.
  rewrite status_text, <- no_flag_iff.
  assert (Hex : (exists r, In r results /\ (critical_issues r <> [] \/ warnings_list r <> [])) <->
    negb (ReportGenerator.has_critical_issues (ReportGenerator._calculate_summary results))
    && negb (ReportGenerator.has_warnings (ReportGenerator._calculate_summary results))
    = false).
  { rewrite andb_false_iff, !negb_false_iff, has_critical_issues_iff, has_warnings_iff.
    split.
    - intros (r & Hr & [H|H]); [left|right]; eauto.
    - intros [(r & Hr & H)|(r & Hr & H)]; eauto. }
  rewrite Hex.
  destruct (negb _ && negb _); split; split; intros H; try done;
    inversion H as [E]; discriminate E.
Qed.

Section Fixes.
Import ReportGenerator.

Lemma flat_map_split {A B} (f : A -> list B) l1 x l2 :
flat_map f (l1 ++ x :: l2) = flat_map f l1 ++ f x ++ flat_map f l2.
Proof. by rewrite flat_map_app. Qed.

End Fixes.

(** X14: every critical issue of an analysed file is written to the
    debugging summary together with its suggestion: the text of the
    issue, then the text that [_suggest_fix] returns for it, then an
    empty line. *)
Theorem X14_issue_followed_by_fix (results : list AnalysisResult) (r : AnalysisResult)
    (issue : str) :
  In r results ->
  In issue (critical_issues r) ->
  exists before after,
    ReportGenerator.generate_claude_summary results =
    before ++
    [ $"**Issue:** " ++ issue ++ PyStr.nl ++ PyStr.nl;
      ReportGenerator._suggest_fix issue;
      PyStr.nl ] ++
    after.
Proof.
  intros Hr Hi.
  assert (Hc : ReportGenerator.has_critical_issues
                 (ReportGenerator._calculate_summary results) = true).
  { apply has_critical_issues_iff. exists r. split; [exact Hr|].
    by destruct (critical_issues r). }
  pose proof (in_truthy _ _ Hi) as Ht.
  apply in_split in Hr as (rs1 & rs2 & ->).
  unfold ReportGenerator.generate_claude_summary. cbv zeta. rewrite Hc.
  rewrite flat_map_split, Ht.
  apply in_split in Hi as (is1 & is2 & ->).
  rewrite flat_map_split.
  match goal with
  | |- exists before after,
         ?A ++ (?h ++ ?F1 ++ (?hd ++ ?G1 ++ ?x ++ ?G2) ++ ?F2) ++ ?rest = _ =>
      exists (A ++ h ++ F1 ++ hd ++ G1), (G2 ++ F2 ++ rest)
  end.
  rewrite <- !app_assoc. reflexivity.
Qed.

Lemma X14_witness :
  In faulty_result [clean_result; faulty_result] /\
  In (LogAnalyzer.disappearance_issue 2) (critical_issues faulty_result) /\
  exists before after,
    ReportGenerator.generate_claude_summary [clean_result; faulty_result] =
    before ++
    [ $"**Issue:** " ++ LogAnalyzer.disappearance_issue 2 ++ PyStr.nl ++ PyStr.nl;
      ReportGenerator._suggest_fix (LogAnalyzer.disappearance_issue 2);
      PyStr.nl ] ++
    after.
Proof.
  assert (Hr : In faulty_result [clean_result; faulty_result]) by (right; left; reflexivity).
  assert (Hi : In (LogAnalyzer.disappearance_issue 2) (critical_issues faulty_result))
    by (vm_compute; left; reflexivity).
  split; [exact Hr|]. split; [exact Hi|].
  exact (X14_issue_followed_by_fix _ _ _ Hr Hi).
Defined.

(** * File names *)

Section Paths.
Import PyStr ReportGenerator.

Lemma split_char_nonempty c s : split_char c s <> [].
Proof.
destruct s as [|a s]; simpl; [done|].
destruct (Ascii.eqb a c); [done|]. by destruct (split_char c s).
Qed.

(** Splitting a text around one separator splits its two sides. *)
Lemma split_char_app c a b :
split_char c (a ++ c :: b) = split_char c a ++ split_char c b.
Proof.
induction a as [|x a IH]; simpl.
- by rewrite Ascii.eqb_refl.
- destruct (Ascii.eqb x c); [by rewrite IH|]. rewrite IH.
  pose proof (split_char_nonempty c a). by destruct (split_char c a).
Qed.

Lemma split_char_none c s :
forallb (Re.none_of c) s = true -> split_char c s = [s].
Proof.
induction s as [|a s IH]; simpl; [done|]. intros H.
apply andb_true_iff in H as [Ha Hs]. unfold Re.none_of in Ha.
apply negb_true_iff in Ha. by rewrite Ha, (IH Hs).
Qed.

End Paths.

(** X15: the file heading of the reports is the base name of the log:
    for a log [name] (not empty, not ".", without "/") in a directory,
    [Path(directory/name).name] is [name], whatever the directory. *)
Theorem X15_path_name_of_log (dir name : str) :
  name <> [] -> name <> $"." -> forallb (Re.none_of "/") name = true ->
  ReportGenerator.path_name (TestFramework.join_path dir name) = name.
Proof.
  intros H1 H2 H3. unfold ReportGenerator.path_name, TestFramework.join_path.
  change (dir ++ $"/" ++ name) with (dir ++ "/"%char :: name).
  rewrite split_char_app, (split_char_none _ _ H3), filter_app.
  rewrite (filter_cons_True _ name) by done. rewrite filter_nil.
  apply last_last.
Qed.

Lemma X15_witness :
  $"client_0.log" <> [] /\ $"client_0.log" <> $"." /\
  forallb (Re.none_of "/") ($"client_0.log") = true /\
  ReportGenerator.path_name ($"test_logs/./basic//client_0.log") = $"client_0.log".
Proof.
  assert (H1 : $"client_0.log" <> []) by discriminate.
  assert (H2 : $"client_0.log" <> $".") by discriminate.
  assert (H3 : forallb (Re.none_of "/") ($"client_0.log") = true) by reflexivity.
  split; [exact H1|]. split; [exact H2|]. split; [exact H3|].
  exact (X15_path_name_of_log ($"test_logs/./basic/") ($"client_0.log") H1 H2 H3).
Defined.

(** * The analysis of a test run *)

Section Clients.
Import TestFramework.
Variable underruns : bool.
Variable avg_delay : list str -> json.

Lemma count_lines_bounds p lines : 0 <= count_lines p lines <= Z.of_nat (length lines).
Proof.
unfold count_lines. pose proof (length_filter (fun l => p l = true) lines). lia.
Qed.

Lemma analyze_client_log_id fs path id c :
_analyze_client_log underruns avg_delay fs path id = Ok c ->
Json.member ($"client_id") c = Some (JInt id).
Proof.
unfold _analyze_client_log. destruct (exists_ fs path); cbn [negb].
- destruct (LogAnalyzer.open_r fs path) as [lines|]; [|discriminate].
  cbn [mbind result_bind]. intros H. by inversion H.
- intros H. by inversion H.
Qed.

Lemma analyze_client_log_metrics fs path id c :
exists_ fs path = true ->
_analyze_client_log underruns avg_delay fs path id = Ok c ->
client_metrics underruns c /\
exists lines,
  fs !! path = Some (LogAnalyzer.Text lines) /\
  received_of c <= Z.of_nat (length lines).
Proof.
intros He. unfold _analyze_client_log. rewrite He. cbn [negb].
unfold LogAnalyzer.open_r. destruct (fs !! path) as [[|lines]|] eqn:Hf; try discriminate.
cbn [mbind result_bind]. intros H. inversion H; subst c; clear H.
split.
- unfold client_metrics, received_of, mismatches_of.
  split; [by eexists|]. split; [by eexists|]. split; [by eexists|].
  split; [intros ->; by eexists|].
  destruct underruns; split; apply count_lines_bounds.
- exists lines. split; [done|]. unfold received_of. apply count_lines_bounds.
Qed.

(** The clients of the report carry their own number, in the order of
  the numbers, and each is the analysis of an existing log. *)
Lemma analyze_clients_inv fs log_dir ids clients :
analyze_clients underruns avg_delay fs log_dir ids = Ok clients ->
map (Json.member ($"client_id")) clients =
  map (fun i => Some (JInt (Z.of_nat i)))
    (filter (fun i => exists_ fs (client_log log_dir i) = true) ids) /\
Forall (fun c => client_metrics underruns c /\
          exists path lines,
            fs !! path = Some (LogAnalyzer.Text lines) /\
            received_of c <= Z.of_nat (length lines)) clients.
Proof.
revert clients. induction ids as [|i ids IH]; intros clients H.
- inversion H. by split.
- cbn [analyze_clients] in H. fold (client_log log_dir i) in H.
  destruct (exists_ fs (client_log log_dir i)) eqn:He.
  + destruct (_analyze_client_log underruns avg_delay fs (client_log log_dir i)
                (Z.of_nat i)) as [c|] eqn:Hc; [|discriminate].
    cbn [mbind result_bind] in H.
    destruct (analyze_clients underruns avg_delay fs log_dir ids) as [cs|];
      [|discriminate].
    cbn [mbind result_bind] in H. inversion H; subst clients; clear H.
    destruct (IH cs eq_refl) as [IH1 IH2].
    rewrite filter_cons_True by exact He. split.
    * rewrite !map_cons. by rewrite (analyze_client_log_id _ _ _ _ Hc), IH1.
    * constructor; [|exact IH2].
      destruct (analyze_client_log_metrics _ _ _ _ He Hc) as (Hm & lines & Hl & Hb).
      split; [exact Hm|]. eauto.
  + rewrite filter_cons_False by (rewrite He; discriminate). by apply IH.
Qed.

End Clients.

(** X16: the report of a test run lists a client for each number below
    [num_clients] whose log exists, in increasing order, and each
    listed client carries its own number as [client_id]; the numbers of
    missing logs are left out without shifting the others. *)
Theorem X16_clients_keep_their_number (underruns : bool)
    (int_max_str_digits : N) (avg_delay : list str -> json)
    (fs : gmap str LogAnalyzer.file)
    (log_dir : str) (num_clients : nat) (report : json) :
  TestFramework._analyze_logs underruns int_max_str_digits avg_delay fs log_dir num_clients
    = Ok report ->
  exists clients,
    Json.member ($"clients") report = Some (JList clients) /\
    map (Json.member ($"client_id")) clients =
      map (fun i => Some (JInt (Z.of_nat i)))
        (filter (fun i => TestFramework.exists_ fs (client_log log_dir i) = true)
           (seq 0 num_clients)).
Proof.
  unfold TestFramework._analyze_logs. intros H.
  destruct (TestFramework._analyze_server_log int_max_str_digits fs _) as [server|];
    [|discriminate].
  cbn [mbind result_bind] in H.
  destruct (TestFramework.analyze_clients underruns avg_delay fs log_dir (seq 0 num_clients))
    as [clients|] eqn:Hc; [|discriminate].
  cbn [mbind result_bind] in H. inversion H; subst report; clear H.
  exists clients. split; [reflexivity|].
  apply (analyze_clients_inv _ _ _ _ _ _ Hc).
Qed.

Lemma X16_witness :
  exists report clients,
    TestFramework._analyze_logs true 4300 (fun _ => JInt 0)
      two_clients_fs ($"run") 3 = Ok report /\
    Json.member ($"clients") report = Some (JList clients) /\
    map (Json.member ($"client_id")) clients = [Some (JInt 0); Some (JInt 2)].
Proof.
  eexists.
  assert (H : TestFramework._analyze_logs true 4300 (fun _ => JInt 0)
                two_clients_fs ($"run") 3 = Ok _) by (vm_compute; reflexivity).
  destruct (X16_clients_keep_their_number _ _ _ _ _ _ _ H) as (clients & Hm & Hids).
  exists clients. split; [exact H|]. split; [exact Hm|].
  rewrite Hids. vm_compute. reflexivity.
Defined.

(** * The last loop of the summary *)

Section IntToFloat.
Import PyFloat.

Lemma iter_xO m d : Z.pos (Pos.iter xO m d) = Z.pos m * 2 ^ Z.pos d.
Proof.
induction d as [|d IH] using Pos.peano_ind.
- cbn [Pos.iter]. change (2 ^ 1) with 2. lia.
- rewrite Pos.iter_succ, Pos2Z.inj_xO, IH, Pos2Z.inj_succ, Z.pow_succ_r by lia. lia.
Qed.

(** A mantissa of 53 bits that is exact is not rounded. *)
Lemma binary_round_aux_exact q e :
4503599627370496 <= Z.pos q < 9007199254740992 -> -1074 <= e <= 971 ->
binary_round_aux prec emax false (Z.pos q) e loc_Exact = S754_finite false q e.
Proof.
intros Hq He. unfold binary_round_aux.
rewrite shr_fexp_53 by lia. cbn [shr_record_of_loc shr_m loc_of_shr_record round_nearest_even].
rewrite shr_fexp_53 by lia. cbn [shr_record_of_loc shr_m].
by replace (e <=? emax - prec) with true by (unfold emax, prec; lia).
Qed.

(** [float(n)] of a positive [int] below [2^53] is [n] itself, with a
  mantissa of 53 bits. *)
Lemma of_int_exact n :
0 < n < 9007199254740992 ->
exists m e,
  of_int n = Ok (S754_finite false m e) /\
  4503599627370496 <= Z.pos m < 9007199254740992 /\
  -52 <= e <= 0 /\ Z.pos m = n * 2 ^ (- e).
Proof.
intros Hn. destruct n as [|p|p]; try lia.
unfold of_int, binary_normalize, binary_round, shl_align.
pose proof (digits2_bounds p) as Hd.
set (d := Z.pos (digits2_pos p)) in *.
assert (Hd53 : 1 <= d <= 53).
{ split; [unfold d; lia|]. destruct (Z_le_gt_dec d 53); [done|].
  assert (2 ^ 53 <= 2 ^ (d - 1)) by (apply Z.pow_le_mono_r; lia).
  change (2 ^ 53) with 9007199254740992 in *. lia. }
unfold fexp, emin, prec, emax.
replace (Z.max (d + 0 - 53) (3 - 1024 - 53) - 0) with (d - 53) by lia.
replace (Z.max (d + 0 - 53) (3 - 1024 - 53)) with (d - 53) by lia.
destruct (Z.eq_dec d 53) as [E|E].
- rewrite E. cbn [Z.sub Z.add Z.opp Z.pos_sub]. change (53 - 53) with 0 in *.
  rewrite E in Hd. change (2 ^ (53 - 1)) with 4503599627370496 in Hd.
  change (2 ^ 53) with 9007199254740992 in Hd.
  exists p, 0. split; [|lia]. cbv beta iota. fold prec emax.
  by rewrite binary_round_aux_exact by lia.
- assert (exists k, d - 53 = Z.neg k) as [k Hk].
  { destruct (d - 53) as [|k|k] eqn:Ek; try lia. by exists k. }
  rewrite Hk. pose proof (iter_xO p k) as Hit.
  assert (Hpow : 2 ^ (d - 1) * 2 ^ Z.pos k = 4503599627370496).
  { rewrite <- Z.pow_add_r by lia. replace (d - 1 + Z.pos k) with 52 by lia. reflexivity. }
  assert (Hpow' : 2 ^ d * 2 ^ Z.pos k = 9007199254740992).
  { rewrite <- Z.pow_add_r by lia. replace (d + Z.pos k) with 53 by lia. reflexivity. }
  assert (0 < 2 ^ Z.pos k) by (apply Z.pow_pos_nonneg; lia).
  assert (2 ^ (d - 1) * 2 ^ Z.pos k <= Z.pos p * 2 ^ Z.pos k)
    by (apply Z.mul_le_mono_nonneg_r; lia).
  assert (Z.pos p * 2 ^ Z.pos k < 2 ^ d * 2 ^ Z.pos k)
    by (apply Z.mul_lt_mono_pos_r; lia).
  exists (Pos.iter xO p k), (Z.neg k). split; [|split; [lia|split; [lia|]]].
  + cbv beta iota. fold prec emax. by rewrite binary_round_aux_exact by lia.
  + rewrite Hit. reflexivity.
Qed.

Lemma of_int_zero : of_int 0 = Ok (S754_zero false).
Proof. reflexivity. Qed.

End IntToFloat.

Section SummaryLoops.
Import TestFramework.

Lemma disappearance_loop_ok u clients :
Forall (client_metrics u) clients -> exists out, disappearance_loop clients = Ok out.
Proof.
induction 1 as [|c clients ((id & Hid) & (n & Hn) & _) _ [out IH]]; [by eexists|].
cbn [disappearance_loop]. rewrite Hid, Hn, IH.
destruct (0 <? _); cbn [mbind result_bind]; by eexists.
Qed.

Lemma interpolation_loop_ok u clients :
Forall (client_metrics u) clients -> exists out, interpolation_loop clients = Ok out.
Proof.
induction 1 as [|c clients ((id & Hid) & _ & (n & Hn) & _) _ [out IH]]; [by eexists|].
cbn [interpolation_loop]. rewrite Hid, Hn, IH.
destruct (10 <? _); cbn [mbind result_bind]; by eexists.
Qed.

Lemma underrun_loop_ok clients :
Forall (client_metrics true) clients -> exists out, underrun_loop clients = Ok out.
Proof.
induction 1 as [|c clients ((id & Hid) & _ & _ & Hu & _) _ [out IH]]; [by eexists|].
destruct (Hu eq_refl) as [n Hn].
cbn [underrun_loop]. rewrite Hid, Hn, IH.
destruct (0 <? _); cbn [mbind result_bind]; by eexists.
Qed.

(** One client in the last loop: the division by [received] is reached
  exactly when [received] is zero and a mismatch was counted. *)
Lemma high_mismatches_cases client :
0 <= received_of client < 9007199254740992 -> 0 <= mismatches_of client ->
(received_of client = 0 /\
 high_mismatches (mismatches_of client) (received_of client)
   = Ok (0 <? mismatches_of client)) \/
(0 < received_of client /\
 exists high, high_mismatches (mismatches_of client) (received_of client) = Ok high).
Proof.
intros Hr Hm. unfold high_mismatches.
destruct (Z.eq_dec (received_of client) 0) as [E|E].
- left. split; [exact E|]. rewrite E, of_int_zero. reflexivity.
- right. split; [lia|].
  destruct (of_int_exact (received_of client) ltac:(lia)) as (m & e & -> & _).
  cbn [mbind result_bind]. by eexists.
Qed.

Lemma mismatch_loop_cases u clients :
Forall (fun c => client_metrics u c /\ received_of c < 9007199254740992) clients ->
((exists c, In c clients /\ received_of c = 0 /\ 0 < mismatches_of c) /\
 mismatch_loop clients = Raise ZeroDivisionError) \/
((forall c, In c clients -> received_of c = 0 -> mismatches_of c = 0) /\
 exists out, mismatch_loop clients = Ok out).
Proof.
induction 1 as [|c clients [((id & Hid) & _ & _ & _ & Hr & Hm) Hb] _ IH].
- right. split; [by intros c []|by eexists].
- cbn [mismatch_loop]. cbv zeta.
  fold (mismatches_of c). fold (received_of c).
  destruct (high_mismatches_cases c ltac:(lia) Hm) as [[E ->]|[Hpos [high ->]]];
    cbn [mbind result_bind].
  + destruct (Z.ltb_spec 0 (mismatches_of c)) as [Hlt|Hle].
    * left. split; [exists c; by split; [left|]|].
      rewrite Hid. cbn [mbind result_bind]. rewrite E. reflexivity.
    * cbn [mbind result_bind].
      destruct IH as [[(c' & Hin & Hbad) ->]|[Hall [out ->]]].
      -- left. split; [exists c'; by split; [right|]|reflexivity].
      -- right. split; [|by eexists].
         intros c' [<-|Hin] Hz; [lia|by apply Hall].
  + assert (Hfd : exists q, PyFloat.floor_divide (mismatches_of c * 100) (received_of c) = Ok q).
    { unfold PyFloat.floor_divide.
      destruct (Z.eqb_spec (received_of c) 0); [lia|by eexists]. }
    destruct Hfd as [q Hq].
    assert (Hhere : exists here,
      (if high
       then id ← Json.index_int ($"client_id") c;
            percent ← PyFloat.floor_divide (mismatches_of c * 100) (received_of c);
            Ok [ $"⚠️ **High Baseline Mismatches**: Client " ++ PyStr.of_Z id ++ $" had " ++
                 PyStr.of_Z (mismatches_of c) ++ $" mismatches out of " ++
                 PyStr.of_Z (received_of c) ++
                 $" snapshots (" ++ PyStr.of_Z percent ++ $"%)" ++ ["010"; "010"]%char ]
       else Ok []) = Ok here).
    { destruct high; [|by eexists]. rewrite Hid, Hq. by eexists. }
    destruct Hhere as [here ->]. cbn [mbind result_bind].
    destruct IH as [[(c' & Hin & Hbad) ->]|[Hall [out ->]]].
    * left. split; [exists c'; by split; [right|]|reflexivity].
    * right. split; [|by eexists].
      intros c' [<-|Hin] Hz; [lia|by apply Hall].
Qed.

End SummaryLoops.

(** X17: for the clients of an analysed run whose logs have fewer than
    [2^53] lines, the summary raises [ZeroDivisionError] exactly when
    some client counted a baseline mismatch without having received any
    snapshot; when there is no such client the "Issues Detected" part
    is written without any exception. *)
Theorem X17_summary_division_by_zero (underruns : bool) (avg_delay : list str -> json)
    (fs : gmap str LogAnalyzer.file) (log_dir : str) (ids : list nat)
    (clients : list json) :
  logs_bounded fs ->
  TestFramework.analyze_clients underruns avg_delay fs log_dir ids = Ok clients ->
  (TestFramework.issues_detected underruns clients = Raise ZeroDivisionError <->
   exists c, In c clients /\ received_of c = 0 /\ 0 < mismatches_of c) /\
  ((forall c, In c clients -> received_of c = 0 -> mismatches_of c = 0) ->
   exists out, TestFramework.issues_detected underruns clients = Ok out).
Proof.
  intros Hfs Hc. destruct (analyze_clients_inv _ _ _ _ _ _ Hc) as [_ Hall].
  assert (Hm : Forall (client_metrics underruns) clients).
  { eapply Forall_impl; [exact Hall|]. by intros c [H _]. }
  assert (Hb : Forall (fun c => client_metrics underruns c /\
                         received_of c < 9007199254740992) clients).
  { eapply Forall_impl; [exact Hall|]. intros c (H & path & lines & Hl & Hle).
    split; [exact H|]. pose proof (Hfs _ _ Hl). lia. }
  destruct (disappearance_loop_ok _ _ Hm) as [a Ha].
  destruct (interpolation_loop_ok _ _ Hm) as [b Hb'].
  assert (Hu : exists c', (if underruns then TestFramework.underrun_loop clients else Ok [])
                          = Ok c').
  { destruct underruns; [by apply underrun_loop_ok|by eexists]. }
  destruct Hu as [c' Hu].
  unfold TestFramework.issues_detected. rewrite Ha, Hb', Hu. cbn [mbind result_bind].
  destruct (mismatch_loop_cases _ _ Hb) as [[Hbad ->]|[Hgood [out ->]]];
    cbn [mbind result_bind].
  - split; [by split|]. intros Hz. destruct Hbad as (c & Hin & E & Hpos).
    rewrite (Hz c Hin E) in Hpos. lia.
  - split; [|intros _; by eexists]. split; [discriminate|].
    intros (c & Hin & E & Hpos). rewrite (Hgood c Hin E) in Hpos. lia.
Qed.

Lemma X17_witness :
  logs_bounded two_clients_fs /\
  exists clients,
    TestFramework.analyze_clients true (fun _ => JInt 0) two_clients_fs ($"run")
      [0; 1; 2]%nat = Ok clients /\
    TestFramework._generate_agent_summary clients = Raise ZeroDivisionError.
Proof.
  assert (Hfs : logs_bounded two_clients_fs).
  { intros path lines H. unfold two_clients_fs in H.
    apply lookup_insert_Some in H as [[_ H]|[_ H]].
    - inversion H. simpl. lia.
    - apply lookup_singleton_Some in H as [_ H]. inversion H. simpl. lia. }
  split; [exact Hfs|]. eexists.
  assert (H : TestFramework.analyze_clients true (fun _ => JInt 0) two_clients_fs ($"run")
                [0; 1; 2]%nat = Ok _) by (vm_compute; reflexivity).
  split; [exact H|].
  apply (proj1 (X17_summary_division_by_zero _ _ _ _ _ _ Hfs H)).
  eexists. split; [right; left; reflexivity|]. split; [reflexivity|reflexivity].
Defined.

(** * The report path handed to the wrapper *)

Section ReportPath.
Import PyStr AutoDebug.

Lemma startswith_refl p s : startswith p (p ++ s) = true.
Proof. induction p as [|c p IH]; simpl; [done|]. by rewrite Ascii.eqb_refl, IH. Qed.

Lemma rstrip_nl s :
stops isspace (rev s) -> rstrip (s ++ nl) = s.
Proof.
intros H. unfold rstrip, nl. rewrite rev_app_distr. cbn [rev app dropwhile].
change (isspace "010") with true. cbv iota.
rewrite (dropwhile_stops _ _ H). apply rev_involutive.
Qed.

Lemma strip_report_path path :
path <> [] -> stops isspace path -> stops isspace (rev path) ->
strip (path ++ nl) = path.
Proof.
intros Hne H1 H2. unfold strip, lstrip.
rewrite dropwhile_stops; [by apply rstrip_nl|].
destruct path; [done|exact H1].
Qed.

Lemma find_report_path_first before path after :
Forall (fun l => startswith ($"REPORT_JSON:") l = false) before ->
find_report_path (before ++ TestFramework.report_json_line path :: after) =
Some (strip (path ++ nl)).
Proof.
induction 1 as [|l before Hl _ IH]; cbn [app find_report_path].
- unfold TestFramework.report_json_line. rewrite startswith_refl.
  change ($"REPORT_JSON:" ++ path ++ nl) with ($"REPORT_JSON" ++ ":"%char :: path ++ nl).
  by rewrite split_first_app.
- by rewrite Hl.
Qed.

Lemma universal_newlines_feed f s t :
universal_newlines f (s ++ "010"%char :: t) =
universal_newlines f (s ++ nl) ++ universal_newlines false t.
Proof.
revert f. induction s as [|c s IH]; intros f.
- cbn [app universal_newlines nl]. change (Ascii.eqb "010" "013") with false.
  change (Ascii.eqb "010" "010") with true. cbn [andb]. by destruct f.
- cbn [app universal_newlines]. destruct (Ascii.eqb c "013").
  + by rewrite IH.
  + destruct (Ascii.eqb c "010" && f); by rewrite IH.
Qed.

Lemma universal_newlines_not_nil b : universal_newlines false (b ++ nl) <> [].
Proof.
destruct b as [|c b]; cbn [app universal_newlines nl]; [discriminate|].
rewrite andb_false_r. by destruct (Ascii.eqb c "013").
Qed.

Lemma whole_lines_cons c s : s <> [] -> whole_lines s -> whole_lines (c :: s).
Proof. intros Hne [->|[b ->]]; [done|]. right. by exists (c :: b). Qed.

Lemma universal_newlines_whole f b : whole_lines (universal_newlines f (b ++ nl)).
Proof.
revert f. induction b as [|c b IH]; intros f.
- cbn [app universal_newlines nl]. change (Ascii.eqb "010" "013") with false.
  change (Ascii.eqb "010" "010") with true. cbn [andb].
  destruct f; [by left|right; by exists []].
- cbn [app universal_newlines]. destruct (Ascii.eqb c "013").
  + destruct (IH true) as [->|[b' ->]]; right; [by exists []|by exists ("010"%char :: b')].
  + destruct (Ascii.eqb c "010" && f); [apply IH|].
    apply whole_lines_cons; [apply universal_newlines_not_nil|apply IH].
Qed.

(** A text of whole lines is read by itself, whatever follows it. *)
Lemma universal_newlines_app before rest :
whole_lines before ->
universal_newlines false (before ++ rest) =
universal_newlines false before ++ universal_newlines false rest.
Proof.
intros [->|[b ->]]; [reflexivity|]. unfold nl at 1.
rewrite <- app_assoc. cbn [app]. apply universal_newlines_feed.
Qed.

(** A text without carriage return is read as it is. *)
Lemma universal_newlines_plain s :
Forall (fun c => c <> "013"%char) s -> universal_newlines false s = s.
Proof.
induction 1 as [|c s Hc _ IH]; [reflexivity|]. cbn [universal_newlines].
apply Ascii.eqb_neq in Hc. by rewrite Hc, andb_false_r, IH.
Qed.

Lemma readlines_feed cur s t :
readlines cur (s ++ "010"%char :: t) = readlines cur (s ++ nl) ++ readlines [] t.
Proof.
revert cur. induction s as [|c s IH]; intros cur.
- cbn [app readlines nl]. change (Ascii.eqb "010" "010") with true. reflexivity.
- cbn [app readlines]. destruct (Ascii.eqb c "010"); by rewrite IH.
Qed.

Lemma readlines_app before rest :
whole_lines before ->
readlines [] (before ++ rest) = readlines [] before ++ readlines [] rest.
Proof.
intros [->|[b ->]]; [reflexivity|]. unfold nl at 1.
rewrite <- app_assoc. cbn [app]. apply readlines_feed.
Qed.

(** A text without line feed, printed with a line feed at its end, is
  read as one line. *)
Lemma readlines_line cur s :
Forall (fun c => c <> "010"%char) s ->
readlines cur (s ++ nl) = [rev cur ++ s ++ nl].
Proof.
intros H. revert cur. induction H as [|c s Hc _ IH]; intros cur.
- cbn [app readlines nl]. change (Ascii.eqb "010" "010") with true. reflexivity.
- cbn [app readlines]. apply Ascii.eqb_neq in Hc. rewrite Hc, IH.
  cbn [rev]. by rewrite <- app_assoc.
Qed.

(** The lines that are read make up the output. *)
Lemma concat_readlines cur s : concat (readlines cur s) = rev cur ++ s.
Proof.
revert cur. induction s as [|c s IH]; intros cur.
- cbn [readlines]. destruct cur; [reflexivity|]. cbn [concat]. by rewrite !app_nil_r.
- cbn [readlines]. destruct (Ascii.eqb_spec c "010") as [->|_].
  + cbn [concat]. rewrite IH. cbn [rev app]. by rewrite <- app_assoc.
  + rewrite IH. cbn [rev]. by rewrite <- app_assoc.
Qed.

(** The lines read from an output in which a report line is printed at
  the start of a line. *)
Lemma readlines_report_line before path after :
whole_lines before ->
Forall (fun c => c <> "010"%char /\ c <> "013"%char) path ->
readlines [] (universal_newlines false
                (before ++ TestFramework.report_json_line path ++ after)) =
readlines [] (universal_newlines false before) ++
TestFramework.report_json_line path :: readlines [] (universal_newlines false after).
Proof.
intros Hb Hp. rewrite (universal_newlines_app _ _ Hb).
assert (Hw : whole_lines (universal_newlines false before)).
{ destruct Hb as [->|[b ->]]; [by left|apply universal_newlines_whole]. }
rewrite (readlines_app _ _ Hw). f_equal.
unfold TestFramework.report_json_line.
set (text := $"REPORT_JSON:" ++ path).
assert (Ht : Forall (fun c => c <> "010"%char /\ c <> "013"%char) text).
{ unfold text. apply Forall_app. split; [|exact Hp].
  repeat constructor; discriminate. }
replace (($"REPORT_JSON:" ++ path ++ nl) ++ after)
  with (text ++ "010"%char :: after)
  by (unfold text, nl; by rewrite <- !app_assoc).
replace ($"REPORT_JSON:" ++ path ++ nl) with (text ++ nl)
  by (unfold text; by rewrite <- app_assoc).
rewrite universal_newlines_feed, universal_newlines_plain.
- replace ((text ++ nl) ++ universal_newlines false after)
    with (text ++ "010"%char :: universal_newlines false after)
    by (unfold nl; by rewrite <- app_assoc).
  rewrite readlines_feed, readlines_line; [reflexivity|].
  eapply Forall_impl; [exact Ht|]. by intros c [? ?].
- apply Forall_app. split; [|repeat constructor; discriminate].
  eapply Forall_impl; [exact Ht|]. by intros c [? ?].
Qed.

End ReportPath.

(** X18: the path that the test framework prints on its REPORT_JSON line
    is the path that the wrapper reads back after a successful run,
    together with the whole output as it was read. This holds for a
    non-empty path without blanks at its ends and without a line break
    (line feed or carriage return) inside, printed at the start of a
    line, whatever is printed after that line and whatever is printed
    before it, as long as no earlier line starts with the marker. A
    colon inside the path does no harm. *)
Theorem X18_report_path_round_trip (before after path : str) :
  whole_lines before ->
  Forall (fun l => PyStr.startswith ($"REPORT_JSON:") l = false)
    (AutoDebug.readlines [] (AutoDebug.universal_newlines false before)) ->
  path <> [] -> stops PyStr.isspace path -> stops PyStr.isspace (rev path) ->
  Forall (fun c => c <> "010"%char /\ c <> "013"%char) path ->
  let stdout := before ++ TestFramework.report_json_line path ++ after in
  AutoDebug.run_test_and_get_report true 0 stdout =
    Ok (Some path, AutoDebug.universal_newlines false stdout).
Proof.
  intros Hw Hb Hne H1 H2 Hp stdout.
  unfold AutoDebug.run_test_and_get_report. cbn [Z.eqb negb].
  rewrite concat_readlines. cbn [rev app]. unfold stdout.
  rewrite (readlines_report_line _ _ _ Hw Hp).
  rewrite (find_report_path_first _ _ _ Hb), (strip_report_path _ Hne H1 H2).
  by destruct path.
Qed.

(** A run that prints its report path after another line; and a path
    with a line feed inside, which is read back only up to the feed. *)
Lemma X18_witness :
  let before := $"[FRAMEWORK] Analyzing logs..." ++ PyStr.nl in
  let path := $"C:/game/test_reports/basic_report.json" in
  let stdout := before ++ TestFramework.report_json_line path ++ PyStr.nl in
  (whole_lines before /\
   path <> [] /\ stops PyStr.isspace path /\ stops PyStr.isspace (rev path) /\
   AutoDebug.run_test_and_get_report true 0 stdout = Ok (Some path, stdout)) /\
  AutoDebug.run_test_and_get_report true 0
    (TestFramework.report_json_line ($"reports/a" ++ PyStr.nl ++ $"b.json")) =
  Ok (Some ($"reports/a"), $"REPORT_JSON:reports/a" ++ PyStr.nl ++ $"b.json" ++ PyStr.nl).
Proof.
  intros before path stdout.
  assert (Hw : whole_lines before) by (right; by eexists).
  assert (Hb : Forall (fun l => PyStr.startswith ($"REPORT_JSON:") l = false)
                 (AutoDebug.readlines [] (AutoDebug.universal_newlines false before)))
    by (vm_compute; constructor; [reflexivity|constructor]).
  assert (Hne : path <> []) by discriminate.
  assert (H1 : stops PyStr.isspace path) by reflexivity.
  assert (H2 : stops PyStr.isspace (rev path)) by reflexivity.
  assert (H3 : Forall (fun c => c <> "010"%char /\ c <> "013"%char) path)
    by (repeat constructor; discriminate).
  split; [|vm_compute; reflexivity].
  split; [exact Hw|]. split; [exact Hne|]. split; [exact H1|]. split; [exact H2|].
  exact (X18_report_path_round_trip before PyStr.nl path Hw Hb Hne H1 H2 H3).
Defined.

(** * The product [received * 0.1] *)

Section Product.
Import PyFloat.

Lemma shr_1_nonneg mrs : 0 <= shr_m mrs -> shr_m (shr_1 mrs) = shr_m mrs / 2.
Proof. intros H. destruct (shr_1_m mrs) as [E|E]; [exact E|lia]. Qed.

(** Shifting a mantissa right by [n] bits divides it by [2^n]. *)
Lemma iter_shr_1 n : forall mrs,
0 <= shr_m mrs -> shr_m (SpecFloat.iter_pos shr_1 n mrs) = shr_m mrs / 2 ^ Z.pos n.
Proof.
induction n as [n IH|n IH|]; intros mrs Hm; cbn [SpecFloat.iter_pos].
- assert (H2 : 0 <= shr_m mrs / 2) by (apply Z.div_pos; lia).
  assert (Hp : 0 < 2 ^ Z.pos n) by (apply Z.pow_pos_nonneg; lia).
  rewrite IH, IH, shr_1_nonneg by
    (rewrite ?IH, ?shr_1_nonneg by (rewrite ?shr_1_nonneg; lia); try apply Z.div_pos; lia).
  rewrite !Z.div_div by lia. f_equal.
  replace (Z.pos n~1) with (1 + Z.pos n + Z.pos n) by lia.
  rewrite !Z.pow_add_r by lia. change (2 ^ 1) with 2. lia.
- assert (Hp : 0 < 2 ^ Z.pos n) by (apply Z.pow_pos_nonneg; lia).
  rewrite IH, IH by (rewrite ?IH by lia; try apply Z.div_pos; lia).
  rewrite !Z.div_div by lia. f_equal.
  replace (Z.pos n~0) with (Z.pos n + Z.pos n) by lia.
  rewrite !Z.pow_add_r by lia. reflexivity.
- rewrite shr_1_nonneg by lia. reflexivity.
Qed.

(** The first normalisation of a mantissa of more than 53 bits. *)
Lemma shr_fexp_shift q e l d :
0 < q -> Zdigits2 q = d -> 53 < d -> -1074 <= d + e - 53 ->
exists mrs,
  shr_fexp prec emax q e l = (mrs, e + (d - 53)) /\ shr_m mrs = q / 2 ^ (d - 53).
Proof.
intros Hq Hd H53 He. unfold shr_fexp. rewrite Hd.
unfold fexp, emin, prec, emax.
replace (Z.max (d + e - 53) (3 - 1024 - 53) - e) with (d - 53) by lia.
destruct (d - 53) as [|k|k] eqn:Ek; try lia.
cbn [shr]. eexists. split; [reflexivity|].
rewrite iter_shr_1 by (rewrite shr_m_of_loc; lia). by rewrite shr_m_of_loc.
Qed.

(** The shape of a rounded exact product: its mantissa is the integer
  part of the shifted product or its successor. *)
Lemma binary_round_aux_wide q e d :
2 ^ (d - 1) <= q < 2 ^ d -> 53 < d -> -1074 <= d + e - 53 <= 900 ->
exists mF eF,
  binary_round_aux prec emax false q e loc_Exact = S754_finite false mF eF /\
  ((eF = e + (d - 53) /\
    q / 2 ^ (d - 53) <= Z.pos mF <= q / 2 ^ (d - 53) + 1 /\
    Z.pos mF < 9007199254740992) \/
   (eF = e + (d - 53) + 1 /\ Z.pos mF = 4503599627370496 /\
    q / 2 ^ (d - 53) = 9007199254740991)).
Proof.
intros Hq Hd He.
assert (Hpos : 0 < 2 ^ (d - 1)) by (apply Z.pow_pos_nonneg; lia).
assert (Hdig : Zdigits2 q = d) by (apply Zdigits2_unique; [lia|exact Hq]).
destruct (shr_fexp_shift q e loc_Exact d ltac:(lia) Hdig Hd ltac:(lia)) as (mrs & Hs & Hm).
unfold binary_round_aux. rewrite Hs.
set (n := d - 53) in *.
assert (Hn : 0 < 2 ^ n) by (apply Z.pow_pos_nonneg; lia).
assert (Ht : 4503599627370496 <= q / 2 ^ n < 9007199254740992).
{ assert (E1 : 2 ^ (d - 1) = 4503599627370496 * 2 ^ n).
  { replace (d - 1) with (52 + n) by lia. rewrite Z.pow_add_r by lia. reflexivity. }
  assert (E2 : 2 ^ d = 9007199254740992 * 2 ^ n).
  { replace d with (53 + n) at 1 by lia. rewrite Z.pow_add_r by lia. reflexivity. }
  split.
  - apply Z.div_le_lower_bound; lia.
  - apply Z.div_lt_upper_bound; lia. }
pose proof (round_nearest_even_bounds (shr_m mrs) (loc_of_shr_record mrs)) as Hr.
set (q' := round_nearest_even (shr_m mrs) (loc_of_shr_record mrs)) in *.
rewrite Hm in Hr.
destruct (renormalise q' (e + n)) as (mrs' & e' & -> & [(H1 & H2 & ->)|(H1 & H2 & ->)]);
  try lia; rewrite H2.
- destruct q' as [|p|p]; try lia.
  replace (e + n <=? emax - prec) with true by (unfold emax, prec; lia).
  exists p, (e + n). split; [reflexivity|]. left. lia.
- replace (e + n + 1 <=? emax - prec) with true by (unfold emax, prec; lia).
  eexists _, _. split; [reflexivity|]. right. lia.
Qed.

(** The literal [0.1] as a mantissa and an exponent: ten times the
  mantissa is [2^56 + 4]. *)
Lemma lit_0_1_value : lit_0_1 = S754_finite false 7205759403792794 (-56).
Proof. reflexivity. Qed.

(** [n > r * 0.1] on a received count below [2^50], in exact terms. *)
Lemma int_gtb_tenth n r :
0 < r < 1125899906842624 ->
exists x, of_int r = Ok x /\ int_gtb n (mul x lit_0_1) = (r <? 10 * n).
Proof.
intros Hr.
destruct (of_int_exact r ltac:(lia)) as (mr & er & Ho & Hmr & Her & Emr).
exists (S754_finite false mr er). split; [exact Ho|].
rewrite lit_0_1_value. unfold mul. cbn [SFmul xorb].
rewrite Pos2Z.inj_mul.
set (A := 2 ^ (- er)) in *.
assert (HA : 8 <= A).
{ destruct (Z_le_gt_dec (- er) 2) as [Hle|Hgt].
  - exfalso. assert (A <= 2 ^ 2) by (apply Z.pow_le_mono_r; lia).
    change (2 ^ 2) with 4 in *.
    assert (r * A <= r * 4) by (apply Z.mul_le_mono_nonneg_l; lia). lia.
  - assert (2 ^ 3 <= A) by (apply Z.pow_le_mono_r; lia).
    change (2 ^ 3) with 8 in *. lia. }
set (q := Z.pos mr * 7205759403792794).
assert (Hq : 10 * q = r * A * 72057594037927940) by (unfold q; lia).
assert (Hq1 : 4503599627370496 * 7205759403792794 <= q)
  by (unfold q; apply Z.mul_le_mono_nonneg_r; lia).
assert (Hq2 : q < 9007199254740992 * 7205759403792794)
  by (unfold q; apply Z.mul_lt_mono_pos_r; lia).
assert (Hq0 : 0 < q) by lia.
pose (d := Zdigits2 q).
assert (Hd : 2 ^ (d - 1) <= q < 2 ^ d).
{ unfold d. destruct q as [|p|p]; try lia. cbn [Zdigits2]. apply digits2_bounds. }
assert (Hd105 : 105 <= d <= 106).
{ split.
  - destruct (Z_le_gt_dec 105 d); [done|exfalso].
    assert (2 ^ d <= 2 ^ 104) by (apply Z.pow_le_mono_r; lia).
    change (2 ^ 104) with 20282409603651670423947251286016 in *. lia.
  - destruct (Z_le_gt_dec d 106); [done|exfalso].
    assert (2 ^ 106 <= 2 ^ (d - 1)) by (apply Z.pow_le_mono_r; lia).
    change (2 ^ 106) with 81129638414606681695789005144064 in *. lia. }
destruct (binary_round_aux_wide q (er + -56) d Hd ltac:(lia) ltac:(lia))
  as (mF & eF & -> & Hshape).
set (n' := d - 53) in *.
set (N := 2 ^ n') in *.
assert (HN : 0 < N) by (apply Z.pow_pos_nonneg; lia).
assert (HN53 : N <= 9007199254740992).
{ unfold N. change 9007199254740992 with (2 ^ 53). apply Z.pow_le_mono_r; lia. }
pose proof (Z.div_mod q N ltac:(lia)) as Hdiv.
pose proof (Z.mod_pos_bound q N HN) as Hmod.
set (t := q / N) in *.
(* the scale of the result *)
set (s := 56 - er - n').
assert (Hs : 0 < s) by (unfold s; lia).
set (S := 2 ^ s).
assert (HS : 0 < S) by (apply Z.pow_pos_nonneg; lia).
assert (HSN : S * N = 72057594037927936 * A).
{ unfold S, N, A. rewrite <- Z.pow_add_r by lia.
  replace (s + n') with (56 + - er) by (unfold s; lia).
  rewrite Z.pow_add_r by lia. reflexivity. }
assert (HrA : r * A < 9007199254740992) by lia.
(* the two comparisons with [n * S] *)
assert (Hlow : 10 * n <= r -> n * S <= t).
{ intros Hle. destruct (Z_le_gt_dec (n * S) t) as [|Hgt]; [done|exfalso].
  assert (H1 : (t + 1) * N <= n * S * N) by (apply Z.mul_le_mono_nonneg_r; lia).
  assert (H2 : n * S * N = n * (72057594037927936 * A)) by (rewrite <- HSN; lia).
  assert (H3 : 10 * n * (72057594037927936 * A) <= r * (72057594037927936 * A))
    by (apply Z.mul_le_mono_nonneg_r; lia).
  lia. }
assert (Hhigh : r < 10 * n -> t + 1 < n * S).
{ intros Hlt. destruct (Z_lt_le_dec (t + 1) (n * S)) as [|Hge]; [done|exfalso].
  assert (H1 : n * S * N <= (t + 1) * N) by (apply Z.mul_le_mono_nonneg_r; lia).
  assert (H2 : n * S * N = n * (72057594037927936 * A)) by (rewrite <- HSN; lia).
  assert (H3 : (r + 1) * (72057594037927936 * A) <= 10 * n * (72057594037927936 * A))
    by (apply Z.mul_le_mono_nonneg_r; lia).
  lia. }
unfold int_gtb.
destruct Hshape as [(-> & Hm & _)|(-> & Hm & Et)].
- replace (0 <=? er + -56 + n') with false by lia.
  replace (- (er + -56 + n')) with s by (unfold s; lia). fold S.
  destruct (Z.ltb_spec r (10 * n)) as [H|H]; [apply Z.ltb_lt|apply Z.ltb_ge].
  + specialize (Hhigh H). lia.
  + specialize (Hlow H). lia.
- replace (0 <=? er + -56 + n' + 1) with false by lia.
  replace (- (er + -56 + n' + 1)) with (s - 1) by (unfold s; lia).
  assert (ES : S = 2 * 2 ^ (s - 1)).
  { unfold S. replace s with (Z.succ (s - 1)) at 1 by lia. apply Z.pow_succ_r. lia. }
  rewrite Hm.
  destruct (Z.ltb_spec r (10 * n)) as [H|H]; [apply Z.ltb_lt|apply Z.ltb_ge].
  + specialize (Hhigh H). lia.
  + specialize (Hlow H). lia.
Qed.

Lemma high_mismatches_exact m r :
0 <= r < 1125899906842624 ->
TestFramework.high_mismatches m r =
Ok (if r =? 0 then 0 <? m else r <? 10 * m).
Proof.
intros Hr. unfold TestFramework.high_mismatches.
destruct (Z.eqb_spec r 0) as [->|Hne]; [reflexivity|].
destruct (int_gtb_tenth m r ltac:(lia)) as (x & -> & E).
cbn [mbind result_bind]. by rewrite E.
Qed.

End Product.

(** X19: the test [mismatches > received * 0.1] of the summary, computed
    on a float product, agrees with exact arithmetic for every received
    count from 1 below [2^50]: it holds exactly when
    [10 * mismatches > received]; so 11 mismatches out of 100 are
    reported and 10 are not. With [received = 0] it holds exactly when
    a mismatch was counted. *)
Theorem X19_summary_mismatch_threshold (mismatches received : Z) :
  0 <= received < 1125899906842624 ->
  TestFramework.high_mismatches mismatches received =
  Ok (if received =? 0 then 0 <? mismatches else received <? 10 * mismatches).
Proof. apply high_mismatches_exact. Qed.

Lemma X19_witness :
  0 <= 100 < 1125899906842624 /\
  TestFramework.high_mismatches 11 100 = Ok true /\
  TestFramework.high_mismatches 10 100 = Ok false.
Proof.
  assert (H : 0 <= 100 < 1125899906842624) by lia.
  split; [exact H|]. split.
  - exact (X19_summary_mismatch_threshold 11 100 H).
  - exact (X19_summary_mismatch_threshold 10 100 H).
Defined.

(** * The issue lists of a finished result *)

(** X20: the two issue lists of a result returned by [parse] hold what
    the four rules of [_detect_issues] give on the final counters and
    nothing else, each rule at most once and in the order of the
    rules: the disappearance issue, then "Server sent 0 snapshots",
    then "Client received 0 snapshots" as critical issues; the
    interpolation warning, then the mismatch warning as warnings. So a
    result has at most three critical issues and two warnings, and the
    loop over the lines records none. *)
Theorem X20_issue_lists (log_path : str) (lines : list str) (r : AnalysisResult) :
  LogAnalyzer.parse_lines log_path lines = Ok r ->
  critical_issues r =
    (if 0 <? player_disappearances r
     then [LogAnalyzer.disappearance_issue (player_disappearances r)] else []) ++
    (if (snapshots_sent r =? 0) && PyStr.contains ($"server") (PyStr.lower log_path)
     then [LogAnalyzer.server_issue] else []) ++
    (if (snapshots_received r =? 0) && PyStr.contains ($"client") (PyStr.lower log_path)
     then [LogAnalyzer.client_issue] else []) /\
  warnings_list r =
    (if 10 <? interpolation_warnings r
     then [LogAnalyzer.interpolation_warning (interpolation_warnings r)] else []) ++
    (if (0 <? snapshots_received r)
        && PyFloat.gtb (mismatch_rate_of r) PyFloat.lit_0_1
     then [LogAnalyzer.mismatch_warning (mismatch_rate_of r)] else []) /\
  (length (critical_issues r) <= 3)%nat /\
  (length (warnings_list r) <= 2)%nat.
Proof.
  intros H. destruct (parse_lines_finalized _ _ _ H) as (Hw & Hc & _).
  rewrite Hw, Hc. unfold critical_of, warnings_of.
  split; [reflexivity|]. split; [reflexivity|]. split.
  - destruct (0 <? _), (_ && _), (_ && _); simpl; lia.
  - destruct (10 <? _), (_ && _); simpl; lia.
Qed.

Lemma X20_witness :
  let r := finalized ($"logs/server_client.log") (repeat disappearance_line 3) in
  LogAnalyzer.parse_lines ($"logs/server_client.log") (repeat disappearance_line 3) = Ok r /\
  critical_issues r =
    [ LogAnalyzer.disappearance_issue 3; LogAnalyzer.server_issue; LogAnalyzer.client_issue ] /\
  warnings_list r = [].
Proof.
  intros r.
  assert (H : LogAnalyzer.parse_lines ($"logs/server_client.log")
                (repeat disappearance_line 3) = Ok r) by (vm_compute; reflexivity).
  split; [exact H|].
  destruct (X20_issue_lists _ _ _ H) as (Hc & Hw & _).
  rewrite Hc, Hw. vm_compute. by split.
Defined.

(** * A run of the analyzer over a list of logs *)

Section Run.
Import ReportGenerator.

Lemma analyze_all_readable fs log_files :
logs_readable fs log_files ->
exists results,
  analyze_all fs log_files = Ok results /\
  map filename results = log_files /\
  Forall analysed results.
Proof.
induction 1 as [|path log_files (lines & Hf & Hlen) _ (results & IH & Hn & Ha)].
- exists []. by repeat split.
- cbn [analyze_all]. unfold LogAnalyzer.parse, LogAnalyzer.open_r. rewrite Hf.
  cbn [mbind result_bind].
  destruct (parse_lines_total path lines Hlen) as [r Hr]. rewrite Hr, IH.
  cbn [mbind result_bind]. exists (r :: results). split; [reflexivity|].
  destruct (parse_lines_finalized _ _ _ Hr) as (_ & _ & Hname & _).
  split; [by rewrite map_cons, Hname, Hn|].
  constructor; [by exists path, lines|exact Ha].
Qed.

End Run.

(** X21: when the log directory exists and lists at least one log, every
    listed log can be read and has fewer than [2^53] lines, the run of
    the analyzer parses each log, keeps the results in the order of the
    list with the path of each log as file name, and, when the output
    directory and the report files can be written, returns 0 with the
    three reports generated from these results; an exception of the
    output ends the run after the parsing. Without a log directory or
    without a log in it the run returns 1 and reports nothing, whatever
    the files and the output are. *)
Theorem X21_run_over_readable_logs (fs : gmap str LogAnalyzer.file)
    (log_files : list str) :
  logs_readable fs log_files -> log_files <> [] ->
  (exists results,
     ReportGenerator.analyze_all fs log_files = Ok results /\
     map filename results = log_files /\
     Forall analysed results /\
     ReportGenerator.main true fs log_files (Ok ()) =
       Ok (0, Some (ReportGenerator.generate_json_report results,
                    ReportGenerator.generate_markdown_report results,
                    ReportGenerator.generate_claude_summary results))) /\
  (forall e, ReportGenerator.main true fs log_files (Raise e) = Raise e) /\
  (forall output, ReportGenerator.main true fs [] output = Ok (1, None)) /\
  (forall output, ReportGenerator.main false fs log_files output = Ok (1, None)).
Proof.
  intros H Hne. destruct (analyze_all_readable fs log_files H) as (results & Ha & Hn & Hr).
  assert (Hm : forall output,
             ReportGenerator.main true fs log_files output =
             (_ ← output; Ok (0, Some (ReportGenerator.generate_all results)))).
  { intros output. unfold ReportGenerator.main.
    destruct log_files; [done|]. cbn [negb ReportGenerator.truthy]. by rewrite Ha. }
  split; [|split; [|split]].
  - exists results. repeat split; try assumption. by rewrite Hm.
  - intros e. by rewrite Hm.
  - reflexivity.
  - reflexivity.
Qed.

Lemma X21_witness :
  let log_files := [ $"logs/client_0.log"; $"logs/server.log" ] in
  logs_readable two_logs_fs log_files /\ log_files <> [] /\
  exists results,
    ReportGenerator.main true two_logs_fs log_files (Ok ()) =
      Ok (0, Some (ReportGenerator.generate_all results)) /\
    map filename results = log_files.
Proof.
  intros log_files.
  assert (H : logs_readable two_logs_fs log_files).
  { constructor; [|constructor; [|constructor]].
    - exists [snapshot_line; mismatch_line]. split; [vm_compute; reflexivity|simpl; lia].
    - exists [info_line]. split; [vm_compute; reflexivity|simpl; lia]. }
  assert (Hne : log_files <> []) by discriminate.
  split; [exact H|]. split; [exact Hne|].
  destruct (X21_run_over_readable_logs _ _ H Hne) as ((results & _ & Hn & _ & Hm) & _).
  exists results. by split.
Defined.

(** * The "Issues Detected" part of the summary *)

Section Issues.
Import TestFramework.
Variable underruns : bool.
Variable avg_delay : list str -> json.

Ltac not_the_all_clear :=
let E := fresh in
intros E; unfold no_major_issues, PyStr.nl in E;
cbn [app list_ascii_of_string] in E; discriminate E.

Lemma analyze_client_log_counts fs path id c :
exists_ fs path = true ->
_analyze_client_log underruns avg_delay fs path id = Ok c ->
0 <= disappearances_of c /\ 0 <= underruns_of c.
Proof.
intros He. unfold _analyze_client_log. rewrite He. cbn [negb].
destruct (LogAnalyzer.open_r fs path) as [lines|]; [|discriminate].
cbn [mbind result_bind]. intros H. inversion H; subst c; clear H.
unfold disappearances_of, underruns_of. split.
- apply count_lines_bounds.
- destruct underruns; [apply count_lines_bounds|done].
Qed.

Lemma analyze_clients_counts fs log_dir ids clients :
analyze_clients underruns avg_delay fs log_dir ids = Ok clients ->
Forall (fun c => 0 <= disappearances_of c /\ 0 <= underruns_of c) clients.
Proof.
revert clients. induction ids as [|i ids IH]; intros clients H.
- inversion H. constructor.
- cbn [analyze_clients] in H.
  destruct (exists_ fs _) eqn:He; [|by apply IH].
  destruct (_analyze_client_log underruns avg_delay fs _ (Z.of_nat i)) as [c|] eqn:Hc;
    [|discriminate].
  cbn [mbind result_bind] in H.
  destruct (analyze_clients underruns avg_delay fs log_dir ids) as [cs|]; [|discriminate].
  cbn [mbind result_bind] in H. inversion H; subst clients; clear H.
  constructor; [by eapply analyze_client_log_counts|by apply IH].
Qed.

Lemma disappearance_loop_out u clients :
Forall (client_metrics u) clients ->
exists out,
  disappearance_loop clients = Ok out /\
  (out = [] <-> forall c, In c clients -> disappearances_of c <= 0) /\
  Forall (fun w => w <> no_major_issues) out.
Proof.
induction 1 as [|c clients ((id & Hid) & (n & Hn) & _) _ (out & IH & Hiff & Hne)].
- exists []. split; [done|]. split; [|constructor]. split; [by intros _ c []|done].
- cbn [disappearance_loop]. rewrite Hid, Hn, IH. fold (disappearances_of c).
  destruct (Z.ltb_spec 0 (disappearances_of c)) as [Hlt|Hle]; cbn [mbind result_bind app].
  + eexists. split; [reflexivity|]. split.
    * split; [discriminate|]. intros Hall. specialize (Hall c (or_introl eq_refl)). lia.
    * constructor; [not_the_all_clear|exact Hne].
  + exists out. split; [reflexivity|]. split; [|exact Hne].
    rewrite Hiff. split.
    * intros Hall c' [<-|Hin]; [exact Hle|by apply Hall].
    * intros Hall c' Hin. apply Hall. by right.
Qed.

Lemma interpolation_loop_out u clients :
Forall (client_metrics u) clients ->
exists out,
  interpolation_loop clients = Ok out /\
  (out = [] <-> forall c, In c clients -> interpolation_of c <= 10) /\
  Forall (fun w => w <> no_major_issues) out.
Proof.
induction 1 as [|c clients ((id & Hid) & _ & (n & Hn) & _) _ (out & IH & Hiff & Hne)].
- exists []. split; [done|]. split; [|constructor]. split; [by intros _ c []|done].
- cbn [interpolation_loop]. rewrite Hid, Hn, IH. fold (interpolation_of c).
  destruct (Z.ltb_spec 10 (interpolation_of c)) as [Hlt|Hle]; cbn [mbind result_bind app].
  + eexists. split; [reflexivity|]. split.
    * split; [discriminate|]. intros Hall. specialize (Hall c (or_introl eq_refl)). lia.
    * constructor; [not_the_all_clear|exact Hne].
  + exists out. split; [reflexivity|]. split; [|exact Hne].
    rewrite Hiff. split.
    * intros Hall c' [<-|Hin]; [exact Hle|by apply Hall].
    * intros Hall c' Hin. apply Hall. by right.
Qed.

Lemma underrun_loop_out clients :
Forall (client_metrics true) clients ->
exists out,
  underrun_loop clients = Ok out /\
  (out = [] <-> forall c, In c clients -> underruns_of c <= 0) /\
  Forall (fun w => w <> no_major_issues) out.
Proof.
induction 1 as [|c clients ((id & Hid) & _ & _ & Hu & _) _ (out & IH & Hiff & Hne)].
- exists []. split; [done|]. split; [|constructor]. split; [by intros _ c []|done].
- destruct (Hu eq_refl) as [n Hn].
  cbn [underrun_loop]. rewrite Hid, Hn, IH. fold (underruns_of c).
  destruct (Z.ltb_spec 0 (underruns_of c)) as [Hlt|Hle]; cbn [mbind result_bind app].
  + eexists. split; [reflexivity|]. split.
    * split; [discriminate|]. intros Hall. specialize (Hall c (or_introl eq_refl)). lia.
    * constructor; [not_the_all_clear|exact Hne].
  + exists out. split; [reflexivity|]. split; [|exact Hne].
    rewrite Hiff. split.
    * intros Hall c' [<-|Hin]; [exact Hle|by apply Hall].
    * intros Hall c' Hin. apply Hall. by right.
Qed.

Lemma mismatch_loop_out u clients :
Forall (fun c => client_metrics u c /\ received_of c < 1125899906842624) clients ->
(forall c, In c clients -> received_of c = 0 -> mismatches_of c = 0) ->
exists out,
  mismatch_loop clients = Ok out /\
  (out = [] <-> forall c, In c clients -> 10 * mismatches_of c <= received_of c) /\
  Forall (fun w => w <> no_major_issues) out.
Proof.
induction 1 as [|c clients [((id & Hid) & _ & _ & _ & Hr & Hm) Hb] _ IH]; intros Hz.
- exists []. split; [done|]. split; [|constructor]. split; [by intros _ c []|done].
- destruct IH as (out & IH & Hiff & Hne); [intros c' Hin; apply Hz; by right|].
  cbn [mismatch_loop]. cbv zeta. fold (mismatches_of c). fold (received_of c).
  rewrite (high_mismatches_exact (mismatches_of c) (received_of c)) by lia.
  cbn [mbind result_bind]. rewrite IH.
  destruct (Z.eqb_spec (received_of c) 0) as [E|E].
  + rewrite (Hz c (or_introl eq_refl) E). cbn [Z.ltb Z.compare mbind result_bind app].
    exists out. split; [reflexivity|]. split; [|exact Hne].
    rewrite Hiff. split.
    * intros Hall c' [<-|Hin]; [rewrite (Hz c (or_introl eq_refl) E); lia|by apply Hall].
    * intros Hall c' Hin. apply Hall. by right.
  + destruct (Z.ltb_spec (received_of c) (10 * mismatches_of c)) as [Hlt|Hle].
    * rewrite Hid. cbn [mbind result_bind]. unfold PyFloat.floor_divide.
      destruct (Z.eqb_spec (received_of c) 0); [lia|]. cbn [mbind result_bind app].
      eexists. split; [reflexivity|]. split.
      -- split; [discriminate|]. intros Hall. specialize (Hall c (or_introl eq_refl)). lia.
      -- constructor; [not_the_all_clear|exact Hne].
    * cbn [mbind result_bind app]. exists out. split; [reflexivity|]. split; [|exact Hne].
      rewrite Hiff. split.
      -- intros Hall c' [<-|Hin]; [exact Hle|by apply Hall].
      -- intros Hall c' Hin. apply Hall. by right.
Qed.

End Issues.

(** X22: for the clients of an analysed run whose logs have fewer than
    [2^50] lines, none of which counted a baseline mismatch without a
    received snapshot, the "Issues Detected" part is written, and it
    holds the line "No major issues detected!" exactly when every
    client is quiet: no player disappearance, at most 10 interpolation
    warnings, no buffer underrun (in the copy that counts them), and
    baseline mismatches of at most a tenth of the received snapshots. *)
Theorem X22_no_major_issues (underruns : bool) (avg_delay : list str -> json)
    (fs : gmap str LogAnalyzer.file) (log_dir : str) (ids : list nat)
    (clients : list json) :
  logs_short fs ->
  TestFramework.analyze_clients underruns avg_delay fs log_dir ids = Ok clients ->
  (forall c, In c clients -> received_of c = 0 -> mismatches_of c = 0) ->
  exists out,
    TestFramework.issues_detected underruns clients = Ok out /\
    (In no_major_issues out <-> forall c, In c clients -> quiet_client underruns c).
Proof.
  intros Hfs Hc Hz. destruct (analyze_clients_inv _ _ _ _ _ _ Hc) as [_ Hall].
  pose proof (analyze_clients_counts _ _ _ _ _ _ Hc) as Hcounts.
  assert (Hm : Forall (client_metrics underruns) clients).
  { eapply Forall_impl; [exact Hall|]. by intros c [H _]. }
  assert (Hb : Forall (fun c => client_metrics underruns c /\
                         received_of c < 1125899906842624) clients).
  { eapply Forall_impl; [exact Hall|]. intros c (H & path & lines & Hl & Hle).
    split; [exact H|]. pose proof (Hfs _ _ Hl). lia. }
  destruct (disappearance_loop_out _ _ Hm) as (a & Ha & Ia & Na).
  destruct (interpolation_loop_out _ _ Hm) as (b & Hb' & Ib & Nb).
  assert (Hu : exists c', (if underruns then TestFramework.underrun_loop clients else Ok [])
                          = Ok c' /\
             (c' = [] <-> forall c, In c clients -> underruns = true -> underruns_of c <= 0) /\
             Forall (fun w => w <> no_major_issues) c').
  { destruct underruns.
    - destruct (underrun_loop_out _ Hm) as (c' & H1 & H2 & H3).
      exists c'. split; [exact H1|]. split; [|exact H3].
      rewrite H2. split; intros H c Hin; [intros _|]; by apply H.
    - exists []. split; [done|]. split; [|constructor]. split; [by intros _ c _ ?|done]. }
  destruct Hu as (c' & Hu & Iu & Nu).
  destruct (mismatch_loop_out _ _ Hb Hz) as (d & Hd & Id & Nd).
  unfold TestFramework.issues_detected. rewrite Ha, Hb', Hu, Hd. cbn [mbind result_bind].
  eexists. split; [reflexivity|].
  set (written := a ++ b ++ c' ++ d).
  assert (Nw : Forall (fun w => w <> no_major_issues) written).
  { unfold written. rewrite !Forall_app. by repeat split. }
  assert (Hw : written = [] <->
               forall c, In c clients -> quiet_client underruns c).
  { unfold written. rewrite List.Forall_forall in Hcounts.
    split.
    - intros E. apply app_eq_nil in E as [Ea E]. apply app_eq_nil in E as [Eb E].
      apply app_eq_nil in E as [Ec Ed].
      intros c Hin. destruct (Hcounts c Hin) as [P1 P2].
      pose proof (proj1 Ia Ea c Hin). pose proof (proj1 Ib Eb c Hin).
      pose proof (proj1 Iu Ec c Hin). pose proof (proj1 Id Ed c Hin).
      split; [lia|]. split; [done|]. split; [|done].
      intros Hun. specialize (H1 Hun). lia.
    - intros Hq.
      rewrite (proj2 Ia), (proj2 Ib), (proj2 Iu), (proj2 Id); [done|..];
        intros c Hin; destruct (Hq c Hin) as (Q1 & Q2 & Q3 & Q4); try done; try lia.
      intros Hun. rewrite (Q3 Hun). lia. }
  rewrite <- Hw. cbn [app In]. split.
  - intros [E|Hin]; [exfalso; revert E; unfold no_major_issues, PyStr.nl;
                      cbn [app list_ascii_of_string]; discriminate|].
    apply in_app_or in Hin as [Hin|Hin].
    + exfalso. rewrite List.Forall_forall in Nw. by apply (Nw _ Hin).
    + destruct written; [done|destruct Hin].
  - intros ->. right. left. reflexivity.
Qed.

Lemma X22_witness :
  logs_short steady_fs /\
  exists clients out,
    TestFramework.analyze_clients true (fun _ => JInt 0) steady_fs ($"run") [0%nat]
      = Ok clients /\
    TestFramework._generate_agent_summary clients = Ok out /\
    In no_major_issues out.
Proof.
  assert (Hfs : logs_short steady_fs).
  { intros path lines H. unfold steady_fs in H.
    apply lookup_singleton_Some in H as [_ H]. inversion H. simpl. lia. }
  split; [exact Hfs|]. eexists.
  assert (H : TestFramework.analyze_clients true (fun _ => JInt 0) steady_fs ($"run")
                [0%nat] = Ok _) by (vm_compute; reflexivity).
  assert (Hz : forall c, In c [JDict
    [ ($"client_id", JInt 0); ($"snapshots_received", JInt 10);
      ($"player_disappearances", JInt 0); ($"interpolation_warnings", JInt 0);
      ($"buffer_underruns", JInt 0); ($"baseline_mismatches", JInt 1);
      ($"avg_delay_ms", JInt 0); ($"errors", JList []) ]] ->
      received_of c = 0 -> mismatches_of c = 0).
  { intros c [<-|[]]. vm_compute. discriminate. }
  destruct (X22_no_major_issues _ _ _ _ _ _ Hfs H Hz) as (out & Hout & Hiff).
  exists out. split; [exact H|]. split; [exact Hout|].
  apply Hiff. intros c [<-|[]]. vm_compute. repeat split; discriminate.
Defined.
